(** * CategoryService (backend/src/services/categoryService.ts)

    A shallow embedding of the tenant-scoped category service and of the
    relational store it talks to.

    - A JavaScript string is its sequence of UTF-16 code units
      ([jsstring]).  [trim] removes the white space and line terminators
      of the language; [toLowerCase] belongs to the runtime and is taken
      as given ([CaseFolding]), as is the case folding by which the store
      compares case-insensitively.
    - Every [prisma.category.*] call is a [Request]; a service method is a
      program ([Prog]) that issues requests and continues with the answer,
      so the same program can be run against any store ([Handler]).
    - [MemStore] is a sequential in-memory store with the uniqueness rule
      of the data model. *)

From Stdlib Require Import String Ascii List ZArith NArith Bool Lia.
From Stdlib Require Import Strings.Byte.
From Stdlib Require Import Floats Uint63.
From Stdlib Require Import Sorting.Sorted Sorting.Permutation.
From Stdlib Require Import DecimalString DecimalNat.
Import ListNotations.

Local Open Scope Z_scope.
Local Open Scope list_scope.

Set Implicit Arguments.

(** ** JavaScript strings *)

(** A string value: its UTF-16 code units, first to last. *)
Inductive jsstring : Set :=
| EmptyJS
| JS (u : N) (s : jsstring).

(** String literals are written in UTF-8 and stand for the JavaScript
    string with the same text: the bytes of a literal are decoded into
    code points, and a code point above U+FFFF into its surrogate pair. *)
Fixpoint decodeUtf8 (l : list N) : jsstring :=
  match l with
  | [] => EmptyJS
  | a :: l1 =>
      if (a <? 128)%N then JS a (decodeUtf8 l1)
      else
        match l1 with
        | [] => JS a EmptyJS
        | b :: l2 =>
            if (a <? 224)%N then
              JS ((a - 192) * 64 + (b - 128))%N (decodeUtf8 l2)
            else
              match l2 with
              | [] => JS a (JS b EmptyJS)
              | c :: l3 =>
                  if (a <? 240)%N then
                    JS ((a - 224) * 4096 + (b - 128) * 64 + (c - 128))%N
                       (decodeUtf8 l3)
                  else
                    match l3 with
                    | [] => JS a (JS b (JS c EmptyJS))
                    | d :: l4 =>
                        let cp := ((a - 240) * 262144 + (b - 128) * 4096 +
                                   (c - 128) * 64 + (d - 128))%N in
                        let v := (cp - 65536)%N in
                        JS (55296 + v / 1024)%N
                           (JS (56320 + v mod 1024)%N (decodeUtf8 l4))
                    end
              end
        end
  end.

Definition ofBytes (l : list Byte.byte) : jsstring :=
  decodeUtf8 (map (fun b => N.of_nat (Byte.to_nat b)) l).

(** Strings of ASCII code units are printed back as literals. *)
Fixpoint toBytes (s : jsstring) : option (list Byte.byte) :=
  match s with
  | EmptyJS => Some []
  | JS u s' =>
      if (u <? 128)%N then
        match Byte.of_N u, toBytes s' with
        | Some b, Some l => Some (b :: l)
        | _, _ => None
        end
      else None
  end.

Declare Scope js_scope.
Delimit Scope js_scope with js.
String Notation jsstring ofBytes toBytes : js_scope.
Local Open Scope js_scope.

(** [a === b] on strings. *)
Fixpoint jeqb (a b : jsstring) : bool :=
  match a, b with
  | EmptyJS, EmptyJS => true
  | JS u a', JS v b' => ((u =? v)%N && jeqb a' b')%bool
  | _, _ => false
  end.

Infix "=?" := jeqb : js_scope.

(** [a + b] on strings. *)
Fixpoint jsapp (a b : jsstring) : jsstring :=
  match a with
  | EmptyJS => b
  | JS u a' => JS u (jsapp a' b)
  end.

(** A string of ASCII characters as a JavaScript string. *)
Fixpoint ofAscii (s : string) : jsstring :=
  match s with
  | EmptyString => EmptyJS
  | String a s' => JS (N_of_ascii a) (ofAscii s')
  end.

(** The runtime's [String.prototype.toLowerCase] and the case folding of
    the store.  [toLowerCase] follows the Unicode tables of the JavaScript
    engine, and [fold] is the key under which the store compares two texts
    case-insensitively (its collation); neither is part of the sources, so
    both are taken as given and nothing is assumed about them. *)
Class CaseFolding : Type := mkCaseFolding {
  toLowerCase : jsstring -> jsstring;
  fold : jsstring -> jsstring
}.

(** White space and line terminators removed by [String.prototype.trim]:
    TAB, LF, VT, FF, CR, SPACE, NO-BREAK SPACE, OGHAM SPACE MARK, the spaces
    U+2000 to U+200A, LINE SEPARATOR, PARAGRAPH SEPARATOR, NARROW NO-BREAK
    SPACE, MEDIUM MATHEMATICAL SPACE, IDEOGRAPHIC SPACE and the byte order
    mark U+FEFF. *)
Definition isWhiteSpace (u : N) : bool :=
  (((9 <=? u) && (u <=? 13)) || (u =? 32) || (u =? 160) || (u =? 5760) ||
   ((8192 <=? u) && (u <=? 8202)) || (u =? 8232) || (u =? 8233) ||
   (u =? 8239) || (u =? 8287) || (u =? 12288) || (u =? 65279))%N%bool.

Fixpoint trimStart (s : jsstring) : jsstring :=
  match s with
  | EmptyJS => EmptyJS
  | JS u s' => if isWhiteSpace u then trimStart s' else s
  end.

Fixpoint trimEnd (s : jsstring) : jsstring :=
  match s with
  | EmptyJS => EmptyJS
  | JS u s' =>
      let t := trimEnd s' in
      if (isWhiteSpace u && (t =? ""))%bool then EmptyJS else JS u t
  end.

Definition trim (s : jsstring) : jsstring := trimEnd (trimStart s).

(** [hay.startsWith(needle)]. *)
Fixpoint startsWith (needle hay : jsstring) : bool :=
  match needle, hay with
  | EmptyJS, _ => true
  | JS u n', JS v h' => ((u =? v)%N && startsWith n' h')%bool
  | JS _ _, EmptyJS => false
  end.

(** [hay.includes(needle)]. *)
Fixpoint includes (needle hay : jsstring) : bool :=
  (startsWith needle hay ||
   match hay with
   | EmptyJS => false
   | JS _ hay' => includes needle hay'
   end)%bool.

(** Truthiness of a string value: [""] is falsy. *)
Definition truthy (s : jsstring) : bool := negb (s =? "").

(** Truthiness of an optional string: [undefined] and [""] are falsy. *)
Definition truthyOpt (s : option jsstring) : bool :=
  match s with
  | Some v => truthy v
  | None => false
  end.

(** ** Data model *)

(** A row of the [Category] table. *)
Record Category : Type := mkCategory {
  cat_id : jsstring;
  cat_nome : jsstring;
  cat_cor : jsstring;
  cat_descricao : option jsstring;
  cat_tenantId : option jsstring;
  cat_criadoEm : Z
}.

(** [CategoryInput] of [../types]: [descricao] is optional. *)
Record CategoryInput : Type := mkCategoryInput {
  in_nome : jsstring;
  in_cor : jsstring;
  in_descricao : option jsstring
}.

(** A thrown value: [new Error(message)] has no [code]; the errors of the
    store carry one (["P2002"] for a unique-constraint violation). *)
Record Error : Type := mkError {
  err_code : option jsstring;
  err_message : jsstring
}.

Definition newError (message : jsstring) : Error :=
  {| err_code := None; err_message := message |}.

(** [error.code === c]. *)
Definition codeIs (e : Error) (c : jsstring) : bool :=
  match err_code e with
  | Some c' => c' =? c
  | None => false
  end.

(** ** Filters ([where] objects) *)

Inductive QueryMode : Type := Default | Insensitive.

Inductive StringFilter : Type :=
| Equals (v : jsstring) (mode : QueryMode)
| Contains (v : jsstring) (mode : QueryMode).

(** One filter object: every key that is present must hold. *)
Record Cond : Type := mkCond {
  c_id : option jsstring;
  c_tenantId : option jsstring;
  c_nome : option StringFilter;
  c_descricao : option StringFilter
}.

(** A [where] object: its own keys plus an optional [OR] list. *)
Record Where : Type := mkWhere {
  w_cond : Cond;
  w_OR : option (list Cond)
}.

(** [{}] *)
Definition emptyCond : Cond :=
  {| c_id := None; c_tenantId := None; c_nome := None; c_descricao := None |}.

Definition emptyWhere : Where := {| w_cond := emptyCond; w_OR := None |}.

(** [where.tenantId = t] *)
Definition setTenantId (w : Where) (t : jsstring) : Where :=
  {| w_cond := {| c_id := c_id (w_cond w);
                  c_tenantId := Some t;
                  c_nome := c_nome (w_cond w);
                  c_descricao := c_descricao (w_cond w) |};
     w_OR := w_OR w |}.

(** [where.OR = l] *)
Definition setOR (w : Where) (l : list Cond) : Where :=
  {| w_cond := w_cond w; w_OR := Some l |}.

(** [if (tenantId !== undefined) { where.tenantId = tenantId; }] *)
Definition applyTenantFilter (w : Where) (tenantId : option jsstring) : Where :=
  match tenantId with
  | Some t => setTenantId w t
  | None => w
  end.

Section Matching.

Context {L : CaseFolding}.

(** Modelled from the spec: the filters of the Relational Store.  A
    case-insensitive filter compares the folded texts. *)
Definition matchString (f : StringFilter) (s : jsstring) : bool :=
  match f with
  | Equals v Default => s =? v
  | Equals v Insensitive => fold s =? fold v
  | Contains v Default => includes v s
  | Contains v Insensitive => includes (fold v) (fold s)
  end.

Definition optEqb (a b : option jsstring) : bool :=
  match a, b with
  | Some x, Some y => x =? y
  | None, None => true
  | _, _ => false
  end.

Definition matchesCond (c : Cond) (r : Category) : bool :=
  (match c_id c with Some i => cat_id r =? i | None => true end &&
   match c_tenantId c with
   | Some t => optEqb (cat_tenantId r) (Some t)
   | None => true
   end &&
   match c_nome c with Some f => matchString f (cat_nome r) | None => true end &&
   match c_descricao c with
   | Some f =>
       match cat_descricao r with
       | Some d => matchString f d
       | None => false
       end
   | None => true
   end)%bool.

Definition matches (w : Where) (r : Category) : bool :=
  (matchesCond (w_cond w) r &&
   match w_OR w with
   | Some l => existsb (fun c => matchesCond c r) l
   | None => true
   end)%bool.

End Matching.

(** ** Requests to the store and programs over them *)

Record CreateData : Type := mkCreateData {
  d_nome : jsstring;
  d_cor : jsstring;
  d_descricao : option jsstring;
  d_tenantId : option jsstring
}.

Record UpdateData : Type := mkUpdateData {
  u_nome : jsstring;
  u_cor : jsstring;
  u_descricao : option jsstring
}.

(** The calls on [prisma.category] made by the service, indexed by the type
    of their answer.  [FindMany] is always ordered by [criadoEm] descending;
    its [skip] and [take] are optional. *)
Inductive Request : Type -> Type :=
| FindFirst (w : Where) : Request (option Category)
| FindMany (w : Where) (skip take : option Z) : Request (list Category)
| Count (w : Where) : Request Z
| Create (data : CreateData) : Request Category
| Update (id : jsstring) (data : UpdateData) : Request Category
| Delete (id : jsstring) : Request unit.

(** A request with its answer type hidden, for traces. *)
Inductive Event : Type :=
| Ev {X : Type} (q : Request X).

(** A service method: it returns, throws, or awaits a request and goes on
    with the answer, which is a row or a rejection. *)
Inductive Prog (A : Type) : Type :=
| Ret (a : A)
| Throw (e : Error)
| Call {X : Type} (q : Request X) (k : Error + X -> Prog A).

Arguments Ret {A} a.
Arguments Throw {A} e.
Arguments Call {A X} q k.

Fixpoint bind {A B : Type} (p : Prog A) (f : A -> Prog B) : Prog B :=
  match p with
  | Ret a => f a
  | Throw e => Throw e
  | Call q k => Call q (fun r => bind (k r) f)
  end.

(** [try { p } catch (error) { h error }]: errors thrown by [h] itself are
    not caught again. *)
Fixpoint tryCatch {A : Type} (p : Prog A) (h : Error -> Prog A) : Prog A :=
  match p with
  | Ret a => Ret a
  | Throw e => h e
  | Call q k => Call q (fun r => tryCatch (k r) h)
  end.

(** [await q]: a rejection is thrown at the call site. *)
Definition await {X : Type} (q : Request X) : Prog X :=
  Call q (fun r => match r with inl e => Throw e | inr x => Ret x end).

(** [await Promise.all([q1, q2])]: both requests are issued before either
    answer is looked at.  With two rejections the one that settles first is
    thrown; [secondFirst] says that it is the second request's. *)
Definition awaitAll2 {X Y : Type} (secondFirst : bool) (q1 : Request X)
    (q2 : Request Y) : Prog (X * Y) :=
  Call q1 (fun r1 =>
  Call q2 (fun r2 =>
    match r1, r2 with
    | inr x, inr y => Ret (x, y)
    | inl e1, inl e2 => Throw (if secondFirst then e2 else e1)
    | inl e, inr _ => Throw e
    | inr _, inl e => Throw e
    end)).

Notation "x <- p ;; q" := (bind p (fun x => q))
  (at level 61, p at next level, right associativity).
Notation "' pat <- p ;; q" := (bind p (fun x => match x with pat => q end))
  (at level 61, pat pattern, p at next level, right associativity).

(** ** JavaScript numbers used by the service *)

(** [Math.ceil(a / b)] for integers [a], [b]; the quotient of doubles
    gives the same value for the row counts a table can hold.  With [b = 0]
    JavaScript yields [Infinity] or [NaN], which is [None] here. *)
Definition mathCeilDiv (a b : Z) : option Z :=
  if (b =? 0)%Z then None else Some (- ((- a) / b)).

(** [Math.floor(x)] on a double: [None] for [NaN] and the infinities. *)
Definition mathFloor (x : float) : option Z :=
  match Prim2SF x with
  | S754_zero _ => Some 0
  | S754_finite s m e =>
      let n := if s then Zneg m else Zpos m in
      Some (if (0 <=? e)%Z then n * 2 ^ e else n / 2 ^ (- e))
  | S754_infinity _ => None
  | S754_nan => None
  end.

(** [l[Math.floor(random * l.length)]], the product being that of doubles.
    [random] is the value of [Math.random()], a double in the interval
    [0, 1), for which the index is in range; out of range the element is
    [undefined], written [""] here. *)
Definition pickAtRandom (random : float) (l : list jsstring) : jsstring :=
  let n := PrimFloat.of_uint63 (Uint63.of_Z (Z.of_nat (length l))) in
  match mathFloor (random * n)%float with
  | Some k => if (k <? 0)%Z then "" else nth (Z.to_nat k) l ""
  | None => ""
  end.

(** ** The service *)

Module CategoryService.

Record CategoriesResponse : Type := mkCategoriesResponse {
  categories : list Category;
  total : Z;
  page : Z;
  pageSize : Z;
  totalPages : option Z
}.

Section Listing.

Context {L : CaseFolding}.

(** The [where] of the listing (lines 13-36). *)
Definition listWhere (search : option jsstring) (tenantId : option jsstring)
  : Where :=
  let where_ := emptyWhere in
  let where_ := applyTenantFilter where_ tenantId in
  match search with
  | Some s =>
      if truthy s then
        let searchLower := toLowerCase s in
        setOR where_
          [ {| c_id := None; c_tenantId := None;
               c_nome := Some (Contains searchLower Insensitive);
               c_descricao := None |};
            {| c_id := None; c_tenantId := None;
               c_nome := None;
               c_descricao := Some (Contains searchLower Insensitive) |} ]
      else where_
  | None => where_
  end.

(** [static async getCategories(search?, page = 1, pageSize = 10, tenantId?)].
    [countFirst] says which rejection [Promise.all] reports when both
    requests are rejected: that of the count when it is [true].  [page] and
    [pageSize] are integers here; the numbers of the code agree with them
    as long as [(page - 1) * pageSize] stays below 2^53. *)
Definition getCategories (search : option jsstring) (page pageSize : option Z)
    (tenantId : option jsstring) (countFirst : bool)
  : Prog CategoriesResponse :=
  let page := match page with Some p => p | None => 1 end in
  let pageSize := match pageSize with Some p => p | None => 10 end in
  let where_ := listWhere search tenantId in
  '(categories, total) <-
     awaitAll2 countFirst
               (FindMany where_ (Some ((page - 1) * pageSize)) (Some pageSize))
               (Count where_) ;;
  Ret {| categories := categories;
         total := total;
         page := page;
         pageSize := pageSize;
         totalPages := mathCeilDiv total pageSize |}.

End Listing.

(** [const where: any = { id }] followed by the tenant filter. *)
Definition whereId (id : jsstring) (tenantId : option jsstring) : Where :=
  let where_ :=
    {| w_cond := {| c_id := Some id; c_tenantId := None;
                    c_nome := None; c_descricao := None |};
       w_OR := None |} in
  applyTenantFilter where_ tenantId.

Definition notFound : Error := newError "Categoria não encontrada".

(** [static async getCategoryById(id, tenantId?)] *)
Definition getCategoryById (id : jsstring) (tenantId : option jsstring)
  : Prog Category :=
  let where_ := whereId id tenantId in
  category <- await (FindFirst where_) ;;
  match category with
  | None => Throw notFound
  | Some c => Ret c
  end.

(** [data.descricao || null] *)
Definition orNull (descricao : option jsstring) : option jsstring :=
  if truthyOpt descricao then descricao else None.

(** [static async createCategory(data, tenantId?)] *)
Definition createCategory (data : CategoryInput) (tenantId : option jsstring)
  : Prog Category :=
  newCategory <- await (Create {| d_nome := in_nome data;
                                  d_cor := in_cor data;
                                  d_descricao := orNull (in_descricao data);
                                  d_tenantId := tenantId |}) ;;
  Ret newCategory.

(** [static async updateCategory(id, data, tenantId?)] *)
Definition updateCategory (id : jsstring) (data : CategoryInput)
    (tenantId : option jsstring) : Prog Category :=
  let where_ := whereId id tenantId in
  existingCategory <- await (FindFirst where_) ;;
  match existingCategory with
  | None => Throw notFound
  | Some _ =>
      updatedCategory <- await (Update id
                                  {| u_nome := in_nome data;
                                     u_cor := in_cor data;
                                     u_descricao := orNull (in_descricao data) |}) ;;
      Ret updatedCategory
  end.

(** [static async deleteCategory(id, tenantId?)] *)
Definition deleteCategory (id : jsstring) (tenantId : option jsstring)
  : Prog unit :=
  let where_ := whereId id tenantId in
  existingCategory <- await (FindFirst where_) ;;
  match existingCategory with
  | None => Throw notFound
  | Some _ => await (Delete id)
  end.

(** [static async getAllCategories(tenantId?)] *)
Definition getAllCategories (tenantId : option jsstring) : Prog (list Category) :=
  let where_ := applyTenantFilter emptyWhere tenantId in
  await (FindMany where_ None None).

Definition defaultColors : list jsstring :=
  [ "#1e3a5f"; "#4a9eff"; "#10B981"; "#F59E0B"; "#EF4444";
    "#8B5CF6"; "#F97316"; "#06B6D4"; "#84CC16"; "#EC4899" ].

Definition nameRequired : Error := newError "Nome da categoria é obrigatório".

(** The [where] of the case-insensitive lookup (lines 158-168). *)
Definition lookupWhere (nomeTrimmed : jsstring) (tenantId : option jsstring)
  : Where :=
  let where_ :=
    {| w_cond := {| c_id := None; c_tenantId := None;
                    c_nome := Some (Equals nomeTrimmed Insensitive);
                    c_descricao := None |};
       w_OR := None |} in
  applyTenantFilter where_ tenantId.

(** The [fallbackWhere] of the exact lookup (lines 216-219). *)
Definition fallbackWhere (nomeTrimmed : jsstring) (tenantId : option jsstring)
  : Where :=
  let where_ :=
    {| w_cond := {| c_id := None; c_tenantId := None;
                    c_nome := Some (Equals nomeTrimmed Default);
                    c_descricao := None |};
       w_OR := None |} in
  applyTenantFilter where_ tenantId.

(** The [data] of the insert (lines 196-201). *)
Definition newCategoryData (nomeTrimmed : jsstring) (tenantId : option jsstring)
    (random : float) : CreateData :=
  let randomColor := pickAtRandom random defaultColors in
  {| d_nome := nomeTrimmed;
     d_cor := randomColor;
     d_descricao := None;
     d_tenantId := tenantId |}.

(** [static async findOrCreateCategoryByName(nome, tenantId?)].  [random]
    is the value [Math.random()] returns on line 190. *)
Definition findOrCreateCategoryByName (nome : jsstring)
    (tenantId : option jsstring) (random : float) : Prog jsstring :=
  if (negb (truthy nome) || negb (truthy (trim nome)))%bool then
    Throw nameRequired
  else
    let nomeTrimmed := trim nome in
    let where_ := lookupWhere nomeTrimmed tenantId in
    existingCategory <- await (FindFirst where_) ;;
    match existingCategory with
    | Some c => Ret (cat_id c)
    | None =>
        tryCatch
          (newCategory <-
             await (Create (newCategoryData nomeTrimmed tenantId random)) ;;
           Ret (cat_id newCategory))
          (fun error =>
             if codeIs error "P2002" then
               category <- await (FindFirst where_) ;;
               match category with
               | Some c => Ret (cat_id c)
               | None =>
                   fallbackCategory <-
                     await (FindFirst (fallbackWhere nomeTrimmed tenantId)) ;;
                   match fallbackCategory with
                   | Some c => Ret (cat_id c)
                   | None => Throw error
                   end
               end
             else Throw error)
    end.

End CategoryService.

(** ** Running a program against a store *)

(** A store answers each request and moves to a new state. *)
Definition Handler (S : Type) : Type :=
  forall X : Type, Request X -> S -> (Error + X) * S.

(** The outcome of a run: the value returned or the error thrown, the final
    state of the store, and the requests issued, in order. *)
Fixpoint run {S A : Type} (h : Handler S) (p : Prog A) (s : S)
  : (Error + A) * S * list Event :=
  match p with
  | Ret a => (inr a, s, [])
  | Throw e => (inl e, s, [])
  | Call q k =>
      let '(r, s1) := h _ q s in
      let '(o, s2, tr) := run h (k r) s1 in
      (o, s2, Ev q :: tr)
  end.

Definition outcome {S A : Type} (x : (Error + A) * S * list Event)
  : Error + A := fst (fst x).
Definition finalState {S A : Type} (x : (Error + A) * S * list Event)
  : S := snd (fst x).
Definition trace {S A : Type} (x : (Error + A) * S * list Event)
  : list Event := snd x.

(** ** A sequential in-memory store *)

Module MemStore.

(** The table, the serial of the next generated id, and the clock that
    stamps [criadoEm]. *)
Record DB : Type := mkDB {
  rows : list Category;
  nextId : nat;
  clock : Z
}.

(** Generated ids: the letter [c] followed by the serial in decimal. *)
Definition genId (n : nat) : jsstring :=
  ofAscii (String "c"%char (NilEmpty.string_of_uint (Nat.to_uint n))).

Section Store.

Context {L : CaseFolding}.

(** Modelled from the spec: the uniqueness constraint of the [Category]
    table, whose schema is not among the sources.  Within the same
    [tenantId], no two rows have [nome] equal under case-insensitive
    comparison, that is, with the same folded text; [sameKey t n r] says
    that row [r] holds the key [(t, n)]. *)
Definition sameKey (tenantId : option jsstring) (nome : jsstring) (r : Category)
  : bool :=
  (optEqb (cat_tenantId r) tenantId &&
   (fold (cat_nome r) =? fold nome))%bool.

Definition uniqueViolation : Error :=
  {| err_code := Some "P2002"; err_message := "Unique constraint failed" |}.

Definition recordNotFound : Error :=
  {| err_code := Some "P2025"; err_message := "Record not found" |}.

Definition invalidArgument : Error :=
  {| err_code := None; err_message := "Invalid skip or take" |}.

(** [orderBy: { criadoEm: 'desc' }], as a stable insertion sort. *)
Fixpoint insertDesc (r : Category) (l : list Category) : list Category :=
  match l with
  | [] => [r]
  | x :: l' =>
      if (cat_criadoEm x <=? cat_criadoEm r)%Z then r :: l
      else x :: insertDesc r l'
  end.

Definition orderByCriadoEmDesc (l : list Category) : list Category :=
  fold_right insertDesc [] l.

(** All rows selected by [w], newest first. *)
Definition listing (w : Where) (db : DB) : list Category :=
  orderByCriadoEmDesc (filter (matches w) (rows db)).

(** Modelled from the spec: [findMany(filter, orderBy, skip, take)] of the
    Relational Store.  An absent [skip] is 0 and an absent [take] is the
    whole listing; a negative [skip] or [take], which the spec leaves to
    the store, is rejected here. *)
Definition findMany (w : Where) (skip take : option Z) (db : DB)
  : Error + list Category :=
  let skip := match skip with Some n => n | None => 0 end in
  let all := listing w db in
  match take with
  | Some n =>
      if ((skip <? 0) || (n <? 0))%Z%bool then inl invalidArgument
      else inr (firstn (Z.to_nat n) (skipn (Z.to_nat skip) all))
  | None =>
      if (skip <? 0)%Z then inl invalidArgument
      else inr (skipn (Z.to_nat skip) all)
  end.

(** The row an insert of [d] produces: a generated id and the current
    time. *)
Definition inserted (d : CreateData) (db : DB) : Category :=
  {| cat_id := genId (nextId db);
     cat_nome := d_nome d;
     cat_cor := d_cor d;
     cat_descricao := d_descricao d;
     cat_tenantId := d_tenantId d;
     cat_criadoEm := clock db |}.

(** Modelled from the spec: [create(fields)] of the Relational Store.  It
    fails with the unique-constraint kind when a row already holds the
    key; otherwise the new row is appended to the table. *)
Definition create (d : CreateData) (db : DB) : (Error + Category) * DB :=
  if existsb (sameKey (d_tenantId d) (d_nome d)) (rows db) then
    (inl uniqueViolation, db)
  else
    let r := inserted d db in
    (inr r, {| rows := rows db ++ [r];
               nextId := S (nextId db);
               clock := clock db + 1 |}).

(** The row [old] with the fields of [d] written over it. *)
Definition overwrite (old : Category) (d : UpdateData) : Category :=
  {| cat_id := cat_id old;
     cat_nome := u_nome d;
     cat_cor := u_cor d;
     cat_descricao := u_descricao d;
     cat_tenantId := cat_tenantId old;
     cat_criadoEm := cat_criadoEm old |}.

(** Modelled from the spec: [update(key, fields)] of the Relational Store,
    keyed by [id].  It fails when no row has the id, and with the
    unique-constraint kind when another row already holds the new key. *)
Definition update (id : jsstring) (d : UpdateData) (db : DB)
  : (Error + Category) * DB :=
  match find (fun r => cat_id r =? id) (rows db) with
  | None => (inl recordNotFound, db)
  | Some old =>
      let r' := overwrite old d in
      if existsb (fun r => negb (cat_id r =? id) &&
                           sameKey (cat_tenantId r') (cat_nome r') r)%bool
                 (rows db)
      then (inl uniqueViolation, db)
      else (inr r',
            {| rows := map (fun r => if cat_id r =? id then r' else r) (rows db);
               nextId := nextId db;
               clock := clock db |})
  end.

(** Modelled from the spec: [delete(key)] of the Relational Store, keyed
    by [id]. *)
Definition delete (id : jsstring) (db : DB) : (Error + unit) * DB :=
  match find (fun r => cat_id r =? id) (rows db) with
  | None => (inl recordNotFound, db)
  | Some _ =>
      (inr tt,
       {| rows := filter (fun r => negb (cat_id r =? id)) (rows db);
          nextId := nextId db;
          clock := clock db |})
  end.

(** Modelled from the spec: the Relational Store collaborator
    ([findOne], [findMany], [count], [create], [update], [delete]); the
    Prisma client and its schema are not among the sources. *)
Definition handle : Handler DB :=
  fun X q =>
    match q in Request X return DB -> (Error + X) * DB with
    | FindFirst w => fun db => (inr (find (matches w) (rows db)), db)
    | FindMany w skip take => fun db => (findMany w skip take db, db)
    | Count w =>
        fun db => (inr (Z.of_nat (length (filter (matches w) (rows db)))), db)
    | Create d => create d
    | Update id d => update id d
    | Delete id => delete id
    end.

Definition exec {A : Type} (p : Prog A) (db : DB)
  : (Error + A) * DB * list Event :=
  run handle p db.

Definition empty : DB := {| rows := []; nextId := 0; clock := 0 |}.

(** The data-model invariant on names, as a check on a table. *)
Fixpoint uniqueNames (l : list Category) : bool :=
  match l with
  | [] => true
  | r :: l' =>
      (negb (existsb (sameKey (cat_tenantId r) (cat_nome r)) l') &&
       uniqueNames l')%bool
  end.

(** Rows visible in the scope [tenantId]: all of them when unscoped. *)
Definition visible (tenantId : option jsstring) (r : Category) : bool :=
  match tenantId with
  | Some t => optEqb (cat_tenantId r) (Some t)
  | None => true
  end.

(** Rows visible in the scope whose [nome] equals [n] case-insensitively. *)
Definition rowsNamed (tenantId : option jsstring) (n : jsstring) (db : DB)
  : list Category :=
  filter (fun r => visible tenantId r && (fold (cat_nome r) =? fold n))%bool
         (rows db).

(** No row with this id is visible in the scope. *)
Definition notVisible (id : jsstring) (tenantId : option jsstring) (db : DB)
  : Prop :=
  forall r : Category,
    In r (rows db) -> cat_id r = id -> visible tenantId r = false.

(** Newest first: the order of a listing. *)
Definition newerFirst (a b : Category) : Prop :=
  (cat_criadoEm b <= cat_criadoEm a)%Z.

(** Ids are a key of the table and generated ids are still unused. *)
Definition wellFormed (db : DB) : Prop :=
  NoDup (map cat_id (rows db)) /\
  forall r k, In r (rows db) -> (nextId db <= k)%nat -> cat_id r <> genId k.

End Store.

End MemStore.

(** ** A scripted store

    It replays a list of prepared answers, one per request, whatever the
    request is; an answer of the wrong kind or an exhausted script is a
    rejection.  It stands for an arbitrary environment, other callers
    included. *)

Module Script.

Inductive Answer : Type :=
| ARow (r : Error + option Category)
| ARows (r : Error + list Category)
| ACount (r : Error + Z)
| ACategory (r : Error + Category)
| AUnit (r : Error + unit).

Definition offScript : Error :=
  {| err_code := None; err_message := "off script" |}.

Definition handle : Handler (list Answer) :=
  fun X q =>
    match q in Request X return list Answer -> (Error + X) * list Answer with
    | FindFirst _ => fun s =>
        match s with ARow r :: s' => (r, s') | _ => (inl offScript, tl s) end
    | FindMany _ _ _ => fun s =>
        match s with ARows r :: s' => (r, s') | _ => (inl offScript, tl s) end
    | Count _ => fun s =>
        match s with ACount r :: s' => (r, s') | _ => (inl offScript, tl s) end
    | Create _ => fun s =>
        match s with ACategory r :: s' => (r, s') | _ => (inl offScript, tl s) end
    | Update _ _ => fun s =>
        match s with ACategory r :: s' => (r, s') | _ => (inl offScript, tl s) end
    | Delete _ => fun s =>
        match s with AUnit r :: s' => (r, s') | _ => (inl offScript, tl s) end
    end.

End Script.

(** ** Two callers on the in-memory store

    One call runs against the in-memory store while a rival call runs to
    completion just before the request number [at_] of the first (requests
    are counted from 0).  This is one interleaving of two requests that
    race on awaits. *)

Module Race.

Record State : Type := mkState {
  store : MemStore.DB;
  step : nat;
  rival : option (Error + jsstring)
}.

Definition start (db : MemStore.DB) : State :=
  {| store := db; step := 0; rival := None |}.

Section Rival.

Context {L : CaseFolding}.

Definition handle (other : Prog jsstring) (at_ : nat) : Handler State :=
  fun X q st =>
    let st1 :=
      if Nat.eqb (step st) at_ then
        let res := MemStore.exec other (store st) in
        {| store := finalState res;
           step := step st;
           rival := Some (outcome res) |}
      else st in
    let '(r, db2) := MemStore.handle q (store st1) in
    (r, {| store := db2; step := S (step st1); rival := rival st1 |}).

End Rival.

End Race.

(** ** What an event compares with or writes *)

(** The [nome] a request looks up by equality or stores. *)
Definition eventNome (ev : Event) : option jsstring :=
  match ev with
  | Ev (FindFirst w) =>
      match c_nome (w_cond w) with
      | Some (Equals v _) => Some v
      | _ => None
      end
  | Ev (Create d) => Some (d_nome d)
  | Ev (Update _ d) => Some (u_nome d)
  | Ev _ => None
  end.

(** The [descricao] a request writes, when it writes a row. *)
Definition writtenDescricao (ev : Event) : option (option jsstring) :=
  match ev with
  | Ev (Create d) => Some (d_descricao d)
  | Ev (Update _ d) => Some (u_descricao d)
  | Ev _ => None
  end.

(** Requests that write to the table. *)
Definition isWrite (ev : Event) : bool :=
  match ev with
  | Ev (Create _) => true
  | Ev (Update _ _) => true
  | Ev (Delete _) => true
  | Ev _ => false
  end.

(** Inserts. *)
Definition isInsert (ev : Event) : bool :=
  match ev with
  | Ev (Create _) => true
  | Ev _ => false
  end.

Section Pages.

Context {L : CaseFolding}.

(** The rows [getCategories] returns for page [p] on the in-memory store;
    no rows when the call fails. *)
Definition pageRows (db : MemStore.DB) (search : option jsstring)
    (pageSize : Z) (tenantId : option jsstring) (countFirst : bool) (p : Z)
  : list Category :=
  match outcome (MemStore.exec
                   (CategoryService.getCategories search (Some p)
                      (Some pageSize) tenantId countFirst) db) with
  | inr resp => CategoryService.categories resp
  | inl _ => []
  end.

(** Pages 1 to [k], one after the other. *)
Fixpoint firstPages (db : MemStore.DB) (search : option jsstring)
    (pageSize : Z) (tenantId : option jsstring) (countFirst : bool) (k : nat)
  : list Category :=
  match k with
  | O => []
  | S k' =>
      firstPages db search pageSize tenantId countFirst k' ++
      pageRows db search pageSize tenantId countFirst (Z.of_nat k)
  end.

End Pages.

(** ** Sample data *)

Module Sample.

(** A folding for the examples: it lowers the letters A to Z and keeps
    every other code unit. *)
Fixpoint lowerAtoZ (s : jsstring) : jsstring :=
  match s with
  | EmptyJS => EmptyJS
  | JS u s' =>
      JS (if ((65 <=? u) && (u <=? 90))%N%bool then u + 32 else u)%N
         (lowerAtoZ s')
  end.

Definition ascii : CaseFolding :=
  {| toLowerCase := lowerAtoZ; fold := lowerAtoZ |}.

#[local] Existing Instance ascii.

(** NO-BREAK SPACE. *)
Definition nbsp : jsstring := JS 160 EmptyJS.

Definition work : Category :=
  {| cat_id := "c7"; cat_nome := "Work"; cat_cor := "#10B981";
     cat_descricao := None; cat_tenantId := Some "t1"; cat_criadoEm := 5 |}.

Definition unreachable : Error :=
  {| err_code := Some "P1001";
     err_message := "Can't reach database server" |}.

(** Another caller inserts the row between the lookup and the insert. *)
Definition raceLost : list Script.Answer :=
  [ Script.ARow (inr None);
    Script.ACategory (inl MemStore.uniqueViolation);
    Script.ARow (inr (Some work)) ].

(** The second lookup misses and the exact lookup finds the row. *)
Definition raceLostExact : list Script.Answer :=
  [ Script.ARow (inr None);
    Script.ACategory (inl MemStore.uniqueViolation);
    Script.ARow (inr None);
    Script.ARow (inr (Some work)) ].

(** Neither recovery lookup finds a row. *)
Definition raceLostNoRow : list Script.Answer :=
  [ Script.ARow (inr None);
    Script.ACategory (inl MemStore.uniqueViolation);
    Script.ARow (inr None);
    Script.ARow (inr None) ].

(** The insert fails because the store cannot be reached. *)
Definition storeDown : list Script.Answer :=
  [ Script.ARow (inr None);
    Script.ACategory (inl unreachable);
    Script.ARow (inr (Some work)) ].

Definition bills : CategoryInput :=
  {| in_nome := "Bills"; in_cor := "#FF0000"; in_descricao := None |}.

(** One tenant with one category. *)
Definition oneTenant : MemStore.DB :=
  finalState
    (MemStore.exec (CategoryService.createCategory bills (Some "t1"))
       MemStore.empty).

(** Tenants A and B each own a category called Work. *)
Definition twoTenants : MemStore.DB :=
  finalState
    (MemStore.exec
       (CategoryService.createCategory
          {| in_nome := "work"; in_cor := "#00FF00"; in_descricao := None |}
          (Some "B"))
       (finalState
          (MemStore.exec
             (CategoryService.createCategory
                {| in_nome := "Work"; in_cor := "#FF0000";
                   in_descricao := Some "office" |}
                (Some "A"))
             MemStore.empty))).

(** [n] categories of tenant t1, created one after the other. *)
Fixpoint populate (n : nat) (db : MemStore.DB) : MemStore.DB :=
  match n with
  | O => db
  | S k =>
      finalState
        (MemStore.exec
           (CategoryService.createCategory
              {| in_nome := MemStore.genId k; in_cor := "#1e3a5f";
                 in_descricao := None |}
              (Some "t1"))
           (populate k db))
  end.

Definition twentyFive : MemStore.DB := populate 25 MemStore.empty.

(** The row of tenant A in [twoTenants]. *)
Definition workA : Category :=
  {| cat_id := "c0"; cat_nome := "Work"; cat_cor := "#FF0000";
     cat_descricao := Some "office"; cat_tenantId := Some "A";
     cat_criadoEm := 0 |}.

(** The page query is rejected and the count succeeds. *)
Definition pageQueryDown : list Script.Answer :=
  [ Script.ARows (inl unreachable); Script.ACount (inr 7%Z) ].

(** The page query succeeds and the count is rejected. *)
Definition countDown : list Script.Answer :=
  [ Script.ARows (inr [work]); Script.ACount (inl unreachable) ].

(** Both requests of the listing are rejected, each with its own error. *)
Definition timedOut : Error :=
  {| err_code := Some "P1008"; err_message := "Operations timed out" |}.

Definition bothDown : list Script.Answer :=
  [ Script.ARows (inl unreachable); Script.ACount (inl timedOut) ].

(** The existence check finds a row and the write is rejected. *)
Definition writeRejected : list Script.Answer :=
  [ Script.ARow (inr (Some work));
    Script.ACategory (inl MemStore.uniqueViolation) ].

(** The existence check finds a row and the delete is rejected. *)
Definition deleteRejected : list Script.Answer :=
  [ Script.ARow (inr (Some work)); Script.AUnit (inl unreachable) ].

(** The insert is rejected out of hand. *)
Definition insertRejected : list Script.Answer :=
  [ Script.ACategory (inl MemStore.uniqueViolation) ].

(** The race is lost and the store goes down before the recovery lookup. *)
Definition raceLostThenDown : list Script.Answer :=
  [ Script.ARow (inr None);
    Script.ACategory (inl MemStore.uniqueViolation);
    Script.ARow (inl unreachable) ].

(** The race is lost and the store goes down before the exact lookup. *)
Definition raceLostExactDown : list Script.Answer :=
  [ Script.ARow (inr None);
    Script.ACategory (inl MemStore.uniqueViolation);
    Script.ARow (inr None);
    Script.ARow (inl unreachable) ].

End Sample.

(** * Properties *)

Import CategoryService.

(** ** Strings *)

Lemma jeqb_eq (a b : jsstring) : (a =? b) = true <-> a = b.
Proof.
  revert b. induction a as [ | u a IH]; intros [ | v b]; simpl;
    try (split; intros H; [discriminate H | discriminate H]);
    try (split; reflexivity).
  rewrite andb_true_iff, N.eqb_eq, IH. split.
  - intros [H1 H2]. subst. reflexivity.
  - intros H. injection H as H1 H2. split; assumption.
Qed.

Lemma jeqb_refl (a : jsstring) : (a =? a) = true.
Proof. apply jeqb_eq. reflexivity. Qed.

Lemma jeqb_neq (a b : jsstring) : (a =? b) = false <-> a <> b.
Proof.
  rewrite <- jeqb_eq. destruct (a =? b); split; intros H;
    try discriminate; try reflexivity.
  exfalso. apply H. reflexivity.
Qed.

Lemma jeqb_sym (a b : jsstring) : (a =? b) = (b =? a).
Proof.
  destruct (a =? b) eqn:E.
  - apply jeqb_eq in E. subst. symmetry. apply jeqb_refl.
  - symmetry. apply jeqb_neq. apply jeqb_neq in E.
    intros H. apply E. symmetry. exact H.
Qed.

Lemma jsstring_dec (a b : jsstring) : {a = b} + {a <> b}.
Proof.
  destruct (a =? b) eqn:E.
  - left. apply jeqb_eq. exact E.
  - right. apply jeqb_neq. exact E.
Defined.

(** ** Doubles

    [Math.floor(random * 10)] on the doubles of the interval [0, 1),
    through the specification of the product of doubles: the exact product
    of the mantissas is shifted right to 53 bits and rounded to nearest,
    ties to even. *)

Lemma digits2_pos_bounds (m : positive) :
  2 ^ (Zpos (digits2_pos m) - 1) <= Zpos m < 2 ^ Zpos (digits2_pos m).
Proof.
  induction m as [m IH | m IH | ]; cbn [digits2_pos].
  - rewrite Pos2Z.inj_succ, Z.pow_succ_r by lia.
    replace (Z.succ (Zpos (digits2_pos m)) - 1)
      with (Z.succ (Zpos (digits2_pos m) - 1)) by lia.
    rewrite Z.pow_succ_r by lia. lia.
  - rewrite Pos2Z.inj_succ, Z.pow_succ_r by lia.
    replace (Z.succ (Zpos (digits2_pos m)) - 1)
      with (Z.succ (Zpos (digits2_pos m) - 1)) by lia.
    rewrite Z.pow_succ_r by lia. lia.
  - simpl. lia.
Qed.

Lemma digits2_pos_le (m : positive) (j : Z) :
  0 <= j -> Zpos m < 2 ^ j -> Zpos (digits2_pos m) <= j.
Proof.
  intros Hj H. destruct (digits2_pos_bounds m) as [Hlo _].
  destruct (Z_le_gt_dec (Zpos (digits2_pos m)) j) as [ | Hgt]; [assumption | ].
  exfalso.
  assert (2 ^ j <= 2 ^ (Zpos (digits2_pos m) - 1))
    by (apply Z.pow_le_mono_r; lia).
  lia.
Qed.

Lemma iter_pos_nat (A : Type) (f : A -> A) (p : positive) (x : A) :
  iter_pos f p x = Nat.iter (Pos.to_nat p) f x.
Proof.
  revert x. induction p as [p IH | p IH | ]; intros x; cbn [iter_pos].
  - rewrite !IH, Pos2Nat.inj_xI.
    replace (Datatypes.S (2 * Pos.to_nat p))
      with (Pos.to_nat p + Datatypes.S (Pos.to_nat p))%nat by lia.
    rewrite Nat.iter_add. f_equal.
    rewrite Nat.iter_succ_r. reflexivity.
  - rewrite !IH, Pos2Nat.inj_xO.
    replace (2 * Pos.to_nat p)%nat with (Pos.to_nat p + Pos.to_nat p)%nat by lia.
    rewrite Nat.iter_add. reflexivity.
  - reflexivity.
Qed.

Lemma shr_1_spec (rs : shr_record) :
  0 <= shr_m rs ->
  shr_m (shr_1 rs) = shr_m rs / 2 /\
  shr_r (shr_1 rs) = Z.odd (shr_m rs).
Proof.
  destruct rs as [m r s]. cbn [shr_m]. intros Hm.
  rewrite <- Z.div2_div.
  destruct m as [ | [p | p | ] | p]; try lia; split; reflexivity.
Qed.

Lemma shr_iter_spec (k : nat) (rs : shr_record) :
  0 <= shr_m rs ->
  let rs' := Nat.iter (Datatypes.S k) shr_1 rs in
  shr_m rs' = shr_m rs / 2 ^ Z.of_nat (Datatypes.S k) /\
  shr_r rs' = Z.odd (shr_m rs / 2 ^ Z.of_nat k).
Proof.
  intros Hm. induction k as [ | k IH].
  - change (Nat.iter 1 shr_1 rs) with (shr_1 rs). cbv zeta.
    destruct (shr_1_spec rs Hm) as [H1 H2].
    rewrite H1, H2. change (2 ^ Z.of_nat 1) with 2.
    change (2 ^ Z.of_nat 0) with 1. rewrite Z.div_1_r. split; reflexivity.
  - cbv zeta in IH. destruct IH as [I1 I2].
    set (rs1 := Nat.iter (Datatypes.S k) shr_1 rs) in *.
    change (Nat.iter (Datatypes.S (Datatypes.S k)) shr_1 rs) with (shr_1 rs1).
    assert (H0 : 0 <= shr_m rs1).
    { rewrite I1. apply Z.div_pos; [exact Hm | ]. apply Z.pow_pos_nonneg; lia. }
    destruct (shr_1_spec rs1 H0) as [H1 H2].
    cbv zeta. rewrite H1, H2, I1. split; [ | reflexivity].
    rewrite Z.div_div by (try apply Z.pow_pos_nonneg; lia).
    rewrite (Nat2Z.inj_succ (Datatypes.S k)), Z.pow_succ_r by lia.
    f_equal. lia.
Qed.

Lemma round_nearest_even_le (rs : shr_record) :
  shr_m rs <= round_nearest_even (shr_m rs) (loc_of_shr_record rs)
           <= shr_m rs + (if shr_r rs then 1 else 0).
Proof.
  destruct rs as [m [ | ] [ | ]]; cbn; try lia.
  destruct (Z.even m); lia.
Qed.

(** Shifting right by [n > 0] bits and rounding to nearest. *)
Lemma shr_round (M e n : Z) :
  0 <= M -> 0 < n ->
  let '(rs, e') := shr (shr_record_of_loc M loc_Exact) e n in
  let r := round_nearest_even (shr_m rs) (loc_of_shr_record rs) in
  e' = e + n /\ 0 <= r /\ r * 2 ^ n <= M + 2 ^ (n - 1).
Proof.
  intros HM Hn. destruct n as [ | p | p]; try lia.
  cbn [shr shr_record_of_loc]. rewrite iter_pos_nat.
  destruct (Pos2Nat.is_succ p) as [k Hk]. rewrite Hk.
  set (rs0 := {| shr_m := M; shr_r := false; shr_s := false |}).
  assert (H0 : 0 <= shr_m rs0) by exact HM.
  destruct (shr_iter_spec k rs0 H0) as [H1 H2]. cbv zeta in H1, H2.
  set (rs := Nat.iter (Datatypes.S k) shr_1 rs0) in *.
  cbn [shr_m rs0] in H1, H2.
  assert (Hp : Zpos p = Z.of_nat (Datatypes.S k)).
  { rewrite <- Hk. symmetry. apply positive_nat_Z. }
  rewrite Hp. rewrite Nat2Z.inj_succ in *.
  set (j := Z.of_nat k) in *. assert (Hj : 0 <= j) by (unfold j; lia).
  split; [reflexivity | ].
  pose proof (round_nearest_even_le rs) as [Hlo Hhi].
  set (r := round_nearest_even (shr_m rs) (loc_of_shr_record rs)) in *.
  rewrite H1, H2 in Hhi. rewrite H1 in Hlo.
  assert (Hpow : 0 < 2 ^ j) by (apply Z.pow_pos_nonneg; lia).
  rewrite Z.pow_succ_r in * by lia.
  replace (Z.succ j - 1) with j by lia.
  set (q := M / 2 ^ j) in *.
  assert (Hq : q * 2 ^ j <= M).
  { unfold q. rewrite Z.mul_comm. apply Z.mul_div_le. exact Hpow. }
  assert (Hq0 : 0 <= q) by (unfold q; apply Z.div_pos; lia).
  assert (Hdiv : M / (2 * 2 ^ j) = q / 2).
  { unfold q. rewrite Z.div_div by lia. f_equal. lia. }
  rewrite Hdiv in Hlo, Hhi.
  assert (H2r : 2 * r <= q + 1).
  { destruct (Z.odd q) eqn:O.
    - apply Z.odd_spec in O. destruct O as [c Hc].
      assert (E : q / 2 = c).
      { symmetry. apply (Z.div_unique q 2 c 1); lia. }
      lia.
    - rewrite <- Z.negb_even, negb_false_iff in O.
      apply Z.even_spec in O. destruct O as [c Hc].
      assert (E : q / 2 = c).
      { symmetry. apply (Z.div_unique q 2 c 0); lia. }
      lia. }
  split.
  - assert (0 <= q / 2) by (apply Z.div_pos; lia). lia.
  - nia.
Qed.

Lemma Zdigits2_le (m j : Z) : 0 <= m -> 0 <= j -> m < 2 ^ j -> Zdigits2 m <= j.
Proof.
  intros Hm Hj H. destruct m as [ | p | p]; cbn [Zdigits2]; try lia.
  apply digits2_pos_le; assumption.
Qed.

(** Shifting right by [n] bits (not at all when [n <= 0]) and rounding. *)
Lemma shr_round_all (M e n : Z) :
  0 <= M ->
  let '(rs, e') := shr (shr_record_of_loc M loc_Exact) e n in
  let r := round_nearest_even (shr_m rs) (loc_of_shr_record rs) in
  e' = e + Z.max n 0 /\ 0 <= r /\
  r * 2 ^ Z.max n 0 <= M + (if 0 <? n then 2 ^ (n - 1) else 0).
Proof.
  intros HM. destruct (Z.ltb_spec 0 n) as [Hn | Hn].
  - pose proof (shr_round e HM Hn) as H.
    destruct (shr (shr_record_of_loc M loc_Exact) e n) as [rs e'].
    rewrite Z.max_l by lia. exact H.
  - assert (E : shr (shr_record_of_loc M loc_Exact) e n
                = (shr_record_of_loc M loc_Exact, e)).
    { destruct n; try lia; reflexivity. }
    rewrite E. cbn. rewrite Z.max_r by lia. cbn. lia.
Qed.

(** Shifting right by [n] bits without rounding. *)
Lemma shr_trunc (m e n : Z) :
  0 <= m ->
  let '(rs, e') := shr (shr_record_of_loc m loc_Exact) e n in
  e' = e + Z.max n 0 /\ shr_m rs = m / 2 ^ Z.max n 0.
Proof.
  intros Hm. destruct n as [ | p | p].
  - cbn. rewrite Z.div_1_r. lia.
  - cbn [shr shr_record_of_loc]. rewrite iter_pos_nat.
    destruct (Pos2Nat.is_succ p) as [k Hk]. rewrite Hk.
    set (rs0 := {| shr_m := m; shr_r := false; shr_s := false |}).
    destruct (@shr_iter_spec k rs0 Hm) as [H1 _]. cbv zeta in H1.
    rewrite Z.max_l by lia.
    assert (Hp : Zpos p = Z.of_nat (Datatypes.S k)).
    { rewrite <- Hk. symmetry. apply positive_nat_Z. }
    rewrite Hp. split; [reflexivity | exact H1].
  - cbn. rewrite Z.div_1_r. lia.
Qed.


Lemma mul_ten_floor (x : spec_float) :
  valid_binary x = true ->
  SFleb (S754_zero false) x = true ->
  SFltb x (Prim2SF 1) = true ->
  match SF64mul x (Prim2SF (PrimFloat.of_uint63 10)) with
  | S754_zero _ => True
  | S754_finite s m e => s = false /\ e < 0 /\ Zpos m / 2 ^ (- e) < 10
  | _ => False
  end.
Proof.
  change (Prim2SF 1) with (S754_finite false 4503599627370496 (-52)).
  change (Prim2SF (PrimFloat.of_uint63 10))
    with (S754_finite false 5629499534213120 (-49)).
  intros Hv H0 H1. destruct x as [s | s | | s m e].
  - exact I.
  - destruct s; discriminate.
  - discriminate.
  - destruct s; [discriminate | ].
    (* what the hypotheses say about [m] and [e] *)
    cbn [valid_binary] in Hv. unfold bounded, canonical_mantissa in Hv.
    apply andb_true_iff in Hv. destruct Hv as [Hc _].
    apply Z.eqb_eq in Hc. unfold fexp, SpecFloat.emin, prec, emax in Hc.
    pose proof (digits2_pos_bounds m) as [Hd1 Hd2].
    assert (He : -1074 <= e <= -53 /\ Zpos (digits2_pos m) <= 53).
    { unfold SFltb, SFcompare in H1.
      rewrite Pos.compare_cont_spec in H1.
      destruct (Z.compare_spec e (-52)) as [E | E | E]; try discriminate.
      - exfalso. subst e.
        assert (Hd : Zpos (digits2_pos m) = 53) by lia.
        rewrite Hd in Hd1. change (2 ^ (53 - 1)) with 4503599627370496 in Hd1.
        destruct (Pos.compare_spec m 4503599627370496) as [Cm | Cm | Cm];
          try discriminate.
        apply Pos2Z.pos_lt_pos in Cm. clear - Hd1 Cm. lia.
      - clear - Hc E. lia. }
    destruct He as [He Hd].
    assert (Hm : Zpos m < 2 ^ 53).
    { apply Z.lt_le_trans with (1 := Hd2). apply Z.pow_le_mono_r; lia. }
    clear H0 H1 Hc Hd1 Hd2 Hd.
    unfold SF64mul, SFmul. cbn [xorb].
    unfold binary_round_aux, shr_fexp.
    set (c := 5629499534213120%positive).
    set (M := Zpos (m * c)). set (E := e + -49).
    assert (HM0 : 0 <= M) by (unfold M; lia).
    set (P := 2 ^ (- e)).
    assert (HP : 2 ^ 53 <= P) by (apply Z.pow_le_mono_r; lia).
    assert (Hc52 : 2 ^ 52 < Zpos c) by reflexivity.
    assert (Hc49 : Zpos c = 10 * 2 ^ 49) by reflexivity.
    assert (HMP : M + 2 ^ 52 < Zpos c * P).
    { unfold M. rewrite Pos2Z.inj_mul.
      assert (Zpos m + 1 <= P) by lia.
      assert (Zpos c * (Zpos m + 1) <= Zpos c * P)
        by (apply Z.mul_le_mono_nonneg_l; lia).
      lia. }
    assert (HdM : Zdigits2 M <= 106).
    { apply Zdigits2_le; [exact HM0 | lia | ].
      unfold M. rewrite Pos2Z.inj_mul.
      change (2 ^ 106) with (2 ^ 53 * 2 ^ 53).
      assert (Zpos c < 2 ^ 53) by reflexivity.
      apply Z.mul_lt_mono_nonneg; lia. }
    set (n1 := fexp prec emax (Zdigits2 M + E) - E).
    assert (Hn1 : n1 <= 53 /\ E + Z.max n1 0 <= -49).
    { unfold n1, fexp, SpecFloat.emin, prec, emax, E. lia. }
    pose proof (@shr_round_all M E n1 HM0) as R.
    destruct (shr (shr_record_of_loc M loc_Exact) E n1) as [rs1 e1].
    cbv zeta in R. destruct R as [Re [Rlo Rhi]].
    set (m1 := round_nearest_even (shr_m rs1) (loc_of_shr_record rs1)) in *.
    set (k := Z.max n1 0) in *.
    assert (Hk : 0 <= k <= 53) by (unfold k; lia).
    assert (He1 : e1 <= -49) by lia.
    (* the rounded product is below ten *)
    assert (Hpk : 2 ^ (- e1) * 2 ^ k = 2 ^ 49 * P).
    { unfold P. rewrite <- !Z.pow_add_r by lia. f_equal. unfold E in Re. lia. }
    assert (Hx : (if 0 <? n1 then 2 ^ (n1 - 1) else 0) <= 2 ^ 52).
    { destruct (0 <? n1) eqn:Hlt.
      - apply Z.pow_le_mono_r; lia.
      - apply Z.pow_nonneg. lia. }
    assert (K1 : m1 < 10 * 2 ^ (- e1)).
    { apply (Z.mul_lt_mono_pos_r (2 ^ k)); [apply Z.pow_pos_nonneg; lia | ].
      rewrite <- Z.mul_assoc, Hpk, Z.mul_assoc, <- Hc49. lia. }
    assert (K2 : Zdigits2 m1 <= 4 - e1).
    { apply Zdigits2_le; [exact Rlo | lia | ].
      replace (4 - e1) with (4 + - e1) by lia.
      rewrite Z.pow_add_r by lia. change (2 ^ 4) with 16.
      assert (0 < 2 ^ (- e1)) by (apply Z.pow_pos_nonneg; lia). lia. }
    set (n2 := fexp prec emax (Zdigits2 m1 + e1) - e1).
    assert (Hn2 : e1 + Z.max n2 0 <= -49).
    { unfold n2, fexp, SpecFloat.emin, prec, emax. lia. }
    pose proof (@shr_trunc m1 e1 n2 Rlo) as T.
    destruct (shr (shr_record_of_loc m1 loc_Exact) e1 n2) as [rs2 e2].
    destruct T as [Te Tm].
    set (j := Z.max n2 0) in *.
    assert (Hj : 0 <= j) by (unfold j; lia).
    assert (Hpj : 0 < 2 ^ j) by (apply Z.pow_pos_nonneg; lia).
    assert (Hm2 : 0 <= shr_m rs2) by (rewrite Tm; apply Z.div_pos; lia).
    assert (K4 : shr_m rs2 < 10 * 2 ^ (- e2)).
    { apply (Z.mul_lt_mono_pos_r (2 ^ j)); [exact Hpj | ].
      rewrite <- Z.mul_assoc, <- Z.pow_add_r by lia.
      replace (- e2 + j) with (- e1) by lia.
      apply Z.le_lt_trans with (2 := K1).
      rewrite Tm, Z.mul_comm. apply Z.mul_div_le. exact Hpj. }
    destruct (shr_m rs2) as [ | p | p]; [exact I | | lia].
    assert (Hle : (e2 <=? emax - prec) = true).
    { apply Z.leb_le. unfold emax, prec. lia. }
    rewrite Hle. split; [reflexivity | split; [lia | ]].
    apply Z.div_lt_upper_bound; [apply Z.pow_pos_nonneg; lia | ].
    rewrite Z.mul_comm. exact K4.
Qed.

(** [Math.floor(random * 10)] is one of 0 to 9 for a double in [0, 1). *)
Lemma mathFloor_random_times_ten (random : float) :
  (0 <=? random)%float = true ->
  (random <? 1)%float = true ->
  exists k : Z,
    mathFloor (random * PrimFloat.of_uint63 10)%float = Some k /\ 0 <= k < 10.
Proof.
  intros H0 H1. rewrite FloatAxioms.leb_spec in H0. rewrite FloatAxioms.ltb_spec in H1.
  change (Prim2SF 0) with (S754_zero false) in H0.
  pose proof (mul_ten_floor (Prim2SF random) (Prim2SF_valid random) H0 H1)
    as H.
  unfold mathFloor. rewrite FloatAxioms.mul_spec.
  destruct (SF64mul (Prim2SF random) (Prim2SF (PrimFloat.of_uint63 10)))
    as [s | s | | s m e]; try contradiction.
  - exists 0. split; [reflexivity | lia].
  - destruct H as [Hs [He Hk]]. subst s.
    exists (Zpos m / 2 ^ (- e)). split.
    + destruct (Z.leb_spec 0 e); [lia | reflexivity].
    + split; [ | exact Hk].
      apply Z.div_pos; [lia | apply Z.pow_pos_nonneg; lia].
Qed.

Section Properties.

Context {L : CaseFolding}.

Lemma truthy_true (s : jsstring) : truthy s = true <-> s <> "".
Proof.
  unfold truthy. rewrite negb_true_iff. apply jeqb_neq.
Qed.

Lemma truthy_false (s : jsstring) : truthy s = false <-> s = "".
Proof.
  unfold truthy. rewrite negb_false_iff. apply jeqb_eq.
Qed.

Lemma trim_empty : trim "" = "".
Proof. reflexivity. Qed.

(** The guard of line 153 fires exactly when the name is empty after
    trimming. *)
Lemma guard_blank (nome : jsstring) :
  (negb (truthy nome) || negb (truthy (trim nome)))%bool = true <->
  trim nome = "".
Proof.
  rewrite orb_true_iff, !negb_true_iff, !truthy_false.
  split.
  - intros [H | H]; [subst nome; apply trim_empty | exact H].
  - intros H. right. exact H.
Qed.

Lemma guard_not_blank (nome : jsstring) :
  trim nome <> "" ->
  (negb (truthy nome) || negb (truthy (trim nome)))%bool = false.
Proof.
  intros H. apply not_true_is_false. rewrite guard_blank. exact H.
Qed.

(** ** Runs against an arbitrary store *)

Section AnyStore.

Variable S : Type.
Variable h : Handler S.

(** A blank name is refused before anything is asked of the store. *)
Lemma findOrCreate_blank (nome : jsstring) (tenantId : option jsstring)
    (random : float) :
  trim nome = "" ->
  findOrCreateCategoryByName nome tenantId random = Throw nameRequired.
Proof.
  intros H. unfold findOrCreateCategoryByName.
  apply guard_blank in H. rewrite H. reflexivity.
Qed.

(** The fast path: the lookup finds a row. *)
Lemma findOrCreate_found (nome : jsstring) (tenantId : option jsstring)
    (random : float) (s s1 : S) (c : Category) :
  trim nome <> "" ->
  h (FindFirst (lookupWhere (trim nome) tenantId)) s = (inr (Some c), s1) ->
  run h (findOrCreateCategoryByName nome tenantId random) s =
  (inr (cat_id c), s1, [Ev (FindFirst (lookupWhere (trim nome) tenantId))]).
Proof.
  intros Hn Hf. unfold findOrCreateCategoryByName.
  rewrite (guard_not_blank nome Hn). cbn. rewrite Hf. reflexivity.
Qed.

(** The lookup itself is rejected: the rejection is thrown. *)
Lemma findOrCreate_lookup_rejected (nome : jsstring) (tenantId : option jsstring)
    (random : float) (s s1 : S) (e : Error) :
  trim nome <> "" ->
  h (FindFirst (lookupWhere (trim nome) tenantId)) s = (inl e, s1) ->
  run h (findOrCreateCategoryByName nome tenantId random) s =
  (inl e, s1, [Ev (FindFirst (lookupWhere (trim nome) tenantId))]).
Proof.
  intros Hn Hf. unfold findOrCreateCategoryByName.
  rewrite (guard_not_blank nome Hn). cbn. rewrite Hf. reflexivity.
Qed.

(** The insert succeeds. *)
Lemma findOrCreate_created (nome : jsstring) (tenantId : option jsstring)
    (random : float) (s s1 s2 : S) (c : Category) :
  trim nome <> "" ->
  h (FindFirst (lookupWhere (trim nome) tenantId)) s = (inr None, s1) ->
  h (Create (newCategoryData (trim nome) tenantId random)) s1 = (inr c, s2) ->
  run h (findOrCreateCategoryByName nome tenantId random) s =
  (inr (cat_id c), s2,
   [Ev (FindFirst (lookupWhere (trim nome) tenantId));
    Ev (Create (newCategoryData (trim nome) tenantId random))]).
Proof.
  intros Hn Hf Hc. unfold findOrCreateCategoryByName.
  rewrite (guard_not_blank nome Hn). cbn. rewrite Hf. cbn. rewrite Hc. reflexivity.
Qed.

(** The insert is rejected: what the run does next is the [catch] block. *)
Lemma findOrCreate_rejected (nome : jsstring) (tenantId : option jsstring)
    (random : float) (s s1 s2 : S) (error : Error) :
  trim nome <> "" ->
  h (FindFirst (lookupWhere (trim nome) tenantId)) s = (inr None, s1) ->
  h (Create (newCategoryData (trim nome) tenantId random)) s1
    = (inl error, s2) ->
  run h (findOrCreateCategoryByName nome tenantId random) s =
  let '(o, s3, tr) :=
    run h
      (if codeIs error "P2002" then
         category <- await (FindFirst (lookupWhere (trim nome) tenantId)) ;;
         match category with
         | Some c => Ret (cat_id c)
         | None =>
             fallbackCategory <-
               await (FindFirst (fallbackWhere (trim nome) tenantId)) ;;
             match fallbackCategory with
             | Some c => Ret (cat_id c)
             | None => Throw error
             end
         end
       else Throw error) s2 in
  (o, s3,
   Ev (FindFirst (lookupWhere (trim nome) tenantId))
   :: Ev (Create (newCategoryData (trim nome) tenantId random)) :: tr).
Proof.
  intros Hn Hf Hc. unfold findOrCreateCategoryByName.
  rewrite (guard_not_blank nome Hn). cbn. rewrite Hf. cbn. rewrite Hc. cbn.
  destruct (codeIs error "P2002"); [ | reflexivity ].
  match goal with
  | |- context [run h ?p s2] => destruct (run h p s2) as [[o s3] tr]
  end.
  reflexivity.
Qed.

End AnyStore.

Lemma codeIs_P2002 (e : Error) :
  codeIs e "P2002" = true <-> err_code e = Some "P2002".
Proof.
  unfold codeIs. destruct (err_code e) as [c | ].
  - rewrite jeqb_eq. split; intros H; [subst c; reflexivity | ].
    injection H as H. exact H.
  - split; intros H; discriminate H.
Qed.

(** C2. When the insert of [findOrCreateCategoryByName] is rejected with
    code P2002, the rejection is not thrown: the case-insensitive lookup
    for the trimmed name in the tenant scope is asked again and the id of
    the row it finds is returned; when it finds nothing, the exact lookup
    on the trimmed name in the same scope is asked and the id of its row
    is returned; when neither finds a row, the error of the insert is
    thrown.  This holds against every store.  The lookup that is asked
    again is the filter [nome equals the trimmed name, insensitive] with
    the tenant id of the call and nothing else; the exact lookup is the
    filter [nome equals the trimmed name] with the same tenant id and
    nothing else. *)
Theorem unique_violation_is_recovered :
  forall (S : Type) (h : Handler S) (nome : jsstring)
         (tenantId : option jsstring) (random : float) (s s1 s2 : S)
         (error : Error),
    trim nome <> "" ->
    h _ (FindFirst (lookupWhere (trim nome) tenantId)) s = (inr None, s1) ->
    h _ (Create (newCategoryData (trim nome) tenantId random)) s1
      = (inl error, s2) ->
    err_code error = Some "P2002" ->
    let lookup := FindFirst (lookupWhere (trim nome) tenantId) in
    let insert := Create (newCategoryData (trim nome) tenantId random) in
    let exact := FindFirst (fallbackWhere (trim nome) tenantId) in
    (forall (c : Category) (s3 : S),
        h _ lookup s2 = (inr (Some c), s3) ->
        run h (findOrCreateCategoryByName nome tenantId random) s =
        (inr (cat_id c), s3, [Ev lookup; Ev insert; Ev lookup])) /\
    (forall (c : Category) (s3 s4 : S),
        h _ lookup s2 = (inr None, s3) ->
        h _ exact s3 = (inr (Some c), s4) ->
        run h (findOrCreateCategoryByName nome tenantId random) s =
        (inr (cat_id c), s4, [Ev lookup; Ev insert; Ev lookup; Ev exact])) /\
    (forall (s3 s4 : S),
        h _ lookup s2 = (inr None, s3) ->
        h _ exact s3 = (inr None, s4) ->
        run h (findOrCreateCategoryByName nome tenantId random) s =
        (inl error, s4, [Ev lookup; Ev insert; Ev lookup; Ev exact])) /\
    lookupWhere (trim nome) tenantId =
      {| w_cond := {| c_id := None;
                      c_tenantId := tenantId;
                      c_nome := Some (Equals (trim nome) Insensitive);
                      c_descricao := None |};
         w_OR := None |} /\
    fallbackWhere (trim nome) tenantId =
      {| w_cond := {| c_id := None;
                      c_tenantId := tenantId;
                      c_nome := Some (Equals (trim nome) Default);
                      c_descricao := None |};
         w_OR := None |}.
Proof.
  intros S h nome tenantId random s s1 s2 error Hn Hf Hc Hcode.
  intros lookup insert exact.
  apply codeIs_P2002 in Hcode.
  pose proof (findOrCreate_rejected h nome tenantId random s Hn Hf Hc) as R.
  rewrite Hcode in R. cbn in R. fold lookup insert exact in R.
  repeat split.
  - intros c s3 H3. rewrite H3 in R. exact R.
  - intros c s3 s4 H3 H4. rewrite H3 in R. cbn in R.
    fold exact in R. rewrite H4 in R. exact R.
  - intros s3 s4 H3 H4. rewrite H3 in R. cbn in R.
    fold exact in R. rewrite H4 in R. exact R.
  - destruct tenantId; reflexivity.
  - destruct tenantId; reflexivity.
Qed.

(** C4. When the insert of [findOrCreateCategoryByName] is rejected with
    an error whose code is not P2002, that same error is thrown and no
    further request is made: the run ends after the lookup and the
    insert.  This holds against every store. *)
Theorem other_insert_failures_propagate :
  forall (S : Type) (h : Handler S) (nome : jsstring)
         (tenantId : option jsstring) (random : float) (s s1 s2 : S)
         (error : Error),
    trim nome <> "" ->
    h _ (FindFirst (lookupWhere (trim nome) tenantId)) s = (inr None, s1) ->
    h _ (Create (newCategoryData (trim nome) tenantId random)) s1
      = (inl error, s2) ->
    err_code error <> Some "P2002" ->
    run h (findOrCreateCategoryByName nome tenantId random) s =
    (inl error, s2,
     [Ev (FindFirst (lookupWhere (trim nome) tenantId));
      Ev (Create (newCategoryData (trim nome) tenantId random))]).
Proof.
  intros S h nome tenantId random s s1 s2 error Hn Hf Hc Hcode.
  rewrite (findOrCreate_rejected h nome tenantId random s Hn Hf Hc).
  destruct (codeIs error "P2002") eqn:E.
  - apply codeIs_P2002 in E. contradiction.
  - reflexivity.
Qed.

(** ** The in-memory store *)

Import MemStore.

Lemma optEqb_eq (a b : option jsstring) : optEqb a b = true <-> a = b.
Proof.
  destruct a as [x | ], b as [y | ]; simpl.
  - rewrite jeqb_eq. split; intros H; [subst; reflexivity | ].
    injection H as H. exact H.
  - split; intros H; discriminate H.
  - split; intros H; discriminate H.
  - split; reflexivity.
Qed.

Lemma optEqb_refl (a : option jsstring) : optEqb a a = true.
Proof. apply optEqb_eq. reflexivity. Qed.

Lemma matches_lookupWhere (n : jsstring) (t : option jsstring) (r : Category) :
  matches (lookupWhere n t) r =
  (visible t r && (fold (cat_nome r) =? fold n))%bool.
Proof.
  destruct t as [t | ]; unfold matches, matchesCond; simpl;
    rewrite ?andb_true_r; reflexivity.
Qed.

Lemma matches_fallbackWhere (n : jsstring) (t : option jsstring) (r : Category) :
  matches (fallbackWhere n t) r = (visible t r && (cat_nome r =? n))%bool.
Proof.
  destruct t as [t | ]; unfold matches, matchesCond; simpl;
    rewrite ?andb_true_r; reflexivity.
Qed.

Lemma matches_whereId (id : jsstring) (t : option jsstring) (r : Category) :
  matches (whereId id t) r = ((cat_id r =? id) && visible t r)%bool.
Proof.
  destruct t as [t | ]; unfold matches, matchesCond; simpl;
    rewrite ?andb_true_r; reflexivity.
Qed.

Lemma matches_listWhere_visible (search : option jsstring) (t : option jsstring)
    (r : Category) :
  matches (listWhere search t) r = true -> visible t r = true.
Proof.
  unfold listWhere.
  destruct search as [s | ]; [destruct (truthy s) | ];
    destruct t as [t | ]; unfold matches, matchesCond; simpl;
    rewrite ?andb_true_r, ?andb_true_iff; intuition.
Qed.

(** A row that holds the key [(t, n)] is found by the lookup in scope [t]. *)
Lemma sameKey_matches (n : jsstring) (t : option jsstring) (r : Category) :
  sameKey t n r = true -> matches (lookupWhere n t) r = true.
Proof.
  rewrite matches_lookupWhere. unfold sameKey, visible.
  rewrite !andb_true_iff. intros [Ht Hn]. split; [ | exact Hn].
  destruct t; [exact Ht | reflexivity].
Qed.

Lemma find_none_existsb (A : Type) (f g : A -> bool) (l : list A) :
  (forall x, g x = true -> f x = true) ->
  find f l = None -> existsb g l = false.
Proof.
  intros Hgf Hf. apply not_true_is_false. intros He.
  apply existsb_exists in He. destruct He as [x [Hin Hg]].
  apply (find_none f l Hf) in Hin. rewrite (Hgf x Hg) in Hin. discriminate.
Qed.

Lemma find_none_filter (A : Type) (f : A -> bool) (l : list A) :
  find f l = None -> filter f l = [].
Proof.
  induction l as [ | x l IH]; simpl; [reflexivity | ].
  destruct (f x); [discriminate | exact IH].
Qed.

Lemma find_app_none (A : Type) (f : A -> bool) (l : list A) (x : A) :
  find f l = None -> f x = true -> find f (l ++ [x]) = Some x.
Proof.
  induction l as [ | y l IH]; simpl; intros Hf Hx.
  - rewrite Hx. reflexivity.
  - destruct (f y); [discriminate | apply IH; assumption].
Qed.

Lemma find_ext (A : Type) (f g : A -> bool) (l : list A) :
  (forall x, f x = g x) -> find f l = find g l.
Proof.
  intros H. induction l as [ | x l IH]; simpl; [reflexivity | ].
  rewrite H, IH. reflexivity.
Qed.

(** On the in-memory store a valid name always resolves: either the lookup
    finds a row and nothing changes, or one row is appended. *)
Lemma exec_findOrCreate (nome : jsstring) (t : option jsstring) (random : float)
    (db : DB) :
  trim nome <> "" ->
  exec (findOrCreateCategoryByName nome t random) db =
  match find (matches (lookupWhere (trim nome) t)) (rows db) with
  | Some c =>
      (inr (cat_id c), db, [Ev (FindFirst (lookupWhere (trim nome) t))])
  | None =>
      let r := inserted (newCategoryData (trim nome) t random) db in
      (inr (cat_id r),
       {| rows := rows db ++ [r];
          nextId := Datatypes.S (nextId db);
          clock := clock db + 1 |},
       [Ev (FindFirst (lookupWhere (trim nome) t));
        Ev (Create (newCategoryData (trim nome) t random))])
  end.
Proof.
  intros Hn. unfold exec.
  destruct (find (matches (lookupWhere (trim nome) t)) (rows db))
    as [c | ] eqn:Hf.
  - apply findOrCreate_found; [exact Hn | ]. simpl. rewrite Hf. reflexivity.
  - eapply findOrCreate_created; [exact Hn | | ].
    + simpl. rewrite Hf. reflexivity.
    + simpl. unfold create.
      erewrite find_none_existsb; [reflexivity | | exact Hf].
      intros x. apply sameKey_matches.
Qed.

Lemma filter_nil_forall (A : Type) (f : A -> bool) (l : list A) :
  (forall x, In x l -> f x = false) -> filter f l = [].
Proof.
  induction l as [ | x l IH]; simpl; intros H; [reflexivity | ].
  rewrite (H x (or_introl eq_refl)). apply IH.
  intros y Hy. apply H. right. exact Hy.
Qed.

(** In a table with unique names, the row found by name within a tenant is
    the only row of that tenant with that name. *)
Lemma uniqueNames_filter (t n : jsstring) (l : list Category) (c : Category) :
  uniqueNames l = true ->
  find (sameKey (Some t) n) l = Some c ->
  filter (sameKey (Some t) n) l = [c].
Proof.
  induction l as [ | r l IH]; simpl; intros Hu Hf; [discriminate | ].
  apply andb_true_iff in Hu. destruct Hu as [Hr Hu].
  destruct (sameKey (Some t) n r) eqn:Hk.
  - injection Hf as Hf. subst c. f_equal.
    apply filter_nil_forall. intros x Hx.
    apply not_true_is_false. intros Hkx.
    apply negb_true_iff in Hr.
    assert (He : existsb (sameKey (cat_tenantId r) (cat_nome r)) l = true).
    { apply existsb_exists. exists x. split; [exact Hx | ].
      unfold sameKey in *.
      apply andb_true_iff in Hk. destruct Hk as [Ht Hn].
      apply andb_true_iff in Hkx. destruct Hkx as [Htx Hnx].
      apply optEqb_eq in Ht. apply optEqb_eq in Htx.
      apply jeqb_eq in Hn. apply jeqb_eq in Hnx.
      rewrite Ht, Htx, Hn, Hnx, optEqb_refl, jeqb_refl. reflexivity. }
    rewrite He in Hr. discriminate.
  - apply IH; assumption.
Qed.

(** C1 (amended). For every scope and every name that is non-empty after
    trimming, two calls of [findOrCreateCategoryByName] in a row, the
    second with any name that differs only by letter case or surrounding
    white space (it is not blank and its trimmed text folds to the same
    key), return the same id, and the second call changes nothing.
    When the scope is a concrete tenant and names are unique in the table,
    exactly one row of that tenant then carries the name, compared
    case-insensitively, and it is the row with the returned id. *)
Theorem find_or_create_twice_same_id :
  forall (db : DB) (nome nome' : jsstring) (tenantId : option jsstring)
         (random random' : float),
    trim nome <> "" ->
    trim nome' <> "" ->
    fold (trim nome') = fold (trim nome) ->
    let first := exec (findOrCreateCategoryByName nome tenantId random) db in
    let db1 := finalState first in
    let second :=
      exec (findOrCreateCategoryByName nome' tenantId random') db1 in
    exists i : jsstring,
      outcome first = inr i /\
      outcome second = inr i /\
      finalState second = db1 /\
      (forall t : jsstring,
          tenantId = Some t ->
          uniqueNames (rows db) = true ->
          exists r : Category,
            rowsNamed tenantId (trim nome) db1 = [r] /\ cat_id r = i).
Proof.
  intros db nome nome' tenantId random random' Hn Hn' Hl first db1 second.
  assert (Hw : forall l,
             find (matches (lookupWhere (trim nome') tenantId)) l =
             find (matches (lookupWhere (trim nome) tenantId)) l).
  { intros l. apply find_ext. intros x.
    rewrite !matches_lookupWhere, Hl. reflexivity. }
  subst first db1 second.
  rewrite (exec_findOrCreate nome tenantId random db Hn).
  destruct (find (matches (lookupWhere (trim nome) tenantId)) (rows db))
    as [c | ] eqn:Hf.
  - exists (cat_id c). unfold outcome, finalState. simpl.
    rewrite (exec_findOrCreate nome' tenantId random' db Hn'), Hw, Hf.
    simpl. repeat split.
    intros t Ht Hu. subst tenantId. exists c. split; [ | reflexivity].
    apply (uniqueNames_filter t (trim nome) (rows db) Hu).
    rewrite <- Hf. apply find_ext. intros x.
    rewrite matches_lookupWhere. reflexivity.
  - set (r := inserted (newCategoryData (trim nome) tenantId random) db).
    exists (cat_id r). unfold outcome, finalState. simpl.
    rewrite (exec_findOrCreate nome' tenantId random' _ Hn'), Hw. simpl.
    assert (Hr : matches (lookupWhere (trim nome) tenantId) r = true).
    { apply sameKey_matches. unfold sameKey, r. simpl.
      rewrite optEqb_refl, jeqb_refl. reflexivity. }
    fold r. rewrite (find_app_none _ _ r Hf Hr). simpl. repeat split.
    intros t Ht Hu. exists r. split; [ | reflexivity].
    unfold rowsNamed. simpl. rewrite filter_app.
    rewrite (filter_ext _ (matches (lookupWhere (trim nome) tenantId)))
      by (intros x; rewrite matches_lookupWhere; reflexivity).
    rewrite (filter_ext (fun r0 => (visible tenantId r0 &&
               (fold (cat_nome r0) =? fold (trim nome)))%bool)
               (matches (lookupWhere (trim nome) tenantId)))
      by (intros x; rewrite matches_lookupWhere; reflexivity).
    rewrite (find_none_filter _ _ Hf). simpl. rewrite Hr. reflexivity.
Qed.

(** ** Ids *)

Lemma ofAscii_inj (a b : string) : ofAscii a = ofAscii b -> a = b.
Proof.
  revert b. induction a as [ | x a IH]; intros [ | y b]; simpl; intros H;
    try reflexivity; try discriminate H.
  injection H as H1 H2. f_equal; [ | apply IH; exact H2].
  rewrite <- (ascii_N_embedding x), <- (ascii_N_embedding y), H1.
  reflexivity.
Qed.

Lemma genId_inj (n m : nat) : genId n = genId m -> n = m.
Proof.
  unfold genId. intros H. apply ofAscii_inj in H. injection H as H.
  apply Unsigned.to_uint_inj.
  pose proof (NilEmpty.usu (Nat.to_uint n)) as A.
  rewrite H, NilEmpty.usu in A. injection A as A. symmetry. exact A.
Qed.

Lemma NoDup_map_eq (A B : Type) (f : A -> B) (l : list A) (x y : A) :
  NoDup (map f l) -> In x l -> In y l -> f x = f y -> x = y.
Proof.
  induction l as [ | z l IH]; simpl; intros Hd Hx Hy E; [contradiction | ].
  inversion Hd as [ | ? ? Hnin Hd']; subst.
  destruct Hx as [Hx | Hx], Hy as [Hy | Hy].
  - congruence.
  - subst z. exfalso. apply Hnin. rewrite E. apply in_map. exact Hy.
  - subst z. exfalso. apply Hnin. rewrite <- E. apply in_map. exact Hx.
  - apply IH; assumption.
Qed.

(** An insert keeps ids a key of the table. *)
Lemma wellFormed_create (d : CreateData) (db : DB) :
  wellFormed db -> wellFormed (snd (create d db)).
Proof.
  intros [Hd Hfresh]. unfold create.
  destruct (existsb (sameKey (d_tenantId d) (d_nome d)) (rows db));
    simpl; [split; assumption | ].
  split; simpl.
  - rewrite map_app. simpl.
    apply NoDup_app.
    + exact Hd.
    + constructor; [intros [] | constructor].
    + intros x Hx [Hy | []]. subst x.
      apply in_map_iff in Hx. destruct Hx as [r [Hr Hin]].
      apply (Hfresh r (nextId db) Hin (le_n _)). exact Hr.
  - intros r k Hin Hk. apply in_app_or in Hin.
    destruct Hin as [Hin | [Hin | []]].
    + apply Hfresh; [exact Hin | lia].
    + subst r. simpl. intros E. apply genId_inj in E. lia.
Qed.

Lemma map_cat_id_replace (id : jsstring) (r' : Category) (l : list Category) :
  cat_id r' = id ->
  map cat_id (map (fun r => if cat_id r =? id then r' else r) l) =
  map cat_id l.
Proof.
  intros E. induction l as [ | x l IH]; simpl; [reflexivity | ].
  rewrite IH. destruct (cat_id x =? id) eqn:Hx; [ | reflexivity].
  apply jeqb_eq in Hx. congruence.
Qed.

(** An update keeps ids a key of the table. *)
Lemma wellFormed_update (id : jsstring) (d : UpdateData) (db : DB) :
  wellFormed db -> wellFormed (snd (update id d db)).
Proof.
  intros [Hd Hfresh]. unfold update.
  destruct (find (fun r => cat_id r =? id) (rows db)) as [old | ] eqn:Hf;
    [ | split; assumption].
  destruct (existsb _ (rows db)); [split; assumption | ].
  apply find_some in Hf. destruct Hf as [Hin Hid].
  apply jeqb_eq in Hid.
  split; simpl.
  - rewrite map_cat_id_replace; [exact Hd | exact Hid].
  - intros r k Hr Hk. apply in_map_iff in Hr.
    destruct Hr as [x [Hx Hxin]].
    destruct (cat_id x =? id).
    + subst r. simpl. apply Hfresh; assumption.
    + subst r. apply Hfresh; assumption.
Qed.

(** A delete keeps ids a key of the table. *)
Lemma wellFormed_delete (id : jsstring) (db : DB) :
  wellFormed db -> wellFormed (snd (delete id db)).
Proof.
  intros [Hd Hfresh]. unfold delete.
  destruct (find (fun r => cat_id r =? id) (rows db));
    [ | split; assumption].
  split; simpl.
  - clear Hfresh. induction (rows db) as [ | x l IH]; simpl; [constructor | ].
    inversion Hd as [ | ? ? Hnin Hd']; subst.
    destruct (negb (cat_id x =? id)); simpl; [ | apply IH; exact Hd'].
    constructor; [ | apply IH; exact Hd'].
    intros Hin. apply Hnin. apply in_map_iff in Hin.
    destruct Hin as [y [Hy Hyin]]. apply filter_In in Hyin.
    apply in_map_iff. exists y. tauto.
  - intros r k Hr Hk. apply filter_In in Hr. apply Hfresh; tauto.
Qed.

(** Every request keeps ids a key of the table. *)
Lemma wellFormed_handle (X : Type) (q : Request X) (db : DB) :
  wellFormed db -> wellFormed (snd (handle q db)).
Proof.
  intros H. destruct q; simpl; try exact H.
  - apply wellFormed_create. exact H.
  - apply wellFormed_update. exact H.
  - apply wellFormed_delete. exact H.
Qed.

Lemma wellFormed_empty : wellFormed empty.
Proof.
  split; simpl; [constructor | intros r k []].
Qed.

(** Every service method keeps ids a key of the table. *)
Lemma wellFormed_exec (A : Type) (p : Prog A) (db : DB) :
  wellFormed db -> wellFormed (finalState (exec p db)).
Proof.
  unfold exec, finalState. revert db.
  induction p as [a | e | X q k IH]; intros db Hw; simpl; try exact Hw.
  pose proof (wellFormed_handle q Hw) as Hq.
  destruct (handle q db) as [r db1]. simpl in Hq.
  specialize (IH r db1 Hq).
  destruct (run handle (k r) db1) as [[o db2] tr]. exact IH.
Qed.

(** ** Reads in a tenant scope *)

Lemma visible_tenant (t : jsstring) (r : Category) :
  visible (Some t) r = true <-> cat_tenantId r = Some t.
Proof. apply optEqb_eq. Qed.

Lemma exec_getCategoryById (id : jsstring) (t : option jsstring) (db : DB) :
  exec (getCategoryById id t) db =
  match find (matches (whereId id t)) (rows db) with
  | Some c => (inr c, db, [Ev (FindFirst (whereId id t))])
  | None => (inl notFound, db, [Ev (FindFirst (whereId id t))])
  end.
Proof.
  unfold exec, getCategoryById. simpl.
  destruct (find (matches (whereId id t)) (rows db)); reflexivity.
Qed.

Lemma In_insertDesc (r x : Category) (l : list Category) :
  In x (insertDesc r l) <-> x = r \/ In x l.
Proof.
  induction l as [ | y l IH]; simpl.
  - intuition.
  - destruct (cat_criadoEm y <=? cat_criadoEm r)%Z; simpl.
    + intuition.
    + rewrite IH. intuition.
Qed.

Lemma In_orderByCriadoEmDesc (x : Category) (l : list Category) :
  In x (orderByCriadoEmDesc l) <-> In x l.
Proof.
  induction l as [ | y l IH]; simpl; [reflexivity | ].
  rewrite In_insertDesc, IH. intuition.
Qed.

Lemma In_listing (w : Where) (db : DB) (x : Category) :
  In x (listing w db) <-> In x (rows db) /\ matches w x = true.
Proof.
  unfold listing. rewrite In_orderByCriadoEmDesc. apply filter_In.
Qed.

Lemma In_skipn (A : Type) (n : nat) (l : list A) (x : A) :
  In x (skipn n l) -> In x l.
Proof.
  revert l. induction n as [ | n IH]; intros l; simpl; [auto | ].
  destruct l as [ | y l]; [auto | ]. intros H. right. apply IH. exact H.
Qed.

Lemma In_firstn (A : Type) (n : nat) (l : list A) (x : A) :
  In x (firstn n l) -> In x l.
Proof.
  revert l. induction n as [ | n IH]; intros l; simpl; [intros [] | ].
  destruct l as [ | y l]; [auto | ]. simpl.
  intros [H | H]; [left; exact H | right; apply IH; exact H].
Qed.

Lemma In_findMany (w : Where) (skip take : option Z) (db : DB)
    (l : list Category) (x : Category) :
  findMany w skip take db = inr l -> In x l ->
  In x (rows db) /\ matches w x = true.
Proof.
  unfold findMany. intros H Hin. apply (In_listing w db).
  destruct take as [n | ].
  - destruct ((_ <? 0) || (n <? 0))%Z%bool; [discriminate | ].
    injection H as H. subst l.
    apply In_firstn in Hin. apply In_skipn in Hin. exact Hin.
  - destruct (_ <? 0)%Z; [discriminate | ].
    injection H as H. subst l. apply In_skipn in Hin. exact Hin.
Qed.

(** What [getCategories] returns on the in-memory store. *)
Lemma exec_getCategories (search : option jsstring) (page pageSize : option Z)
    (t : option jsstring) (countFirst : bool) (db : DB) :
  let p := match page with Some p => p | None => 1 end in
  let ps := match pageSize with Some p => p | None => 10 end in
  let w := listWhere search t in
  exec (getCategories search page pageSize t countFirst) db =
  (match findMany w (Some ((p - 1) * ps)) (Some ps) db with
   | inr l =>
       inr {| categories := l;
              total := Z.of_nat (length (filter (matches w) (rows db)));
              page := p;
              pageSize := ps;
              totalPages :=
                mathCeilDiv
                  (Z.of_nat (length (filter (matches w) (rows db)))) ps |}
   | inl e => inl e
   end,
   db,
   [Ev (FindMany w (Some ((p - 1) * ps)) (Some ps)); Ev (Count w)]).
Proof.
  intros p ps w. unfold exec, getCategories. fold p ps w.
  cbn - [findMany mathCeilDiv].
  destruct (findMany w (Some ((p - 1) * ps)) (Some ps) db); reflexivity.
Qed.

(** C5. A row of tenant A is never returned by [getCategoryById], never
    listed by [getCategories] and never found by the name lookup of
    [findOrCreateCategoryByName] when these run in the scope of another
    concrete tenant B, whatever id or name is asked for. *)
Theorem tenant_isolation :
  forall (db : DB) (a b : jsstring) (row : Category),
    a <> b ->
    cat_tenantId row = Some a ->
    (forall id : jsstring,
        outcome (exec (getCategoryById id (Some b)) db) <> inr row) /\
    (forall (search : option jsstring) (page pageSize : option Z)
            (countFirst : bool) (resp : CategoriesResponse),
        outcome (exec (getCategories search page pageSize (Some b)
                         countFirst) db)
          = inr resp ->
        ~ In row (categories resp)) /\
    (forall nome : jsstring,
        fst (handle (FindFirst (lookupWhere nome (Some b))) db)
          <> inr (Some row)) /\
    (wellFormed db ->
     In row (rows db) ->
     forall (nome : jsstring) (random : float),
       outcome (exec (findOrCreateCategoryByName nome (Some b) random) db)
         <> inr (cat_id row)).
Proof.
  intros db a b row Hab Hrow.
  assert (Hinv : visible (Some b) row = false).
  { apply not_true_is_false. rewrite visible_tenant, Hrow.
    intros E. injection E as E. contradiction. }
  split; [ | split; [ | split]].
  - intros id. rewrite exec_getCategoryById.
    destruct (find (matches (whereId id (Some b))) (rows db))
      as [c | ] eqn:Hf; unfold outcome; simpl; [ | discriminate].
    intros E. injection E as E. subst c.
    apply find_some in Hf. destruct Hf as [_ Hm].
    rewrite matches_whereId, Hinv, andb_false_r in Hm. discriminate.
  - intros search page pageSize countFirst resp. rewrite exec_getCategories.
    unfold outcome. cbn - [findMany mathCeilDiv].
    match goal with
    | |- context [findMany ?w ?sk ?tk db] =>
        destruct (findMany w sk tk db) as [e | l] eqn:Hl; [discriminate | ]
    end.
    intros E. injection E as E. subst resp. simpl. intros Hin.
    destruct (In_findMany _ _ _ db row Hl Hin) as [_ Hm].
    apply matches_listWhere_visible in Hm. congruence.
  - intros nome. cbv beta iota delta [handle fst]. intros E.
    injection E as E.
    apply find_some in E. destruct E as [_ Hm].
    change (matches (lookupWhere nome (Some b)) row = true) in Hm.
    rewrite matches_lookupWhere, Hinv in Hm. discriminate.
  - intros [Hd Hfresh] Hin nome random.
    destruct (jsstring_dec (trim nome) "") as [Hb | Hn].
    + unfold exec. rewrite (findOrCreate_blank nome (Some b) random Hb).
      discriminate.
    + rewrite (exec_findOrCreate nome (Some b) random db Hn).
      destruct (find (matches (lookupWhere (trim nome) (Some b))) (rows db))
        as [c | ] eqn:Hf; unfold outcome; simpl; intros E; injection E as E.
      * apply find_some in Hf. destruct Hf as [Hc Hm].
        assert (c = row) by (apply (NoDup_map_eq cat_id _ _ _ Hd Hc Hin E)).
        subst c. rewrite matches_lookupWhere, Hinv in Hm. discriminate.
      * apply (Hfresh row (nextId db) Hin (le_n _)). symmetry. exact E.
Qed.

(** ** Update and delete *)

Section AnyStoreMutations.

Variable S : Type.
Variable h : Handler S.

(** When the existence check finds nothing, [updateCategory] throws
    without asking the store for anything else. *)
Lemma updateCategory_not_found (id : jsstring) (data : CategoryInput)
    (t : option jsstring) (s s1 : S) :
  h (FindFirst (whereId id t)) s = (inr None, s1) ->
  run h (updateCategory id data t) s =
  (inl notFound, s1, [Ev (FindFirst (whereId id t))]).
Proof.
  intros H. unfold updateCategory. cbn. rewrite H. reflexivity.
Qed.

(** Likewise for [deleteCategory]. *)
Lemma deleteCategory_not_found (id : jsstring) (t : option jsstring) (s s1 : S) :
  h (FindFirst (whereId id t)) s = (inr None, s1) ->
  run h (deleteCategory id t) s =
  (inl notFound, s1, [Ev (FindFirst (whereId id t))]).
Proof.
  intros H. unfold deleteCategory. cbn. rewrite H. reflexivity.
Qed.

(** When the existence check finds a row, [updateCategory] asks for the
    update by id and returns its answer. *)
Lemma updateCategory_found (id : jsstring) (data : CategoryInput)
    (t : option jsstring) (s s1 s2 : S) (c : Category)
    (r : Error + Category) :
  h (FindFirst (whereId id t)) s = (inr (Some c), s1) ->
  h (Update id {| u_nome := in_nome data;
                  u_cor := in_cor data;
                  u_descricao := orNull (in_descricao data) |}) s1
    = (r, s2) ->
  run h (updateCategory id data t) s =
  (r, s2,
   [Ev (FindFirst (whereId id t));
    Ev (Update id {| u_nome := in_nome data;
                     u_cor := in_cor data;
                     u_descricao := orNull (in_descricao data) |})]).
Proof.
  intros H1 H2. unfold updateCategory. cbn. rewrite H1. cbn. rewrite H2.
  destruct r; reflexivity.
Qed.

End AnyStoreMutations.

Lemma notVisible_find (id : jsstring) (t : option jsstring) (db : DB) :
  notVisible id t db -> find (matches (whereId id t)) (rows db) = None.
Proof.
  intros H. destruct (find (matches (whereId id t)) (rows db))
    as [c | ] eqn:Hf; [ | reflexivity].
  apply find_some in Hf. destruct Hf as [Hin Hm].
  rewrite matches_whereId in Hm. apply andb_true_iff in Hm.
  destruct Hm as [Hid Hv]. apply jeqb_eq in Hid.
  rewrite (H c Hin Hid) in Hv. discriminate.
Qed.

(** C7. When no row with the given id is visible in the caller's scope,
    because none exists or because it belongs to another tenant,
    [updateCategory] and [deleteCategory] throw the error with message
    "Categoria não encontrada", issue no request besides the existence
    check, and leave the store as it was.  Against every store, an
    existence check that finds nothing ends the run in the same way. *)
Theorem update_delete_not_found :
  forall (db : DB) (id : jsstring) (data : CategoryInput)
         (tenantId : option jsstring),
    notVisible id tenantId db ->
    exec (updateCategory id data tenantId) db =
      (inl notFound, db, [Ev (FindFirst (whereId id tenantId))]) /\
    exec (deleteCategory id tenantId) db =
      (inl notFound, db, [Ev (FindFirst (whereId id tenantId))]) /\
    err_message notFound = "Categoria não encontrada" /\
    (forall (S : Type) (h : Handler S) (s s1 : S),
        h _ (FindFirst (whereId id tenantId)) s = (inr None, s1) ->
        run h (updateCategory id data tenantId) s =
          (inl notFound, s1, [Ev (FindFirst (whereId id tenantId))]) /\
        run h (deleteCategory id tenantId) s =
          (inl notFound, s1, [Ev (FindFirst (whereId id tenantId))])).
Proof.
  intros db id data tenantId H. apply notVisible_find in H.
  split; [ | split; [ | split; [reflexivity | ]]].
  - apply updateCategory_not_found. simpl. rewrite H. reflexivity.
  - apply deleteCategory_not_found. simpl. rewrite H. reflexivity.
  - intros S h s s1 Hs. split.
    + apply updateCategory_not_found. exact Hs.
    + apply deleteCategory_not_found. exact Hs.
Qed.

Lemma notVisible_check (id : jsstring) (t : option jsstring) (db : DB) :
  forallb (fun r => negb (cat_id r =? id) || negb (visible t r))%bool
          (rows db) = true ->
  notVisible id t db.
Proof.
  intros H r Hin Hid. rewrite forallb_forall in H. specialize (H r Hin).
  apply jeqb_eq in Hid. rewrite Hid in H. simpl in H.
  apply negb_true_iff in H. exact H.
Qed.

Lemma map_replace_other (id : jsstring) (r' : Category) (l : list Category) :
  (forall x, In x l -> cat_id x <> id) ->
  map (fun r => if cat_id r =? id then r' else r) l = l.
Proof.
  induction l as [ | x l IH]; simpl; intros H; [reflexivity | ].
  rewrite IH by (intros y Hy; apply H; right; exact Hy).
  destruct (cat_id x =? id) eqn:E; [ | reflexivity].
  apply jeqb_eq in E. exfalso. apply (H x (or_introl eq_refl) E).
Qed.

(** In a table keyed by id, the row with a given id splits the table into
    rows with other ids. *)
Lemma NoDup_split_id (l1 l2 : list Category) (old : Category) :
  NoDup (map cat_id (l1 ++ old :: l2)) ->
  (forall x, In x l1 -> cat_id x <> cat_id old) /\
  (forall x, In x l2 -> cat_id x <> cat_id old).
Proof.
  rewrite map_app. simpl. intros H.
  apply NoDup_remove_2 in H.
  split; intros x Hx E; apply H; apply in_or_app;
    [left | right]; rewrite <- E; apply in_map; exact Hx.
Qed.

(** C8. A successful [updateCategory] writes [nome], [cor] and
    [descricao] (null when omitted) of the row that has the id in the
    caller's scope; the id, tenantId and criadoEm of that row stay as they
    were, and so does every other row of the table. *)
Theorem update_overwrites_three_fields :
  forall (db db' : DB) (id : jsstring) (data : CategoryInput)
         (tenantId : option jsstring) (r' : Category) (tr : list Event),
    NoDup (map cat_id (rows db)) ->
    exec (updateCategory id data tenantId) db = (inr r', db', tr) ->
    exists (old : Category) (l1 l2 : list Category),
      rows db = l1 ++ old :: l2 /\
      cat_id old = id /\
      visible tenantId old = true /\
      r' = {| cat_id := cat_id old;
              cat_nome := in_nome data;
              cat_cor := in_cor data;
              cat_descricao := orNull (in_descricao data);
              cat_tenantId := cat_tenantId old;
              cat_criadoEm := cat_criadoEm old |} /\
      rows db' = l1 ++ r' :: l2 /\
      (in_descricao data = None -> cat_descricao r' = None).
Proof.
  intros db db' id data tenantId r' tr Hd Hx.
  destruct (find (matches (whereId id tenantId)) (rows db)) as [c | ] eqn:Hf.
  - unfold exec in Hx.
    set (d := {| u_nome := in_nome data;
                 u_cor := in_cor data;
                 u_descricao := orNull (in_descricao data) |}) in *.
    assert (Hrun : run handle (updateCategory id data tenantId) db =
                   (fst (update id d db), snd (update id d db),
                    [Ev (FindFirst (whereId id tenantId)); Ev (Update id d)])).
    { apply updateCategory_found with (s1 := db) (c := c).
      - simpl. rewrite Hf. reflexivity.
      - apply surjective_pairing. }
    rewrite Hrun in Hx. clear Hrun.
    destruct (update id d db) as [res db2] eqn:Hu. simpl in Hx.
    injection Hx as Hr Hdb _. subst res db2.
    revert Hu. unfold update.
    destruct (find (fun r => cat_id r =? id) (rows db))
      as [old | ] eqn:Ho; [ | discriminate].
    destruct (existsb _ (rows db)); [discriminate | ].
    intros Hu. injection Hu as Hr Hdb.
    apply find_some in Hf. destruct Hf as [Hcin Hm].
    rewrite matches_whereId in Hm. apply andb_true_iff in Hm.
    destruct Hm as [Hcid Hv]. apply jeqb_eq in Hcid.
    apply find_some in Ho. destruct Ho as [Hoin Hoid].
    apply jeqb_eq in Hoid.
    assert (E : old = c).
    { apply (NoDup_map_eq cat_id _ _ _ Hd Hoin Hcin). congruence. }
    subst c.
    destruct (in_split _ _ Hoin) as [l1 [l2 Hl]].
    exists old, l1, l2.
    rewrite Hl in Hd. destruct (NoDup_split_id _ _ _ Hd) as [N1 N2].
    rewrite Hoid in N1, N2.
    repeat split; try assumption.
    + rewrite <- Hr. reflexivity.
    + rewrite <- Hdb. simpl. rewrite Hl, map_app. simpl.
      rewrite (@map_replace_other id _ l1 N1), (@map_replace_other id _ l2 N2).
      rewrite Hoid, jeqb_refl, Hr. reflexivity.
    + intros E. rewrite <- Hr. simpl. rewrite E. reflexivity.
  - unfold exec in Hx.
    rewrite (updateCategory_not_found handle id data tenantId db (s1 := db))
      in Hx by (simpl; rewrite Hf; reflexivity).
    discriminate.
Qed.

(** ** The [descricao] that is written *)

Lemma orNull_not_empty (descricao : option jsstring) :
  orNull descricao <> Some "".
Proof.
  unfold orNull. destruct descricao as [s | ]; simpl; [ | discriminate].
  destruct (truthy s) eqn:E; [ | discriminate].
  apply truthy_true in E. intros H. injection H as H. contradiction.
Qed.

Lemma orNull_falsy (descricao : option jsstring) :
  truthyOpt descricao = false -> orNull descricao = None.
Proof.
  unfold orNull. intros H. rewrite H. reflexivity.
Qed.

Section AnyStoreWrites.

Variable S : Type.
Variable h : Handler S.

Lemma createCategory_trace (data : CategoryInput) (t : option jsstring)
    (s : S) :
  trace (run h (createCategory data t) s) =
  [Ev (Create {| d_nome := in_nome data;
                 d_cor := in_cor data;
                 d_descricao := orNull (in_descricao data);
                 d_tenantId := t |})].
Proof.
  unfold createCategory. cbn.
  destruct (h (Create _) s) as [[e | c] s1]; reflexivity.
Qed.

Lemma updateCategory_trace (id : jsstring) (data : CategoryInput)
    (t : option jsstring) (s : S) :
  let check := Ev (FindFirst (whereId id t)) in
  let write := Ev (Update id {| u_nome := in_nome data;
                                u_cor := in_cor data;
                                u_descricao := orNull (in_descricao data) |}) in
  trace (run h (updateCategory id data t) s) = [check] \/
  trace (run h (updateCategory id data t) s) = [check; write].
Proof.
  unfold updateCategory. cbn.
  destruct (h (FindFirst (whereId id t)) s) as [[e | [c | ]] s1]; cbn;
    [left; reflexivity | | left; reflexivity].
  destruct (h (Update id _) s1) as [[e | c'] s2]; right; reflexivity.
Qed.

End AnyStoreWrites.

Lemma exec_createCategory (data : CategoryInput) (t : option jsstring)
    (db : DB) :
  let d := {| d_nome := in_nome data;
              d_cor := in_cor data;
              d_descricao := orNull (in_descricao data);
              d_tenantId := t |} in
  exec (createCategory data t) db =
  (fst (create d db), snd (create d db), [Ev (Create d)]).
Proof.
  intros d. unfold exec, createCategory. fold d. cbn - [create].
  destruct (create d db) as [[e | c] db1]; reflexivity.
Qed.

Lemma exec_updateCategory_ok (id : jsstring) (data : CategoryInput)
    (t : option jsstring) (db db' : DB) (r' : Category) (tr : list Event) :
  exec (updateCategory id data t) db = (inr r', db', tr) ->
  update id {| u_nome := in_nome data;
               u_cor := in_cor data;
               u_descricao := orNull (in_descricao data) |} db
  = (inr r', db').
Proof.
  intros Hx. unfold exec in Hx.
  destruct (find (matches (whereId id t)) (rows db)) as [c | ] eqn:Hf.
  - set (d := {| u_nome := in_nome data;
                 u_cor := in_cor data;
                 u_descricao := orNull (in_descricao data) |}) in *.
    assert (Hrun : run handle (updateCategory id data t) db =
                   (fst (update id d db), snd (update id d db),
                    [Ev (FindFirst (whereId id t)); Ev (Update id d)])).
    { apply updateCategory_found with (s1 := db) (c := c).
      - simpl. rewrite Hf. reflexivity.
      - apply surjective_pairing. }
    rewrite Hrun in Hx. injection Hx as H1 H2 _.
    rewrite (surjective_pairing (update id d db)), H1, H2. reflexivity.
  - rewrite (updateCategory_not_found handle id data t db (s1 := db))
      in Hx by (simpl; rewrite Hf; reflexivity).
    discriminate.
Qed.

(** C9. [createCategory] and [updateCategory] write [descricao] as null
    whenever the supplied value is falsy, the empty string included: the
    value handed to the store is [data.descricao || null], which is never
    the empty string, and so is the [descricao] of the row they return
    and store. *)
Theorem falsy_descricao_is_stored_as_null :
  forall (data : CategoryInput) (id : jsstring) (tenantId : option jsstring),
    orNull None = None /\
    orNull (Some "") = None /\
    (truthyOpt (in_descricao data) = false ->
     orNull (in_descricao data) = None) /\
    (forall (S : Type) (h : Handler S) (s : S) (ev : Event)
            (v : option jsstring),
        In ev (trace (run h (createCategory data tenantId) s) ++
               trace (run h (updateCategory id data tenantId) s)) ->
        writtenDescricao ev = Some v ->
        v = orNull (in_descricao data) /\ v <> Some "") /\
    (forall (db db' : DB) (r : Category) (tr : list Event),
        exec (createCategory data tenantId) db = (inr r, db', tr) ->
        In r (rows db') /\
        cat_descricao r = orNull (in_descricao data) /\
        cat_descricao r <> Some "") /\
    (forall (db db' : DB) (r : Category) (tr : list Event),
        exec (updateCategory id data tenantId) db = (inr r, db', tr) ->
        In r (rows db') /\
        cat_descricao r = orNull (in_descricao data) /\
        cat_descricao r <> Some "").
Proof.
  intros data id tenantId.
  split; [reflexivity | split; [reflexivity | split; [apply orNull_falsy | ]]].
  split; [ | split].
  - intros S h s ev v Hin Hv.
    assert (E : v = orNull (in_descricao data)).
    { rewrite createCategory_trace in Hin.
      destruct (updateCategory_trace h id data tenantId s) as [Ht | Ht];
        rewrite Ht in Hin; simpl in Hin;
        repeat (destruct Hin as [Hin | Hin]; [subst ev | ]);
        try contradiction; simpl in Hv; try discriminate;
        injection Hv as Hv; symmetry; exact Hv. }
    split; [exact E | rewrite E; apply orNull_not_empty].
  - intros db db' r tr Hx. rewrite exec_createCategory in Hx.
    injection Hx as H1 H2 _. revert H1 H2. unfold create.
    destruct (existsb _ (rows db)); simpl; [discriminate | ].
    intros H1 H2. injection H1 as H1. subst r db'. simpl.
    split; [apply in_or_app; right; left; reflexivity | ].
    split; [reflexivity | apply orNull_not_empty].
  - intros db db' r tr Hx. apply exec_updateCategory_ok in Hx.
    revert Hx. unfold update.
    destruct (find (fun r0 => cat_id r0 =? id) (rows db))
      as [old | ] eqn:Ho; [ | discriminate].
    destruct (existsb _ (rows db)); [discriminate | ].
    intros Hx. injection Hx as H1 H2. subst r db'. simpl.
    split; [ | split; [reflexivity | apply orNull_not_empty]].
    apply find_some in Ho. destruct Ho as [Hin Hid].
    apply in_map_iff. exists old. rewrite Hid. split; [reflexivity | exact Hin].
Qed.

(** ** Listing *)

(** C10. [getCategories] with the empty string as [search] is the same
    program as [getCategories] without [search], for every page, page size
    and scope: the filter has no [OR] part, and against every store the
    two runs coincide. *)
Theorem empty_search_is_no_search :
  forall (page pageSize : option Z) (tenantId : option jsstring)
         (countFirst : bool),
    getCategories (Some "") page pageSize tenantId countFirst
      = getCategories None page pageSize tenantId countFirst /\
    listWhere (Some "") tenantId = applyTenantFilter emptyWhere tenantId /\
    w_OR (listWhere (Some "") tenantId) = None /\
    (forall (S : Type) (h : Handler S) (s : S),
        run h (getCategories (Some "") page pageSize tenantId countFirst) s
          = run h (getCategories None page pageSize tenantId countFirst) s).
Proof.
  intros page pageSize tenantId countFirst.
  split; [reflexivity | split; [reflexivity | split]].
  - destruct tenantId; reflexivity.
  - intros S h s. reflexivity.
Qed.

(** ** The guard and the trimmed name *)

Lemma eventNome_lookup (n : jsstring) (t : option jsstring) :
  eventNome (Ev (FindFirst (lookupWhere n t))) = Some n.
Proof. destruct t; reflexivity. Qed.

Lemma eventNome_fallback (n : jsstring) (t : option jsstring) :
  eventNome (Ev (FindFirst (fallbackWhere n t))) = Some n.
Proof. destruct t; reflexivity. Qed.

Lemma eventNome_insert (n : jsstring) (t : option jsstring) (random : float) :
  eventNome (Ev (Create (newCategoryData n t random))) = Some n.
Proof. reflexivity. Qed.

(** Against every store, each request of [findOrCreateCategoryByName]
    names the trimmed value. *)
Lemma findOrCreate_trace_trimmed (S : Type) (h : Handler S) (nome : jsstring)
    (t : option jsstring) (random : float) (s : S) :
  trim nome <> "" ->
  Forall (fun ev => eventNome ev = Some (trim nome))
         (trace (run h (findOrCreateCategoryByName nome t random) s)).
Proof.
  intros Hn.
  pose proof (eventNome_lookup (trim nome) t) as E1.
  pose proof (eventNome_fallback (trim nome) t) as E2.
  pose proof (eventNome_insert (trim nome) t random) as E3.
  destruct (h _ (FindFirst (lookupWhere (trim nome) t)) s)
    as [[e | [c | ]] s1] eqn:H1.
  - rewrite (findOrCreate_lookup_rejected h nome t random s Hn H1).
    repeat constructor; assumption.
  - rewrite (findOrCreate_found h nome t random s Hn H1).
    repeat constructor; assumption.
  - destruct (h _ (Create (newCategoryData (trim nome) t random)) s1)
      as [[e | c] s2] eqn:H2.
    + rewrite (findOrCreate_rejected h nome t random s Hn H1 H2).
      destruct (codeIs e "P2002"); cbn.
      * destruct (h _ (FindFirst (lookupWhere (trim nome) t)) s2)
          as [[e3 | [c3 | ]] s3]; cbn;
          try (repeat constructor; assumption).
        destruct (h _ (FindFirst (fallbackWhere (trim nome) t)) s3)
          as [[e4 | [c4 | ]] s4]; cbn; repeat constructor; assumption.
      * repeat constructor; assumption.
    + rewrite (findOrCreate_created h nome t random s Hn H1 H2).
      repeat constructor; assumption.
Qed.

(** Against every store, a name that is not blank is first looked up, and
    when the lookup finds nothing the insert is the next request. *)
Lemma findOrCreate_trace_head (S : Type) (h : Handler S) (nome : jsstring)
    (t : option jsstring) (random : float) (s : S) :
  trim nome <> "" ->
  let lookup := FindFirst (lookupWhere (trim nome) t) in
  let insert := Create (newCategoryData (trim nome) t random) in
  exists more : list Event,
    trace (run h (findOrCreateCategoryByName nome t random) s)
      = Ev lookup :: more /\
    (forall s1 : S,
        h _ lookup s = (inr None, s1) ->
        exists more' : list Event, more = Ev insert :: more').
Proof.
  intros Hn lookup insert.
  destruct (h _ lookup s) as [[e | [c | ]] s1] eqn:H1.
  - rewrite (findOrCreate_lookup_rejected h nome t random s Hn H1).
    exists []. split; [reflexivity | intros s1' H; discriminate H].
  - rewrite (findOrCreate_found h nome t random s Hn H1).
    exists []. split; [reflexivity | intros s1' H; discriminate H].
  - destruct (h _ insert s1) as [[e | c] s2] eqn:H2.
    + rewrite (findOrCreate_rejected h nome t random s Hn H1 H2).
      match goal with
      | |- context [run h ?p s2] => destruct (run h p s2) as [[o s3] tr]
      end.
      exists (Ev insert :: tr). split; [reflexivity | ].
      intros s1' _. exists tr. reflexivity.
    + rewrite (findOrCreate_created h nome t random s Hn H1 H2).
      exists [Ev insert]. split; [reflexivity | ].
      intros s1' _. exists []. reflexivity.
Qed.

(** C3. A name that is empty after trimming makes
    [findOrCreateCategoryByName] throw the error with message
    "Nome da categoria é obrigatório" before any request is issued.  For
    every other name the call goes on with the trimmed value: its first
    request is the case-insensitive lookup of the trimmed name, every
    request names the trimmed value, a row the lookup finds gives the
    result, and when it finds nothing the next request is the insert of
    the trimmed name, whose row gives the result; on the in-memory store
    the row that is appended carries the trimmed name. *)
Theorem blank_name_rejected_else_trimmed :
  forall (nome : jsstring) (tenantId : option jsstring) (random : float),
    (trim nome = "" ->
     findOrCreateCategoryByName nome tenantId random = Throw nameRequired /\
     err_message nameRequired = "Nome da categoria é obrigatório" /\
     (forall (S : Type) (h : Handler S) (s : S),
         run h (findOrCreateCategoryByName nome tenantId random) s
           = (inl nameRequired, s, []))) /\
    (trim nome <> "" ->
     let lookup := FindFirst (lookupWhere (trim nome) tenantId) in
     let insert := Create (newCategoryData (trim nome) tenantId random) in
     lookupWhere (trim nome) tenantId =
       {| w_cond := {| c_id := None;
                       c_tenantId := tenantId;
                       c_nome := Some (Equals (trim nome) Insensitive);
                       c_descricao := None |};
          w_OR := None |} /\
     d_nome (newCategoryData (trim nome) tenantId random) = trim nome /\
     (forall (S : Type) (h : Handler S) (s : S),
         (exists more : list Event,
             trace (run h (findOrCreateCategoryByName nome tenantId random) s)
               = Ev lookup :: more /\
             (forall s1 : S,
                 h _ lookup s = (inr None, s1) ->
                 exists more' : list Event, more = Ev insert :: more')) /\
         Forall (fun ev => eventNome ev = Some (trim nome))
                (trace (run h (findOrCreateCategoryByName nome tenantId
                                 random) s))) /\
     (forall (S : Type) (h : Handler S) (s s1 : S) (c : Category),
         h _ lookup s = (inr (Some c), s1) ->
         run h (findOrCreateCategoryByName nome tenantId random) s
           = (inr (cat_id c), s1, [Ev lookup])) /\
     (forall (S : Type) (h : Handler S) (s s1 s2 : S) (c : Category),
         h _ lookup s = (inr None, s1) ->
         h _ insert s1 = (inr c, s2) ->
         run h (findOrCreateCategoryByName nome tenantId random) s
           = (inr (cat_id c), s2, [Ev lookup; Ev insert])) /\
     (forall db : DB,
         let res :=
           exec (findOrCreateCategoryByName nome tenantId random) db in
         match find (matches (lookupWhere (trim nome) tenantId)) (rows db) with
         | Some c =>
             outcome res = inr (cat_id c) /\ rows (finalState res) = rows db
         | None =>
             exists r : Category,
               outcome res = inr (cat_id r) /\
               rows (finalState res) = rows db ++ [r] /\
               cat_nome r = trim nome
         end)).
Proof.
  intros nome tenantId random. split.
  - intros Hb.
    pose proof (findOrCreate_blank nome tenantId random Hb) as E.
    split; [exact E | split; [reflexivity | ]].
    intros S h s. rewrite E. reflexivity.
  - intros Hn lookup insert.
    split; [destruct tenantId; reflexivity | ].
    split; [reflexivity | ].
    split; [ | split; [ | split]].
    + intros S h s. split.
      * apply findOrCreate_trace_head. exact Hn.
      * apply findOrCreate_trace_trimmed. exact Hn.
    + intros S h s s1 c H1. apply findOrCreate_found; assumption.
    + intros S h s s1 s2 c H1 H2.
      apply (findOrCreate_created h nome tenantId random s Hn H1 H2).
    + intros db res. subst res.
      rewrite (exec_findOrCreate nome tenantId random db Hn).
      destruct (find (matches (lookupWhere (trim nome) tenantId)) (rows db));
        unfold outcome, finalState; simpl.
      * split; reflexivity.
      * exists (inserted (newCategoryData (trim nome) tenantId random) db).
        split; [reflexivity | split; reflexivity].
Qed.

(** ** Ordering and pages *)

Lemma insertDesc_perm (r : Category) (l : list Category) :
  Permutation (insertDesc r l) (r :: l).
Proof.
  induction l as [ | x l IH]; simpl; [reflexivity | ].
  destruct (cat_criadoEm x <=? cat_criadoEm r)%Z; [reflexivity | ].
  rewrite IH. apply perm_swap.
Qed.

Lemma orderByCriadoEmDesc_perm (l : list Category) :
  Permutation (orderByCriadoEmDesc l) l.
Proof.
  induction l as [ | x l IH]; simpl; [reflexivity | ].
  rewrite insertDesc_perm, IH. reflexivity.
Qed.

Lemma insertDesc_HdRel (a r : Category) (l : list Category) :
  newerFirst a r -> HdRel newerFirst a l ->
  HdRel newerFirst a (insertDesc r l).
Proof.
  intros Har Hl. destruct l as [ | x l]; simpl.
  - constructor. exact Har.
  - destruct (cat_criadoEm x <=? cat_criadoEm r)%Z; constructor.
    + exact Har.
    + inversion Hl. assumption.
Qed.

Lemma insertDesc_sorted (r : Category) (l : list Category) :
  Sorted newerFirst l -> Sorted newerFirst (insertDesc r l).
Proof.
  induction l as [ | x l IH]; simpl; intros Hs.
  - repeat constructor.
  - destruct (cat_criadoEm x <=? cat_criadoEm r)%Z eqn:E.
    + constructor; [exact Hs | constructor].
      unfold newerFirst. apply Z.leb_le. exact E.
    + inversion Hs as [ | ? ? Hs' Hhd]; subst.
      constructor; [apply IH; exact Hs' | ].
      apply insertDesc_HdRel; [ | exact Hhd].
      unfold newerFirst. apply Z.leb_gt in E. lia.
Qed.

Lemma orderByCriadoEmDesc_sorted (l : list Category) :
  StronglySorted newerFirst (orderByCriadoEmDesc l).
Proof.
  apply Sorted_StronglySorted.
  - intros a b c. unfold newerFirst. lia.
  - induction l as [ | x l IH]; simpl; [constructor | ].
    apply insertDesc_sorted. exact IH.
Qed.

Lemma listing_length (w : Where) (db : DB) :
  length (listing w db) = length (filter (matches w) (rows db)).
Proof.
  apply Permutation_length, orderByCriadoEmDesc_perm.
Qed.

(** [Math.ceil(n / d)] for a positive [d] is the least number of pages of
    size [d] that hold [n] rows. *)
Lemma mathCeilDiv_bounds (n d : Z) :
  (0 < d)%Z ->
  exists tp : Z,
    mathCeilDiv n d = Some tp /\ ((tp - 1) * d < n <= tp * d)%Z.
Proof.
  intros Hd. unfold mathCeilDiv.
  destruct (d =? 0)%Z eqn:E; [apply Z.eqb_eq in E; lia | ].
  exists (- (- n / d))%Z. split; [reflexivity | ].
  pose proof (Z.div_mod (- n) d ltac:(lia)) as Hdm.
  pose proof (Z.mod_pos_bound (- n) d Hd) as Hb.
  nia.
Qed.

(** C6. For a page number and a page size of at least 1, [getCategories]
    returns the selected rows ordered by [criadoEm] descending, skipping
    [(page - 1) * pageSize] rows and taking at most [pageSize]; [total] is
    the number of selected rows and [totalPages] is the ceiling of
    [total / pageSize].  A page beyond the last is empty with the same
    [total]; with 25 selected rows and page size 10 there are 3 pages and
    page 3 holds the remaining 5 rows. *)
Theorem getCategories_pagination :
  forall (db : DB) (search : option jsstring) (page pageSize : Z)
         (tenantId : option jsstring) (countFirst : bool),
    (1 <= page)%Z ->
    (1 <= pageSize)%Z ->
    let w := listWhere search tenantId in
    let all := listing w db in
    let n := Z.of_nat (length (filter (matches w) (rows db))) in
    let skip := ((page - 1) * pageSize)%Z in
    let shown := firstn (Z.to_nat pageSize) (skipn (Z.to_nat skip) all) in
    Permutation all (filter (matches w) (rows db)) /\
    StronglySorted newerFirst all /\
    exists tp : Z,
      exec (getCategories search (Some page) (Some pageSize) tenantId
              countFirst) db =
        (inr {| categories := shown;
                total := n;
                page := page;
                pageSize := pageSize;
                totalPages := Some tp |},
         db,
         [Ev (FindMany w (Some skip) (Some pageSize)); Ev (Count w)]) /\
      ((tp - 1) * pageSize < n <= tp * pageSize)%Z /\
      (length shown <= Z.to_nat pageSize)%nat /\
      ((tp < page)%Z -> shown = []) /\
      (n = 25%Z -> pageSize = 10%Z ->
       tp = 3%Z /\
       (page = 3%Z -> shown = skipn 20 all /\ length shown = 5%nat)).
Proof.
  intros db search page pageSize tenantId countFirst Hp Hs w all n skip shown.
  split; [apply orderByCriadoEmDesc_perm | ].
  split; [apply orderByCriadoEmDesc_sorted | ].
  destruct (@mathCeilDiv_bounds n pageSize ltac:(lia)) as [tp [Htp Hb]].
  assert (Hlen : Z.of_nat (length all) = n).
  { unfold all, n. rewrite listing_length. reflexivity. }
  exists tp. split; [ | split; [exact Hb | split; [ | split]]].
  - pose proof (exec_getCategories search (Some page) (Some pageSize)
                  tenantId countFirst db) as E.
    cbv beta iota zeta in E. fold w n skip in E. rewrite E.
    unfold findMany. fold all. cbv beta iota zeta.
    assert (Hok : ((skip <? 0) || (pageSize <? 0))%Z%bool = false).
    { apply orb_false_iff. split; apply Z.ltb_ge; unfold skip; nia. }
    rewrite Hok, Htp. reflexivity.
  - unfold shown. rewrite length_firstn. apply Nat.le_min_l.
  - intros Hlast. unfold shown.
    rewrite skipn_all2; [apply firstn_nil | ].
    unfold skip. nia.
  - intros Hn Hps. subst pageSize.
    assert (Htp3 : tp = 3%Z) by lia.
    split; [exact Htp3 | ].
    intros Hp3. subst page.
    assert (Hl : length all = 25%nat) by lia.
    unfold shown, skip. change (Z.to_nat ((3 - 1) * 10)) with 20%nat.
    change (Z.to_nat 10) with 10%nat.
    assert (Hsk : length (skipn 20 all) = 5%nat)
      by (rewrite length_skipn, Hl; reflexivity).
    rewrite firstn_all2 by (rewrite Hsk; lia).
    split; [reflexivity | exact Hsk].
Qed.

(** ** The uniqueness rule is an invariant of the in-memory store *)

Lemma sameKey_sym (x y : Category) :
  sameKey (cat_tenantId x) (cat_nome x) y =
  sameKey (cat_tenantId y) (cat_nome y) x.
Proof.
  unfold sameKey. f_equal.
  - destruct (optEqb (cat_tenantId y) (cat_tenantId x)) eqn:E.
    + apply optEqb_eq in E. rewrite E. symmetry. apply optEqb_refl.
    + symmetry. apply not_true_is_false. intros E'. apply optEqb_eq in E'.
      rewrite E', optEqb_refl in E. discriminate.
  - apply jeqb_sym.
Qed.

Lemma existsb_false (A : Type) (f : A -> bool) (l : list A) :
  existsb f l = false <-> forall x, In x l -> f x = false.
Proof.
  split.
  - intros H x Hx. apply not_true_is_false. intros Hf.
    assert (E : existsb f l = true) by (apply existsb_exists; eauto).
    rewrite E in H. discriminate.
  - intros H. apply not_true_is_false. intros E.
    apply existsb_exists in E. destruct E as [x [Hx Hf]].
    rewrite (H x Hx) in Hf. discriminate.
Qed.

Lemma uniqueNames_app_one (l : list Category) (r : Category) :
  uniqueNames l = true ->
  existsb (sameKey (cat_tenantId r) (cat_nome r)) l = false ->
  uniqueNames (l ++ [r]) = true.
Proof.
  induction l as [ | x l IH]; simpl; intros Hu He; [reflexivity | ].
  apply andb_true_iff in Hu. destruct Hu as [Hx Hu].
  apply orb_false_iff in He. destruct He as [Hrx He].
  rewrite (IH Hu He), andb_true_r.
  rewrite existsb_app. simpl. rewrite orb_false_r.
  apply negb_true_iff in Hx. rewrite Hx. simpl.
  rewrite sameKey_sym, Hrx. reflexivity.
Qed.

Lemma uniqueNames_filter_keep (g : Category -> bool) (l : list Category) :
  uniqueNames l = true -> uniqueNames (filter g l) = true.
Proof.
  induction l as [ | x l IH]; simpl; intros Hu; [reflexivity | ].
  apply andb_true_iff in Hu. destruct Hu as [Hx Hu].
  destruct (g x); simpl; [ | apply IH; exact Hu].
  rewrite (IH Hu), andb_true_r. apply negb_true_iff.
  apply negb_true_iff in Hx. rewrite existsb_false in Hx.
  apply existsb_false. intros y Hy. apply filter_In in Hy.
  apply Hx. tauto.
Qed.

Lemma uniqueNames_replace (id : jsstring) (r' : Category)
    (l : list Category) :
  NoDup (map cat_id l) ->
  uniqueNames l = true ->
  (forall y, In y l -> cat_id y <> id ->
             sameKey (cat_tenantId r') (cat_nome r') y = false) ->
  uniqueNames (map (fun r => if cat_id r =? id then r' else r) l) = true.
Proof.
  induction l as [ | x l IH]; simpl; intros Hd Hu Hc; [reflexivity | ].
  inversion Hd as [ | ? ? Hnin Hd']; subst.
  apply andb_true_iff in Hu. destruct Hu as [Hx Hu].
  apply negb_true_iff in Hx. rewrite existsb_false in Hx.
  rewrite IH; [ | exact Hd' | exact Hu
               | intros y Hy; apply Hc; right; exact Hy].
  rewrite andb_true_r. apply negb_true_iff. apply existsb_false.
  intros z Hz. apply in_map_iff in Hz. destruct Hz as [y [Hz Hy]].
  assert (Hxy : cat_id y <> cat_id x).
  { intros E. apply Hnin. rewrite <- E. apply in_map. exact Hy. }
  destruct (cat_id x =? id) eqn:Ex.
  - apply jeqb_eq in Ex.
    destruct (cat_id y =? id) eqn:Ey.
    + apply jeqb_eq in Ey. congruence.
    + subst z. apply Hc; [right; exact Hy | ].
      apply jeqb_neq. exact Ey.
  - destruct (cat_id y =? id) eqn:Ey.
    + subst z. rewrite sameKey_sym. apply Hc; [left; reflexivity | ].
      apply jeqb_neq. exact Ex.
    + subst z. apply Hx. exact Hy.
Qed.

(** Every request keeps ids a key and names unique within a tenant. *)
Lemma invariant_handle (X : Type) (q : Request X) (db : DB) :
  wellFormed db -> uniqueNames (rows db) = true ->
  uniqueNames (rows (snd (handle q db))) = true.
Proof.
  intros [Hd _] Hu. destruct q; simpl; try exact Hu.
  - unfold create.
    destruct (existsb (sameKey (d_tenantId data) (d_nome data)) (rows db))
      eqn:E; simpl; [exact Hu | ].
    apply uniqueNames_app_one; [exact Hu | exact E].
  - unfold update.
    destruct (find (fun r => cat_id r =? id) (rows db)) as [old | ];
      [ | exact Hu].
    destruct (existsb _ (rows db)) eqn:E; simpl; [exact Hu | ].
    apply uniqueNames_replace; [exact Hd | exact Hu | ].
    intros y Hy Hid. rewrite existsb_false in E. specialize (E y Hy).
    apply jeqb_neq in Hid. rewrite Hid in E. exact E.
  - unfold delete.
    destruct (find (fun r => cat_id r =? id) (rows db)); [ | exact Hu].
    simpl. apply uniqueNames_filter_keep. exact Hu.
Qed.

(** Every service method keeps both invariants, so they hold in every
    state reached from the empty store. *)
Lemma invariant_exec (A : Type) (p : Prog A) (db : DB) :
  wellFormed db -> uniqueNames (rows db) = true ->
  uniqueNames (rows (finalState (exec p db))) = true.
Proof.
  unfold exec, finalState. revert db.
  induction p as [a | e | X q k IH]; intros db Hw Hu; simpl; try exact Hu.
  pose proof (wellFormed_handle q Hw) as Hq.
  pose proof (invariant_handle q Hw Hu) as Hq'.
  destruct (handle q db) as [r db1]. simpl in Hq, Hq'.
  specialize (IH r db1 Hq Hq').
  destruct (run handle (k r) db1) as [[o db2] tr]. exact IH.
Qed.

(** * Further properties of the service *)

(** ** Reads *)

(** X1. Against every store the three read methods issue a fixed list of
    read requests and nothing else: [getCategories] always asks for the
    page and for the count, also when the page query is rejected;
    [getCategoryById] asks one lookup; [getAllCategories] asks one listing
    without [skip] and [take].  On the in-memory store they leave the
    table as it was. *)
Theorem reads_only_read :
  forall (S : Type) (h : Handler S) (s : S) (search : option jsstring)
         (page pageSize : option Z) (id : jsstring)
         (tenantId : option jsstring) (countFirst : bool) (db : DB),
    let p := match page with Some p => p | None => 1%Z end in
    let ps := match pageSize with Some p => p | None => 10%Z end in
    let w := listWhere search tenantId in
    trace (run h (getCategories search page pageSize tenantId countFirst) s) =
      [Ev (FindMany w (Some ((p - 1) * ps)%Z) (Some ps)); Ev (Count w)] /\
    trace (run h (getCategoryById id tenantId) s) =
      [Ev (FindFirst (whereId id tenantId))] /\
    trace (run h (getAllCategories tenantId) s) =
      [Ev (FindMany (applyTenantFilter emptyWhere tenantId) None None)] /\
    finalState (exec (getCategories search page pageSize tenantId countFirst)
                  db) = db /\
    finalState (exec (getCategoryById id tenantId) db) = db /\
    finalState (exec (getAllCategories tenantId) db) = db.
Proof.
  intros S h s search page pageSize id tenantId countFirst db p ps w.
  split; [ | split; [ | split; [ | split; [ | split]]]].
  - unfold getCategories. fold p ps w. cbn.
    destruct (h _ (FindMany w (Some ((p - 1) * ps)%Z) (Some ps)) s)
      as [[e | l] s1].
    + destruct (h _ (Count w) s1) as [[e' | n] s2]; reflexivity.
    + destruct (h _ (Count w) s1) as [[e' | n] s2]; reflexivity.
  - unfold getCategoryById. cbn.
    destruct (h _ (FindFirst (whereId id tenantId)) s)
      as [[e | [c | ]] s1]; reflexivity.
  - unfold getAllCategories. cbn.
    destruct (h _ (FindMany (applyTenantFilter emptyWhere tenantId)
                     None None) s) as [[e | l] s1]; reflexivity.
  - rewrite exec_getCategories. reflexivity.
  - rewrite exec_getCategoryById.
    destruct (find (matches (whereId id tenantId)) (rows db)); reflexivity.
  - unfold exec, getAllCategories. cbn - [findMany].
    destruct (findMany _ None None db); reflexivity.
Qed.

(** X2. [getCategories] fails whenever one of its two requests is
    rejected, with the error of that request: the rejection of the page
    query when the count succeeds, and the rejection of the count when
    the page query succeeds. *)
Theorem getCategories_rejections :
  forall (S : Type) (h : Handler S) (s s1 s2 : S) (search : option jsstring)
         (page pageSize : option Z) (tenantId : option jsstring)
         (countFirst : bool) (e : Error),
    let p := match page with Some p => p | None => 1%Z end in
    let ps := match pageSize with Some p => p | None => 10%Z end in
    let w := listWhere search tenantId in
    (forall n : Z,
        h _ (FindMany w (Some ((p - 1) * ps)%Z) (Some ps)) s = (inl e, s1) ->
        h _ (Count w) s1 = (inr n, s2) ->
        outcome (run h (getCategories search page pageSize tenantId
                          countFirst) s)
          = inl e) /\
    (forall l : list Category,
        h _ (FindMany w (Some ((p - 1) * ps)%Z) (Some ps)) s = (inr l, s1) ->
        h _ (Count w) s1 = (inl e, s2) ->
        outcome (run h (getCategories search page pageSize tenantId
                          countFirst) s)
          = inl e).
Proof.
  intros S h s s1 s2 search page pageSize tenantId countFirst e p ps w.
  split.
  - intros n H1 H2. unfold getCategories. fold p ps w. cbn.
    rewrite H1, H2. reflexivity.
  - intros l H1 H2. unfold getCategories. fold p ps w. cbn.
    rewrite H1, H2. reflexivity.
Qed.

(** X22. When both requests of [getCategories] are rejected, the call
    throws one of the two errors and nothing else: the one [Promise.all]
    sees first, which is that of the page query or that of the count
    according to the order in which they settle.  Both requests have been
    issued by then, the page query first. *)
Theorem getCategories_both_rejected :
  forall (S : Type) (h : Handler S) (s s1 s2 : S) (search : option jsstring)
         (page pageSize : option Z) (tenantId : option jsstring)
         (countFirst : bool) (e1 e2 : Error),
    let p := match page with Some p => p | None => 1%Z end in
    let ps := match pageSize with Some p => p | None => 10%Z end in
    let w := listWhere search tenantId in
    h _ (FindMany w (Some ((p - 1) * ps)%Z) (Some ps)) s = (inl e1, s1) ->
    h _ (Count w) s1 = (inl e2, s2) ->
    run h (getCategories search page pageSize tenantId countFirst) s
      = (inl (if countFirst then e2 else e1), s2,
         [Ev (FindMany w (Some ((p - 1) * ps)%Z) (Some ps)); Ev (Count w)]).
Proof.
  intros S h s s1 s2 search page pageSize tenantId countFirst e1 e2 p ps w
         H1 H2.
  unfold getCategories. fold p ps w. cbn.
  rewrite H1, H2. reflexivity.
Qed.

Lemma matches_tenantOnly (t : option jsstring) (r : Category) :
  matches (applyTenantFilter emptyWhere t) r = visible t r.
Proof.
  destruct t as [t | ]; unfold matches, matchesCond; simpl;
    rewrite ?andb_true_r; reflexivity.
Qed.

Lemma filter_all (A : Type) (l : list A) : filter (fun _ => true) l = l.
Proof.
  induction l as [ | x l IH]; simpl; [reflexivity | rewrite IH; reflexivity].
Qed.

(** X3. On the in-memory store [getAllCategories] returns, newest first,
    exactly the rows visible in the scope, each once; without a tenant id
    that is every row of the table. *)
Theorem getAllCategories_lists_scope :
  forall (db : DB) (tenantId : option jsstring),
    exists l : list Category,
      outcome (exec (getAllCategories tenantId) db) = inr l /\
      Permutation l (filter (visible tenantId) (rows db)) /\
      StronglySorted newerFirst l /\
      (forall r : Category,
          In r l <-> In r (rows db) /\ visible tenantId r = true) /\
      exists l0 : list Category,
        outcome (exec (getAllCategories None) db) = inr l0 /\
        Permutation l0 (rows db).
Proof.
  intros db tenantId.
  assert (E : forall t,
             exec (getAllCategories t) db =
             (inr (listing (applyTenantFilter emptyWhere t) db), db,
              [Ev (FindMany (applyTenantFilter emptyWhere t) None None)])).
  { intros t. reflexivity. }
  assert (P : forall t,
             Permutation (listing (applyTenantFilter emptyWhere t) db)
                         (filter (visible t) (rows db))).
  { intros t. unfold listing.
    rewrite (filter_ext _ _ (matches_tenantOnly t)).
    apply orderByCriadoEmDesc_perm. }
  exists (listing (applyTenantFilter emptyWhere tenantId) db).
  rewrite E. split; [reflexivity | ].
  split; [apply P | ].
  split; [apply orderByCriadoEmDesc_sorted | ].
  split.
  - intros r. rewrite In_listing, matches_tenantOnly. reflexivity.
  - exists (listing (applyTenantFilter emptyWhere None) db).
    rewrite E. split; [reflexivity | ].
    rewrite (P None). simpl. rewrite filter_all. reflexivity.
Qed.

(** X4. The search text of [getCategories] is lower-cased before the
    request is built, so two search texts that differ only in letter case
    (they have the same lower-case form and are both empty or both not)
    give the same program, hence the same requests and the same result
    against every store. *)
Theorem search_ignores_letter_case :
  forall (s s' : jsstring) (page pageSize : option Z)
         (tenantId : option jsstring) (countFirst : bool),
    toLowerCase s = toLowerCase s' ->
    truthy s = truthy s' ->
    getCategories (Some s) page pageSize tenantId countFirst
      = getCategories (Some s') page pageSize tenantId countFirst.
Proof.
  intros s s' page pageSize tenantId countFirst H Ht.
  unfold getCategories, listWhere. rewrite H, Ht. reflexivity.
Qed.

(** What the listing filter selects when a search text is given. *)
Lemma matches_listWhere_search (s : jsstring) (t : option jsstring)
    (r : Category) :
  truthy s = true ->
  matches (listWhere (Some s) t) r =
  (visible t r &&
   (includes (fold (toLowerCase s)) (fold (cat_nome r)) ||
    match cat_descricao r with
    | Some d => includes (fold (toLowerCase s)) (fold d)
    | None => false
    end))%bool.
Proof.
  intros H. unfold listWhere. rewrite H.
  destruct t as [t | ]; unfold matches, matchesCond; simpl;
    rewrite ?andb_true_r, ?orb_false_r;
    destruct (cat_descricao r); reflexivity.
Qed.

(** X5. With a non-empty search text, on the in-memory store every row
    [getCategories] returns is visible in the scope and has the
    lower-cased text inside its [nome] or inside its [descricao], as the
    store compares case-insensitively (folded text inside folded text); a
    row without [descricao] can only match by [nome].  [total] counts
    exactly the rows of the table with that property. *)
Theorem search_selects_by_nome_or_descricao :
  forall (db : DB) (s : jsstring) (page pageSize : option Z)
         (tenantId : option jsstring) (countFirst : bool)
         (resp : CategoriesResponse),
    truthy s = true ->
    outcome (exec (getCategories (Some s) page pageSize tenantId countFirst)
               db) = inr resp ->
    let hit (r : Category) :=
      (visible tenantId r &&
       (includes (fold (toLowerCase s)) (fold (cat_nome r)) ||
        match cat_descricao r with
        | Some d => includes (fold (toLowerCase s)) (fold d)
        | None => false
        end))%bool in
    (forall r : Category,
        In r (categories resp) -> In r (rows db) /\ hit r = true) /\
    total resp = Z.of_nat (length (filter hit (rows db))).
Proof.
  intros db s page pageSize tenantId countFirst resp Hs Hx hit.
  rewrite exec_getCategories in Hx. unfold outcome in Hx.
  cbn - [findMany mathCeilDiv] in Hx.
  match type of Hx with
  | context [findMany ?w ?sk ?tk db] =>
      destruct (findMany w sk tk db) as [e | l] eqn:Hl; [discriminate | ]
  end.
  injection Hx as Hx. subst resp. cbn [categories total].
  split.
  - intros r Hr. destruct (In_findMany _ _ _ db r Hl Hr) as [Hin Hm].
    split; [exact Hin | ].
    change (matches (listWhere (Some s) tenantId) r = true) in Hm.
    rewrite (matches_listWhere_search s tenantId r Hs) in Hm. exact Hm.
  - do 2 f_equal.
    change (filter (matches (listWhere (Some s) tenantId)) (rows db)
            = filter hit (rows db)).
    apply filter_ext. intros r.
    apply matches_listWhere_search. exact Hs.
Qed.

(** ** Pages *)

(** X6. With [pageSize = 0], for every page number, [getCategories] on the
    in-memory store returns no rows, the full count as [total], and a
    [totalPages] that is not a finite number (the division is by zero). *)
Theorem page_size_zero :
  forall (db : DB) (search : option jsstring) (page : Z)
         (tenantId : option jsstring) (countFirst : bool),
    let w := listWhere search tenantId in
    outcome (exec (getCategories search (Some page) (Some 0%Z) tenantId
                     countFirst) db) =
    inr {| categories := [];
           total := Z.of_nat (length (filter (matches w) (rows db)));
           page := page;
           pageSize := 0%Z;
           totalPages := None |}.
Proof.
  intros db search page tenantId countFirst w.
  rewrite exec_getCategories. unfold outcome. cbn [fst]. fold w.
  unfold findMany. rewrite Z.mul_0_r. reflexivity.
Qed.

Lemma pageRows_eq (db : DB) (search : option jsstring) (ps : Z)
    (t : option jsstring) (countFirst : bool) (p : Z) :
  (1 <= p)%Z -> (1 <= ps)%Z ->
  pageRows db search ps t countFirst p =
  firstn (Z.to_nat ps)
         (skipn (Z.to_nat ((p - 1) * ps)) (listing (listWhere search t) db)).
Proof.
  intros Hp Hps. unfold pageRows.
  rewrite exec_getCategories. unfold outcome. cbn [fst].
  unfold findMany.
  assert (Hok : (((p - 1) * ps <? 0) || (ps <? 0))%Z%bool = false).
  { apply orb_false_iff. split; apply Z.ltb_ge; nia. }
  rewrite Hok. reflexivity.
Qed.

Lemma firstn_plus (A : Type) (a b : nat) (l : list A) :
  firstn (a + b) l = firstn a l ++ firstn b (skipn a l).
Proof.
  revert l. induction a as [ | a IH]; intros l; simpl; [reflexivity | ].
  destruct l as [ | x l]; simpl.
  - rewrite firstn_nil. reflexivity.
  - rewrite IH. reflexivity.
Qed.

(** X7. For a page size of at least 1, the pages of [getCategories] tile
    the ordered listing: pages 1 to [k] put one after the other are its
    first [k * pageSize] rows, without gap or repetition, and they are the
    whole listing as soon as [k * pageSize] reaches its length. *)
Theorem pages_tile_the_listing :
  forall (db : DB) (search : option jsstring) (pageSize : Z)
         (tenantId : option jsstring) (countFirst : bool) (k : nat),
    (1 <= pageSize)%Z ->
    let all := listing (listWhere search tenantId) db in
    firstPages db search pageSize tenantId countFirst k
      = firstn (k * Z.to_nat pageSize) all /\
    ((length all <= k * Z.to_nat pageSize)%nat ->
     firstPages db search pageSize tenantId countFirst k = all).
Proof.
  intros db search pageSize tenantId countFirst k Hps all.
  assert (E : firstPages db search pageSize tenantId countFirst k
              = firstn (k * Z.to_nat pageSize) all).
  { induction k as [ | k IH]; [reflexivity | ].
    cbn [firstPages]. rewrite IH.
    rewrite pageRows_eq by lia. fold all.
    replace (Z.to_nat ((Z.of_nat (Datatypes.S k) - 1) * pageSize))
      with (k * Z.to_nat pageSize)%nat by nia.
    rewrite <- firstn_plus. f_equal. lia. }
  split; [exact E | ].
  intros Hlen. rewrite E. apply firstn_all2. exact Hlen.
Qed.

(** X8. When the page size is at least 1 and at least the number of rows
    visible in the scope, page 1 of [getCategories] without search text
    holds the same rows in the same order as [getAllCategories]. *)
Theorem first_page_is_everything :
  forall (db : DB) (pageSize : Z) (tenantId : option jsstring)
         (countFirst : bool),
    (1 <= pageSize)%Z ->
    (Z.of_nat (length (filter (visible tenantId) (rows db))) <= pageSize)%Z ->
    exists (l : list Category) (resp : CategoriesResponse),
      outcome (exec (getAllCategories tenantId) db) = inr l /\
      outcome (exec (getCategories None (Some 1%Z) (Some pageSize) tenantId
                       countFirst) db) = inr resp /\
      categories resp = l /\
      total resp = Z.of_nat (length l).
Proof.
  intros db pageSize tenantId countFirst Hps Hlen.
  set (w := applyTenantFilter emptyWhere tenantId).
  assert (Hl : length (listing w db)
               = length (filter (visible tenantId) (rows db))).
  { rewrite listing_length. f_equal. apply filter_ext.
    intros r. apply matches_tenantOnly. }
  exists (listing w db). eexists.
  split; [reflexivity | ].
  rewrite exec_getCategories. unfold outcome. cbn [fst].
  change (listWhere None tenantId) with w.
  unfold findMany. cbn [Z.sub Z.mul Z.ltb Z.compare orb
                         Z.pos_sub Z.opp Z.to_nat].
  assert (Hok : (pageSize <? 0)%Z = false) by (apply Z.ltb_ge; lia).
  rewrite Hok. split; [reflexivity | ].
  cbn [categories total]. split.
  - change (skipn 0 (listing w db)) with (listing w db).
    apply firstn_all2. lia.
  - rewrite <- listing_length. reflexivity.
Qed.

(** ** Writes *)

Lemma deleteCategory_found (S : Type) (h : Handler S) (id : jsstring)
    (t : option jsstring) (s s1 s2 : S) (c : Category) (r : Error + unit) :
  h _ (FindFirst (whereId id t)) s = (inr (Some c), s1) ->
  h _ (Delete id) s1 = (r, s2) ->
  run h (deleteCategory id t) s =
  (r, s2, [Ev (FindFirst (whereId id t)); Ev (Delete id)]).
Proof.
  intros H1 H2. unfold deleteCategory. cbn. rewrite H1. cbn. rewrite H2.
  destruct r; reflexivity.
Qed.

(** X9. [createCategory], [updateCategory] and [deleteCategory] do not
    recover from a rejected write: whatever error the store gives for the
    insert, the update or the delete, a unique-constraint violation
    included, is thrown unchanged and no further request is made. *)
Theorem write_rejections_propagate :
  forall (S : Type) (h : Handler S) (s s1 s2 : S) (id : jsstring)
         (data : CategoryInput) (tenantId : option jsstring)
         (c : Category) (e : Error),
    let insert := Create {| d_nome := in_nome data;
                            d_cor := in_cor data;
                            d_descricao := orNull (in_descricao data);
                            d_tenantId := tenantId |} in
    let check := FindFirst (whereId id tenantId) in
    let write := Update id {| u_nome := in_nome data;
                              u_cor := in_cor data;
                              u_descricao := orNull (in_descricao data) |} in
    (h _ insert s = (inl e, s1) ->
     run h (createCategory data tenantId) s = (inl e, s1, [Ev insert])) /\
    (h _ check s = (inr (Some c), s1) ->
     h _ write s1 = (inl e, s2) ->
     run h (updateCategory id data tenantId) s
       = (inl e, s2, [Ev check; Ev write])) /\
    (h _ check s = (inr (Some c), s1) ->
     h _ (Delete id) s1 = (inl e, s2) ->
     run h (deleteCategory id tenantId) s
       = (inl e, s2, [Ev check; Ev (Delete id)])).
Proof.
  intros S h s s1 s2 id data tenantId c e insert check write.
  split; [ | split].
  - intros H. unfold createCategory. fold insert. cbn. rewrite H.
    reflexivity.
  - intros H1 H2. apply updateCategory_found with (s1 := s1) (c := c);
      assumption.
  - intros H1 H2. apply deleteCategory_found with (s1 := s1) (c := c);
      assumption.
Qed.

(** In a table keyed by id, the lookup by id in a scope finds the visible
    row that has the id. *)
Lemma find_whereId (id : jsstring) (t : option jsstring) (db : DB)
    (r : Category) :
  NoDup (map cat_id (rows db)) ->
  In r (rows db) -> cat_id r = id -> visible t r = true ->
  find (matches (whereId id t)) (rows db) = Some r.
Proof.
  intros Hd Hin Hid Hv.
  destruct (find (matches (whereId id t)) (rows db)) as [c | ] eqn:Hf.
  - apply find_some in Hf. destruct Hf as [Hc Hm].
    rewrite matches_whereId in Hm. apply andb_true_iff in Hm.
    destruct Hm as [Hcid _]. apply jeqb_eq in Hcid.
    f_equal. apply (NoDup_map_eq cat_id _ _ _ Hd Hc Hin). congruence.
  - exfalso. apply (find_none _ _ Hf) in Hin.
    rewrite matches_whereId, Hv, andb_true_r in Hin.
    apply jeqb_neq in Hin. contradiction.
Qed.

(** X10. On the in-memory store [getCategoryById] returns a row only if
    that row is in the table, has the id asked for and is visible in the
    scope; and when ids are a key of the table, it returns every such row:
    asking for the id of a visible row gives back that very row. *)
Theorem getCategoryById_finds_visible_row :
  forall (db : DB) (id : jsstring) (tenantId : option jsstring),
    (forall c : Category,
        outcome (exec (getCategoryById id tenantId) db) = inr c ->
        In c (rows db) /\ cat_id c = id /\ visible tenantId c = true) /\
    (forall r : Category,
        NoDup (map cat_id (rows db)) ->
        In r (rows db) -> cat_id r = id -> visible tenantId r = true ->
        outcome (exec (getCategoryById id tenantId) db) = inr r).
Proof.
  intros db id tenantId. split.
  - intros c. rewrite exec_getCategoryById.
    destruct (find (matches (whereId id tenantId)) (rows db))
      as [c' | ] eqn:Hf; unfold outcome; simpl; [ | discriminate].
    intros E. injection E as E. subst c'.
    apply find_some in Hf. destruct Hf as [Hin Hm].
    rewrite matches_whereId in Hm. apply andb_true_iff in Hm.
    destruct Hm as [Hid Hv]. apply jeqb_eq in Hid. tauto.
  - intros r Hd Hin Hid Hv. rewrite exec_getCategoryById.
    rewrite (@find_whereId id tenantId db r Hd Hin Hid Hv). reflexivity.
Qed.

Lemma exec_createCategory_ok (data : CategoryInput) (t : option jsstring)
    (db db' : DB) (r : Category) (tr : list Event) :
  exec (createCategory data t) db = (inr r, db', tr) ->
  existsb (sameKey t (in_nome data)) (rows db) = false /\
  cat_id r = genId (nextId db) /\
  cat_nome r = in_nome data /\
  cat_cor r = in_cor data /\
  cat_descricao r = orNull (in_descricao data) /\
  cat_tenantId r = t /\
  rows db' = rows db ++ [r].
Proof.
  intros Hx. rewrite exec_createCategory in Hx.
  injection Hx as H1 H2 _. revert H1 H2. unfold create. simpl.
  destruct (existsb (sameKey t (in_nome data)) (rows db)); simpl;
    [discriminate | ].
  intros H1 H2. injection H1 as H1. subst r db'. simpl.
  repeat split.
Qed.

Lemma getCategoryById_other_scope (db : DB) (r : Category) (t : jsstring) :
  NoDup (map cat_id (rows db)) ->
  In r (rows db) ->
  cat_tenantId r <> Some t ->
  outcome (exec (getCategoryById (cat_id r) (Some t)) db) = inl notFound.
Proof.
  intros Hd Hin Ht. rewrite exec_getCategoryById.
  rewrite notVisible_find; [reflexivity | ].
  intros x Hx Hid.
  assert (E : x = r) by (apply (NoDup_map_eq cat_id _ _ _ Hd Hx Hin Hid)).
  subst x. apply not_true_is_false. rewrite visible_tenant. exact Ht.
Qed.

(** X11. A successful [createCategory] on the in-memory store appends one
    row that carries [nome] and [cor] exactly as given (no trimming) and
    the tenant id as supplied.  When ids are a key of the table,
    [getCategoryById] with the new id then returns that row in the same
    scope and for the unscoped caller, and fails with "Categoria não
    encontrada" in every other tenant. *)
Theorem create_then_read :
  forall (db db' : DB) (data : CategoryInput) (tenantId : option jsstring)
         (r : Category) (tr : list Event),
    wellFormed db ->
    exec (createCategory data tenantId) db = (inr r, db', tr) ->
    cat_nome r = in_nome data /\
    cat_cor r = in_cor data /\
    cat_tenantId r = tenantId /\
    rows db' = rows db ++ [r] /\
    outcome (exec (getCategoryById (cat_id r) tenantId) db') = inr r /\
    outcome (exec (getCategoryById (cat_id r) None) db') = inr r /\
    (forall t' : jsstring,
        tenantId <> Some t' ->
        outcome (exec (getCategoryById (cat_id r) (Some t')) db')
          = inl notFound).
Proof.
  intros db db' data tenantId r tr Hw Hx.
  pose proof (wellFormed_exec (createCategory data tenantId) Hw) as Hw'.
  rewrite Hx in Hw'. unfold finalState in Hw'. simpl in Hw'.
  destruct Hw' as [Hd' _].
  destruct (exec_createCategory_ok data tenantId db Hx)
    as [_ [_ [Hn [Hc [_ [Ht Hr]]]]]].
  assert (Hin : In r (rows db')).
  { rewrite Hr. apply in_or_app. right. left. reflexivity. }
  assert (Hv : visible tenantId r = true).
  { unfold visible. destruct tenantId as [t | ]; [ | reflexivity].
    rewrite Ht. apply optEqb_refl. }
  repeat split; try assumption.
  - rewrite exec_getCategoryById.
    rewrite (@find_whereId (cat_id r) tenantId db' r Hd' Hin eq_refl Hv).
    reflexivity.
  - rewrite exec_getCategoryById.
    rewrite (@find_whereId (cat_id r) None db' r Hd' Hin eq_refl eq_refl).
    reflexivity.
  - intros t' Hne. apply getCategoryById_other_scope; try assumption.
    rewrite Ht. exact Hne.
Qed.

(** X12. After a successful [createCategory] in a concrete tenant, the
    name as stored (it is kept as given, untrimmed) is taken in that tenant
    under the case-insensitive comparison of the store.  A second
    [createCategory] with a name that compares equal to the stored one
    throws the unique-constraint error and leaves the table alone.
    [findOrCreateCategoryByName] with a name that is not blank and whose
    trimmed text compares equal to the stored name returns the id of the
    created row without inserting. *)
Theorem create_then_same_name :
  forall (db db' : DB) (data data' : CategoryInput) (t : jsstring)
         (nome' : jsstring) (random : float) (r : Category) (tr : list Event),
    exec (createCategory data (Some t)) db = (inr r, db', tr) ->
    cat_nome r = in_nome data /\
    (fold (in_nome data') = fold (in_nome data) ->
     outcome (exec (createCategory data' (Some t)) db') = inl uniqueViolation
     /\ finalState (exec (createCategory data' (Some t)) db') = db') /\
    (trim nome' <> "" ->
     fold (trim nome') = fold (in_nome data) ->
     outcome (exec (findOrCreateCategoryByName nome' (Some t) random) db')
       = inr (cat_id r) /\
     finalState (exec (findOrCreateCategoryByName nome' (Some t) random) db')
       = db').
Proof.
  intros db db' data data' t nome' random r tr Hx.
  destruct (exec_createCategory_ok data (Some t) db Hx)
    as [He [_ [Hn [_ [_ [Ht Hr]]]]]].
  assert (Hkey : forall n, fold n = fold (in_nome data) ->
                           sameKey (Some t) n r = true).
  { intros n E. unfold sameKey. rewrite Ht, Hn, E, optEqb_refl.
    apply jeqb_refl. }
  split; [exact Hn | split].
  - intros Hl.
    rewrite exec_createCategory. unfold outcome, finalState, create. simpl.
    assert (E : existsb (sameKey (Some t) (in_nome data')) (rows db') = true).
    { apply existsb_exists. exists r. split; [ | apply Hkey; exact Hl].
      rewrite Hr. apply in_or_app. right. left. reflexivity. }
    rewrite E. split; reflexivity.
  - intros Hn' Hl'.
    rewrite (exec_findOrCreate nome' (Some t) random db' Hn').
    assert (Hf : find (matches (lookupWhere (trim nome') (Some t))) (rows db')
                 = Some r).
    { rewrite Hr. apply find_app_none.
      - destruct (find (matches (lookupWhere (trim nome') (Some t)))
                       (rows db)) as [c | ] eqn:Hc; [ | reflexivity].
        exfalso. apply find_some in Hc. destruct Hc as [Hin Hm].
        rewrite existsb_false in He. specialize (He c Hin).
        rewrite matches_lookupWhere in Hm.
        unfold sameKey in He. unfold visible in Hm.
        rewrite Hl' in Hm. rewrite Hm in He. discriminate.
      - apply sameKey_matches. apply Hkey. exact Hl'. }
    rewrite Hf. split; reflexivity.
Qed.

Lemma exec_deleteCategory_ok (id : jsstring) (t : option jsstring)
    (db db' : DB) (tr : list Event) :
  exec (deleteCategory id t) db = (inr tt, db', tr) ->
  (exists c : Category,
      find (matches (whereId id t)) (rows db) = Some c) /\
  rows db' = filter (fun r => negb (cat_id r =? id)) (rows db).
Proof.
  intros Hx. unfold exec in Hx.
  destruct (find (matches (whereId id t)) (rows db)) as [c | ] eqn:Hf.
  - split; [exists c; reflexivity | ].
    assert (Hrun : run handle (deleteCategory id t) db =
                   (fst (delete id db), snd (delete id db),
                    [Ev (FindFirst (whereId id t)); Ev (Delete id)])).
    { apply deleteCategory_found with (s1 := db) (c := c).
      - simpl. rewrite Hf. reflexivity.
      - apply surjective_pairing. }
    rewrite Hrun in Hx. injection Hx as H1 H2 _.
    revert H1 H2. unfold delete.
    destruct (find (fun r => cat_id r =? id) (rows db)); simpl;
      [ | discriminate].
    intros _ H2. subst db'. reflexivity.
  - rewrite (deleteCategory_not_found handle id t db (s1 := db)) in Hx
      by (simpl; rewrite Hf; reflexivity).
    discriminate.
Qed.

(** X13. A successful [deleteCategory] on the in-memory store removes the
    rows that have the id, one of which was visible in the caller's scope,
    and keeps every row with another id.  Afterwards the id is gone for
    every scope: [getCategoryById] and a second [deleteCategory] both fail
    with "Categoria não encontrada". *)
Theorem delete_then_gone :
  forall (db db' : DB) (id : jsstring) (tenantId : option jsstring)
         (tr : list Event),
    exec (deleteCategory id tenantId) db = (inr tt, db', tr) ->
    (exists old : Category,
        In old (rows db) /\ cat_id old = id /\
        visible tenantId old = true) /\
    (forall r : Category,
        In r (rows db') <-> In r (rows db) /\ cat_id r <> id) /\
    (forall scope : option jsstring,
        outcome (exec (getCategoryById id scope) db') = inl notFound /\
        outcome (exec (deleteCategory id scope) db') = inl notFound /\
        finalState (exec (deleteCategory id scope) db') = db').
Proof.
  intros db db' id tenantId tr Hx.
  destruct (exec_deleteCategory_ok id tenantId db Hx) as [[c Hf] Hr].
  assert (Hrows : forall r, In r (rows db') <->
                            In r (rows db) /\ cat_id r <> id).
  { intros r. rewrite Hr, filter_In, negb_true_iff, jeqb_neq.
    reflexivity. }
  split; [ | split; [exact Hrows | ]].
  - exists c. apply find_some in Hf. destruct Hf as [Hin Hm].
    rewrite matches_whereId in Hm. apply andb_true_iff in Hm.
    destruct Hm as [Hid Hv]. apply jeqb_eq in Hid. tauto.
  - intros scope.
    assert (Hnv : notVisible id scope db').
    { intros r Hin Hid. apply Hrows in Hin. tauto. }
    apply notVisible_find in Hnv.
    rewrite exec_getCategoryById, Hnv.
    split; [reflexivity | ].
    unfold exec.
    rewrite (deleteCategory_not_found handle id scope db' (s1 := db'))
      by (simpl; rewrite Hnv; reflexivity).
    split; reflexivity.
Qed.

(** The shape of a successful update in a table keyed by id. *)
Lemma exec_updateCategory_shape (id : jsstring) (data : CategoryInput)
    (t : option jsstring) (db db' : DB) (r' : Category) (tr : list Event) :
  NoDup (map cat_id (rows db)) ->
  exec (updateCategory id data t) db = (inr r', db', tr) ->
  exists old : Category,
    In old (rows db) /\ cat_id old = id /\ visible t old = true /\
    cat_id r' = id /\ cat_tenantId r' = cat_tenantId old /\
    rows db' = map (fun r => if cat_id r =? id then r' else r) (rows db).
Proof.
  intros Hd Hx.
  assert (Hc : exists c, find (matches (whereId id t)) (rows db) = Some c).
  { destruct (find (matches (whereId id t)) (rows db)) as [c | ] eqn:Hf;
      [exists c; reflexivity | ].
    unfold exec in Hx.
    rewrite (updateCategory_not_found handle id data t db (s1 := db))
      in Hx by (simpl; rewrite Hf; reflexivity).
    discriminate. }
  destruct Hc as [c Hf].
  apply exec_updateCategory_ok in Hx. revert Hx. unfold update.
  destruct (find (fun r => cat_id r =? id) (rows db))
    as [old | ] eqn:Ho; [ | discriminate].
  destruct (existsb _ (rows db)); [discriminate | ].
  intros Hx. injection Hx as H1 H2. subst r' db'.
  apply find_some in Hf. destruct Hf as [Hcin Hm].
  rewrite matches_whereId in Hm. apply andb_true_iff in Hm.
  destruct Hm as [Hcid Hv]. apply jeqb_eq in Hcid.
  apply find_some in Ho. destruct Ho as [Hoin Hoid].
  apply jeqb_eq in Hoid.
  assert (E : old = c).
  { apply (NoDup_map_eq cat_id _ _ _ Hd Hoin Hcin). congruence. }
  subst c. exists old. simpl. repeat split; assumption.
Qed.

(** X14. After a successful [updateCategory] on a table keyed by id,
    [getCategoryById] with the same id and scope returns the updated row:
    the row stays visible in the scope it was updated from. *)
Theorem update_then_read :
  forall (db db' : DB) (id : jsstring) (data : CategoryInput)
         (tenantId : option jsstring) (r' : Category) (tr : list Event),
    NoDup (map cat_id (rows db)) ->
    exec (updateCategory id data tenantId) db = (inr r', db', tr) ->
    outcome (exec (getCategoryById id tenantId) db') = inr r' /\
    cat_nome r' = in_nome data /\
    cat_cor r' = in_cor data.
Proof.
  intros db db' id data tenantId r' tr Hd Hx.
  destruct (exec_updateCategory_shape id data tenantId db Hd Hx)
    as [old [Hin [Hid [Hv [Hid' [Ht Hr]]]]]].
  assert (Hd' : NoDup (map cat_id (rows db'))).
  { rewrite Hr, map_cat_id_replace; assumption. }
  assert (Hin' : In r' (rows db')).
  { rewrite Hr. apply in_map_iff. exists old.
    rewrite Hid, jeqb_refl. split; [reflexivity | exact Hin]. }
  assert (Hv' : visible tenantId r' = true).
  { unfold visible in *. destruct tenantId; [ | reflexivity].
    rewrite Ht. exact Hv. }
  split.
  - rewrite exec_getCategoryById.
    rewrite (@find_whereId id tenantId db' r' Hd' Hin' Hid' Hv').
    reflexivity.
  - apply exec_updateCategory_ok in Hx. revert Hx. unfold update.
    destruct (find (fun r => cat_id r =? id) (rows db)); [ | discriminate].
    destruct (existsb _ (rows db)); [discriminate | ].
    intros Hx. injection Hx as H1 _. subst r'. split; reflexivity.
Qed.

(** ** Tenants *)

Lemma update_failed_unchanged (id : jsstring) (d : UpdateData) (db db' : DB)
    (e : Error) :
  update id d db = (inl e, db') -> db' = db.
Proof.
  unfold update.
  destruct (find (fun r => cat_id r =? id) (rows db)).
  - destruct (existsb _ (rows db)); intros H; [ | discriminate].
    injection H as _ H. symmetry. exact H.
  - intros H. injection H as _ H. symmetry. exact H.
Qed.

Lemma delete_failed_unchanged (id : jsstring) (db db' : DB) (e : Error) :
  delete id db = (inl e, db') -> db' = db.
Proof.
  unfold delete.
  destruct (find (fun r => cat_id r =? id) (rows db)); intros H;
    [discriminate | ].
  injection H as _ H. symmetry. exact H.
Qed.

Lemma exec_updateCategory_failed (id : jsstring) (data : CategoryInput)
    (t : option jsstring) (db db' : DB) (e : Error) (tr : list Event) :
  exec (updateCategory id data t) db = (inl e, db', tr) -> db' = db.
Proof.
  intros Hx. unfold exec in Hx.
  destruct (find (matches (whereId id t)) (rows db)) as [c | ] eqn:Hf.
  - set (d := {| u_nome := in_nome data;
                 u_cor := in_cor data;
                 u_descricao := orNull (in_descricao data) |}) in *.
    assert (Hrun : run handle (updateCategory id data t) db =
                   (fst (update id d db), snd (update id d db),
                    [Ev (FindFirst (whereId id t)); Ev (Update id d)])).
    { apply updateCategory_found with (s1 := db) (c := c).
      - simpl. rewrite Hf. reflexivity.
      - apply surjective_pairing. }
    rewrite Hrun in Hx. injection Hx as H1 H2 _.
    apply (@update_failed_unchanged id d db db' e).
    rewrite (surjective_pairing (update id d db)), H1, H2. reflexivity.
  - rewrite (updateCategory_not_found handle id data t db (s1 := db))
      in Hx by (simpl; rewrite Hf; reflexivity).
    injection Hx as _ H _. symmetry. exact H.
Qed.

Lemma exec_deleteCategory_failed (id : jsstring) (t : option jsstring)
    (db db' : DB) (e : Error) (tr : list Event) :
  exec (deleteCategory id t) db = (inl e, db', tr) -> db' = db.
Proof.
  intros Hx. unfold exec in Hx.
  destruct (find (matches (whereId id t)) (rows db)) as [c | ] eqn:Hf.
  - assert (Hrun : run handle (deleteCategory id t) db =
                   (fst (delete id db), snd (delete id db),
                    [Ev (FindFirst (whereId id t)); Ev (Delete id)])).
    { apply deleteCategory_found with (s1 := db) (c := c).
      - simpl. rewrite Hf. reflexivity.
      - apply surjective_pairing. }
    rewrite Hrun in Hx. injection Hx as H1 H2 _.
    apply (@delete_failed_unchanged id db db' e).
    rewrite (surjective_pairing (delete id db)), H1, H2. reflexivity.
  - rewrite (deleteCategory_not_found handle id t db (s1 := db))
      in Hx by (simpl; rewrite Hf; reflexivity).
    injection Hx as _ H _. symmetry. exact H.
Qed.

Lemma filter_replace_hidden (f : Category -> bool) (id : jsstring)
    (r' : Category) (l : list Category) :
  (forall x, In x l -> cat_id x = id -> f x = false) ->
  f r' = false ->
  filter f (map (fun r => if cat_id r =? id then r' else r) l) = filter f l.
Proof.
  intros H Hr'. induction l as [ | x l IH]; simpl; [reflexivity | ].
  rewrite IH by (intros y Hy; apply H; right; exact Hy).
  destruct (cat_id x =? id) eqn:E; [ | reflexivity].
  apply jeqb_eq in E.
  rewrite Hr', (H x (or_introl eq_refl) E). reflexivity.
Qed.

Lemma filter_delete_hidden (f : Category -> bool) (id : jsstring)
    (l : list Category) :
  (forall x, In x l -> cat_id x = id -> f x = false) ->
  filter f (filter (fun r => negb (cat_id r =? id)) l) = filter f l.
Proof.
  intros H. induction l as [ | x l IH]; simpl; [reflexivity | ].
  rewrite <- IH by (intros y Hy; apply H; right; exact Hy).
  destruct (cat_id x =? id) eqn:E; simpl; [ | reflexivity].
  apply jeqb_eq in E.
  rewrite (H x (or_introl eq_refl) E). reflexivity.
Qed.

Lemma other_tenant_hidden (a b : jsstring) (r : Category) :
  a <> b -> visible (Some b) r = true -> visible (Some a) r = false.
Proof.
  intros Hab Hb. apply not_true_is_false. intros Ha.
  apply visible_tenant in Ha. apply visible_tenant in Hb.
  rewrite Ha in Hb. injection Hb as Hb. contradiction.
Qed.

(** X15. Writes made in the scope of tenant B never change what tenant A
    owns: on a table keyed by id, the rows of any other tenant A are the
    same, in the same order, before and after [createCategory],
    [updateCategory], [deleteCategory] and [findOrCreateCategoryByName]
    run for B, whether the call succeeds or fails. *)
Theorem writes_stay_in_tenant :
  forall (db : DB) (a b : jsstring) (id nome : jsstring) (data : CategoryInput)
         (random : float),
    a <> b ->
    NoDup (map cat_id (rows db)) ->
    let owned (d : DB) := filter (visible (Some a)) (rows d) in
    owned (finalState (exec (createCategory data (Some b)) db)) = owned db /\
    owned (finalState (exec (updateCategory id data (Some b)) db))
      = owned db /\
    owned (finalState (exec (deleteCategory id (Some b)) db)) = owned db /\
    owned (finalState (exec (findOrCreateCategoryByName nome (Some b) random)
                         db)) = owned db.
Proof.
  intros db a b id nome data random Hab Hd owned.
  assert (Hnew : forall r, cat_tenantId r = Some b ->
                           owned {| rows := rows db ++ [r];
                                    nextId := Datatypes.S (nextId db);
                                    clock := clock db + 1 |} = owned db).
  { intros r Ht. unfold owned. cbn [rows]. rewrite filter_app.
    cbn [filter].
    rewrite (@other_tenant_hidden a b r Hab)
      by (apply visible_tenant; exact Ht).
    apply app_nil_r. }
  assert (Hidrows : forall c, In c (rows db) -> cat_id c = id ->
                              visible (Some b) c = true ->
                              forall x, In x (rows db) -> cat_id x = id ->
                                        visible (Some a) x = false).
  { intros c Hc Hcid Hv x Hx Hxid.
    assert (E : x = c)
      by (apply (NoDup_map_eq cat_id _ _ _ Hd Hx Hc); congruence).
    subst x. apply (@other_tenant_hidden a b c Hab Hv). }
  split; [ | split; [ | split]].
  - rewrite exec_createCategory. unfold finalState, create. simpl.
    destruct (existsb _ (rows db)); simpl; [reflexivity | ].
    apply Hnew. reflexivity.
  - destruct (exec (updateCategory id data (Some b)) db)
      as [[[e | r'] db'] tr] eqn:Hx; unfold finalState; simpl.
    + rewrite (exec_updateCategory_failed id data (Some b) db Hx).
      reflexivity.
    + destruct (exec_updateCategory_shape id data (Some b) db Hd Hx)
        as [old [Hin [Hid [Hv [_ [Ht Hr]]]]]].
      unfold owned. rewrite Hr. apply filter_replace_hidden.
      * apply (Hidrows old Hin Hid Hv).
      * apply (@other_tenant_hidden a b r' Hab).
        unfold visible in *. rewrite Ht. exact Hv.
  - destruct (exec (deleteCategory id (Some b)) db)
      as [[[e | u] db'] tr] eqn:Hx; unfold finalState; simpl.
    + rewrite (exec_deleteCategory_failed id (Some b) db Hx). reflexivity.
    + destruct u.
      destruct (exec_deleteCategory_ok id (Some b) db Hx) as [[c Hf] Hr].
      apply find_some in Hf. destruct Hf as [Hin Hm].
      rewrite matches_whereId in Hm. apply andb_true_iff in Hm.
      destruct Hm as [Hid Hv]. apply jeqb_eq in Hid.
      unfold owned. rewrite Hr. apply filter_delete_hidden.
      apply (Hidrows c Hin Hid Hv).
  - destruct (jsstring_dec (trim nome) "") as [Hb | Hn].
    + unfold exec. rewrite (findOrCreate_blank nome (Some b) random Hb).
      reflexivity.
    + rewrite (exec_findOrCreate nome (Some b) random db Hn).
      destruct (find (matches (lookupWhere (trim nome) (Some b))) (rows db));
        unfold finalState; simpl; [reflexivity | ].
      apply Hnew. reflexivity.
Qed.

(** ** Find-or-create *)

(** X16. Whenever [Math.random()] yields a double in [0, 1), the colour
    [findOrCreateCategoryByName] picks for a new category is one of the
    ten default colours, the index [Math.floor(random * 10)] being computed
    on doubles; the new category has no [descricao], and on the in-memory
    store every row the call adds carries such a colour, the trimmed name
    and the tenant id of the call. *)
Theorem new_category_colour_from_palette :
  forall (db : DB) (nome : jsstring) (tenantId : option jsstring)
         (random : float),
    (0 <=? random)%float = true ->
    (random <? 1)%float = true ->
    let d := newCategoryData (trim nome) tenantId random in
    In (d_cor d) defaultColors /\
    d_descricao d = None /\
    (forall r : Category,
        In r (rows (finalState
                      (exec (findOrCreateCategoryByName nome tenantId random)
                         db))) ->
        In r (rows db) \/
        (In (cat_cor r) defaultColors /\ cat_descricao r = None /\
         cat_nome r = trim nome /\ cat_tenantId r = tenantId)).
Proof.
  intros db nome tenantId random H0 H1 d.
  assert (Hc : In (d_cor d) defaultColors).
  { unfold d, newCategoryData, pickAtRandom. cbn [d_cor].
    change (PrimFloat.of_uint63
              (Uint63.of_Z (Z.of_nat (length defaultColors))))
      with (PrimFloat.of_uint63 10).
    destruct (mathFloor_random_times_ten H0 H1) as [k [Hk Hr]].
    rewrite Hk.
    destruct (Z.ltb_spec k 0) as [Hneg | _]; [lia | ].
    apply nth_In. change (length defaultColors) with 10%nat. lia. }
  split; [exact Hc | split; [reflexivity | ]].
  intros r.
  destruct (jsstring_dec (trim nome) "") as [Hb | Hn].
  - unfold exec. rewrite (findOrCreate_blank nome tenantId random Hb).
    intros Hin. left. exact Hin.
  - rewrite (exec_findOrCreate nome tenantId random db Hn).
    destruct (find (matches (lookupWhere (trim nome) tenantId)) (rows db));
      unfold finalState; cbn [fst snd rows]; intros Hin.
    + left. exact Hin.
    + apply in_app_or in Hin. destruct Hin as [Hin | [Hin | []]].
      * left. exact Hin.
      * right. subst r. repeat split. exact Hc.
Qed.

Lemma trimEnd_idem (s : jsstring) : trimEnd (trimEnd s) = trimEnd s.
Proof.
  induction s as [ | c s IH]; simpl; [reflexivity | ].
  destruct (isWhiteSpace c && (trimEnd s =? ""))%bool eqn:E;
    [reflexivity | ].
  simpl. rewrite IH, E. reflexivity.
Qed.

Lemma trimStart_head (s : jsstring) :
  trimStart s = "" \/
  exists (c : N) (s' : jsstring),
    trimStart s = JS c s' /\ isWhiteSpace c = false.
Proof.
  induction s as [ | c s IH]; simpl; [left; reflexivity | ].
  destruct (isWhiteSpace c) eqn:E; [exact IH | ].
  right. exists c, s. split; [reflexivity | exact E].
Qed.

Lemma trim_idem (s : jsstring) : trim (trim s) = trim s.
Proof.
  unfold trim. destruct (trimStart_head s) as [H | [c [s' [H Hc]]]].
  - rewrite H. reflexivity.
  - rewrite H. simpl. rewrite Hc. simpl. rewrite Hc. simpl.
    rewrite trimEnd_idem, Hc. reflexivity.
Qed.

(** X17. White space around the name never matters to
    [findOrCreateCategoryByName]: called with a name or with that name
    already trimmed, it is the same program, so it makes the same requests
    and gives the same result against every store. *)
Theorem find_or_create_ignores_outer_space :
  forall (nome : jsstring) (tenantId : option jsstring) (random : float),
    findOrCreateCategoryByName (trim nome) tenantId random
      = findOrCreateCategoryByName nome tenantId random.
Proof.
  intros nome tenantId random.
  destruct (jsstring_dec (trim nome) "") as [Hb | Hn].
  - rewrite (findOrCreate_blank nome tenantId random Hb).
    apply findOrCreate_blank. rewrite trim_idem. exact Hb.
  - unfold findOrCreateCategoryByName.
    rewrite (guard_not_blank nome Hn).
    rewrite (guard_not_blank (trim nome)) by (rewrite trim_idem; exact Hn).
    rewrite trim_idem. reflexivity.
Qed.

(** X18. Inside the recovery of a unique-constraint violation, a lookup
    that is itself rejected ends the call with the error of that lookup;
    the constraint-violation error of the insert is not thrown then.  This
    holds for the repeated case-insensitive lookup and for the exact
    lookup that follows it. *)
Theorem rejected_recovery_lookup_is_thrown :
  forall (S : Type) (h : Handler S) (nome : jsstring)
         (tenantId : option jsstring) (random : float) (s s1 s2 : S)
         (error e' : Error),
    trim nome <> "" ->
    h _ (FindFirst (lookupWhere (trim nome) tenantId)) s = (inr None, s1) ->
    h _ (Create (newCategoryData (trim nome) tenantId random)) s1
      = (inl error, s2) ->
    err_code error = Some "P2002" ->
    let lookup := FindFirst (lookupWhere (trim nome) tenantId) in
    let insert := Create (newCategoryData (trim nome) tenantId random) in
    let exact := FindFirst (fallbackWhere (trim nome) tenantId) in
    (forall s3 : S,
        h _ lookup s2 = (inl e', s3) ->
        run h (findOrCreateCategoryByName nome tenantId random) s =
        (inl e', s3, [Ev lookup; Ev insert; Ev lookup])) /\
    (forall s3 s4 : S,
        h _ lookup s2 = (inr None, s3) ->
        h _ exact s3 = (inl e', s4) ->
        run h (findOrCreateCategoryByName nome tenantId random) s =
        (inl e', s4, [Ev lookup; Ev insert; Ev lookup; Ev exact])).
Proof.
  intros S h nome tenantId random s s1 s2 error e' Hn Hf Hc Hcode.
  intros lookup insert exact.
  apply codeIs_P2002 in Hcode.
  pose proof (findOrCreate_rejected h nome tenantId random s Hn Hf Hc) as R.
  rewrite Hcode in R. cbn in R. fold lookup insert exact in R.
  split.
  - intros s3 H3. rewrite H3 in R. exact R.
  - intros s3 s4 H3 H4. rewrite H3 in R. cbn in R.
    fold exact in R. rewrite H4 in R. exact R.
Qed.

(** X19. Against every store and for every name, one call of
    [findOrCreateCategoryByName] issues at most four requests, at most one
    of them an insert, and never an update or a delete. *)
Theorem find_or_create_request_budget :
  forall (S : Type) (h : Handler S) (nome : jsstring)
         (tenantId : option jsstring) (random : float) (s : S),
    let tr := trace (run h (findOrCreateCategoryByName nome tenantId random)
                       s) in
    (length tr <= 4)%nat /\
    (length (filter isInsert tr) <= 1)%nat /\
    forallb (fun ev => negb (isWrite ev) || isInsert ev)%bool tr = true.
Proof.
  intros S h nome tenantId random s tr. subst tr.
  destruct (jsstring_dec (trim nome) "") as [Hb | Hn].
  { rewrite (findOrCreate_blank nome tenantId random Hb). cbn.
    repeat split; lia. }
  destruct (h _ (FindFirst (lookupWhere (trim nome) tenantId)) s)
    as [[e | [c | ]] s1] eqn:H1.
  - rewrite (findOrCreate_lookup_rejected h nome tenantId random s Hn H1).
    cbn. repeat split; lia.
  - rewrite (findOrCreate_found h nome tenantId random s Hn H1).
    cbn. repeat split; lia.
  - destruct (h _ (Create (newCategoryData (trim nome) tenantId random)) s1)
      as [[e | c] s2] eqn:H2.
    + rewrite (findOrCreate_rejected h nome tenantId random s Hn H1 H2).
      destruct (codeIs e "P2002"); cbn.
      * destruct (h _ (FindFirst (lookupWhere (trim nome) tenantId)) s2)
          as [[e3 | [c3 | ]] s3]; cbn; try (repeat split; lia).
        destruct (h _ (FindFirst (fallbackWhere (trim nome) tenantId)) s3)
          as [[e4 | [c4 | ]] s4]; cbn; repeat split; lia.
      * repeat split; lia.
    + rewrite (findOrCreate_created h nome tenantId random s Hn H1 H2).
      cbn. repeat split; lia.
Qed.

(** X20. On the in-memory store [findOrCreateCategoryByName] with a name
    that is not blank always returns an id, and the id is that of a row of
    the resulting table which is visible in the caller's scope and whose
    [nome] equals the trimmed name case-insensitively.  No existing row is
    changed or removed: the table is as before, or as before with that row
    appended.  When ids are a key of the table, [getCategoryById] with the
    returned id in the same scope gives back that row. *)
Theorem find_or_create_resolves :
  forall (db : DB) (nome : jsstring) (tenantId : option jsstring) (random : float),
    trim nome <> "" ->
    let db' :=
      finalState (exec (findOrCreateCategoryByName nome tenantId random) db) in
    exists r : Category,
      outcome (exec (findOrCreateCategoryByName nome tenantId random) db)
        = inr (cat_id r) /\
      In r (rows db') /\
      visible tenantId r = true /\
      fold (cat_nome r) = fold (trim nome) /\
      (rows db' = rows db \/ rows db' = rows db ++ [r]) /\
      (wellFormed db ->
       outcome (exec (getCategoryById (cat_id r) tenantId) db') = inr r).
Proof.
  intros db nome tenantId random Hn db'.
  assert (Hread : forall r, wellFormed db -> In r (rows db') ->
                            visible tenantId r = true ->
                            outcome (exec (getCategoryById (cat_id r) tenantId)
                                       db') = inr r).
  { intros r Hw Hin Hv.
    pose proof (wellFormed_exec
                  (findOrCreateCategoryByName nome tenantId random) Hw)
      as [Hd' _].
    fold db' in Hd'. rewrite exec_getCategoryById.
    rewrite (@find_whereId (cat_id r) tenantId db' r Hd' Hin eq_refl Hv).
    reflexivity. }
  revert Hread. subst db'.
  rewrite (exec_findOrCreate nome tenantId random db Hn).
  destruct (find (matches (lookupWhere (trim nome) tenantId)) (rows db))
    as [c | ] eqn:Hf; unfold outcome, finalState; cbn [fst snd rows];
    intros Hread.
  - apply find_some in Hf. destruct Hf as [Hin Hm].
    rewrite matches_lookupWhere in Hm. apply andb_true_iff in Hm.
    destruct Hm as [Hv Hl]. apply jeqb_eq in Hl.
    exists c. repeat split; try assumption.
    + left. reflexivity.
    + intros Hw. apply Hread; assumption.
  - set (r := inserted (newCategoryData (trim nome) tenantId random) db).
    assert (Hin : In r (rows db ++ [r])).
    { apply in_or_app. right. left. reflexivity. }
    assert (Hv : visible tenantId r = true).
    { unfold visible. destruct tenantId; [apply optEqb_refl | reflexivity]. }
    exists r. repeat split; try assumption.
    + right. reflexivity.
    + intros Hw. apply Hread; assumption.
Qed.

(** ** A lost race *)

Lemma Race_handle_eq (other : Prog jsstring) (at_ : nat) (X : Type)
    (q : Request X) (st : Race.State) :
  Race.handle other at_ q st =
  let st1 :=
    if Nat.eqb (Race.step st) at_ then
      {| Race.store := finalState (exec other (Race.store st));
         Race.step := Race.step st;
         Race.rival := Some (outcome (exec other (Race.store st))) |}
    else st in
  (fst (handle q (Race.store st1)),
   {| Race.store := snd (handle q (Race.store st1));
      Race.step := Datatypes.S (Race.step st1);
      Race.rival := Race.rival st1 |}).
Proof.
  unfold Race.handle. cbv zeta.
  destruct (Nat.eqb (Race.step st) at_);
    match goal with
    | |- context [handle q ?d] => destruct (handle q d)
    end; reflexivity.
Qed.

(** X21. Two callers race to create the same absent name in the same
    scope, the second with any variant of the name that differs in letter
    case or outer white space.  Whether the rival runs before the lookup
    of the first caller or between its lookup and its insert, both calls
    return the id of the one row the rival inserted, and the table gains
    exactly that row.  A variant is a name that is not blank and whose
    trimmed text the store compares equal, case-insensitively, to the
    trimmed name of the first caller. *)
Theorem lost_race_resolves_to_winner :
  forall (db : DB) (nome nome' : jsstring) (tenantId : option jsstring)
         (random random' : float) (at_ : nat),
    trim nome <> "" ->
    trim nome' <> "" ->
    fold (trim nome') = fold (trim nome) ->
    find (matches (lookupWhere (trim nome) tenantId)) (rows db) = None ->
    (at_ <= 1)%nat ->
    let res :=
      run (Race.handle (findOrCreateCategoryByName nome' tenantId random')
             at_)
          (findOrCreateCategoryByName nome tenantId random)
          (Race.start db) in
    let winner := inserted (newCategoryData (trim nome') tenantId random') db in
    outcome res = inr (cat_id winner) /\
    Race.rival (finalState res) = Some (inr (cat_id winner)) /\
    rows (Race.store (finalState res)) = rows db ++ [winner].
Proof.
  intros db nome nome' tenantId random random' at_ Hn Hn' Hl Hf Hat res winner.
  assert (Hf' : find (matches (lookupWhere (trim nome') tenantId)) (rows db)
                = None).
  { rewrite <- Hf. apply find_ext. intros x.
    rewrite !matches_lookupWhere, Hl. reflexivity. }
  set (other := findOrCreateCategoryByName nome' tenantId random') in *.
  set (db1 := {| rows := rows db ++ [winner];
                 nextId := Datatypes.S (nextId db);
                 clock := clock db + 1 |}).
  assert (Hother : exec other db
                   = (inr (cat_id winner), db1,
                      [Ev (FindFirst (lookupWhere (trim nome') tenantId));
                       Ev (Create (newCategoryData (trim nome') tenantId
                                     random'))])).
  { unfold other. rewrite (exec_findOrCreate nome' tenantId random' db Hn').
    rewrite Hf'. reflexivity. }
  assert (Hkey : sameKey tenantId (trim nome) winner = true).
  { unfold sameKey, winner. simpl.
    rewrite optEqb_refl, Hl, jeqb_refl. reflexivity. }
  assert (Hfind : find (matches (lookupWhere (trim nome) tenantId)) (rows db1)
                  = Some winner).
  { apply find_app_none; [exact Hf | ].
    apply sameKey_matches. exact Hkey. }
  assert (Hdup : existsb (sameKey tenantId (trim nome)) (rows db1) = true).
  { apply existsb_exists. exists winner. split; [ | exact Hkey].
    apply in_or_app. right. left. reflexivity. }
  set (h := Race.handle other at_) in *.
  destruct at_ as [ | [ | at_]]; [ | | lia].
  - assert (H1 : h _ (FindFirst (lookupWhere (trim nome) tenantId))
                   (Race.start db)
                 = (inr (Some winner),
                    {| Race.store := db1; Race.step := 1;
                       Race.rival := Some (inr (cat_id winner)) |})).
    { unfold h. rewrite Race_handle_eq. cbn [Race.start Race.step Race.store
                                              Race.rival Nat.eqb].
      rewrite Hother. unfold finalState, outcome. cbn [fst snd handle].
      rewrite Hfind. reflexivity. }
    unfold res. rewrite (findOrCreate_found h nome tenantId random _ Hn H1).
    repeat split.
  - assert (H1 : h _ (FindFirst (lookupWhere (trim nome) tenantId))
                   (Race.start db)
                 = (inr None,
                    {| Race.store := db; Race.step := 1;
                       Race.rival := None |})).
    { unfold h. rewrite Race_handle_eq. cbn [Race.start Race.step Race.store
                                              Race.rival Nat.eqb].
      cbn [fst snd handle]. rewrite Hf. reflexivity. }
    assert (H2 : h _ (Create (newCategoryData (trim nome) tenantId random))
                   {| Race.store := db; Race.step := 1; Race.rival := None |}
                 = (inl uniqueViolation,
                    {| Race.store := db1; Race.step := 2;
                       Race.rival := Some (inr (cat_id winner)) |})).
    { unfold h. rewrite Race_handle_eq. cbn [Race.step Race.store
                                              Race.rival Nat.eqb].
      rewrite Hother. unfold finalState, outcome. cbn [fst snd handle].
      unfold create. cbn [d_tenantId d_nome newCategoryData].
      rewrite Hdup. reflexivity. }
    assert (H3 : h _ (FindFirst (lookupWhere (trim nome) tenantId))
                   {| Race.store := db1; Race.step := 2;
                      Race.rival := Some (inr (cat_id winner)) |}
                 = (inr (Some winner),
                    {| Race.store := db1; Race.step := 3;
                       Race.rival := Some (inr (cat_id winner)) |})).
    { unfold h. rewrite Race_handle_eq. cbn [Race.step Race.store
                                              Race.rival Nat.eqb].
      cbn [fst snd handle]. rewrite Hfind. reflexivity. }
    unfold res. clearbody h winner.
    rewrite (findOrCreate_rejected h nome tenantId random _ Hn H1 H2).
    cbn. rewrite H3. repeat split.
Qed.


End Properties.


(** * The theorems at concrete inputs

    The examples use the folding [Sample.ascii]. *)

Import MemStore.

#[local] Existing Instance Sample.ascii.

(** C1 as stated fails for the unscoped caller: with a category Work in
    tenant A and one in tenant B, both calls return the id of the first,
    two rows visible to the caller carry the name, and no row without a
    tenant does. *)
Lemma find_or_create_unscoped_sees_two_rows :
  let first :=
    exec (findOrCreateCategoryByName "Work" None 0.25%float)
      Sample.twoTenants in
  let second :=
    exec (findOrCreateCategoryByName "WORK " None 0.75%float)
      (finalState first) in
  uniqueNames (rows Sample.twoTenants) = true /\
  outcome first = inr "c0" /\
  outcome second = inr "c0" /\
  length (rowsNamed None (trim "Work") (finalState second)) = 2%nat /\
  ~ (exists r : Category,
        rowsNamed None (trim "Work") (finalState second) = [r]) /\
  filter (sameKey None (trim "Work")) (rows (finalState second)) = [].
Proof.
  vm_compute. repeat split.
  intros [r H]. discriminate H.
Qed.

Lemma unique_violation_is_recovered_witness :
  outcome (run Script.handle
             (findOrCreateCategoryByName "WORK " (Some "t1") 0.25%float)
             Sample.raceLost) = inr "c7" /\
  outcome (run Script.handle
             (findOrCreateCategoryByName "WORK " (Some "t1") 0.25%float)
             Sample.raceLostExact) = inr "c7" /\
  outcome (run Script.handle
             (findOrCreateCategoryByName "WORK " (Some "t1") 0.25%float)
             Sample.raceLostNoRow) = inl MemStore.uniqueViolation.
Proof.
  assert (Hn : trim "WORK " <> "") by (vm_compute; discriminate).
  split; [ | split ].
  - destruct (unique_violation_is_recovered Script.handle "WORK " (Some "t1")
                0.25%float Sample.raceLost Hn eq_refl eq_refl eq_refl)
      as [H _].
    rewrite (H Sample.work [] eq_refl). reflexivity.
  - destruct (unique_violation_is_recovered Script.handle "WORK " (Some "t1")
                0.25%float Sample.raceLostExact Hn eq_refl eq_refl eq_refl)
      as [_ [H _]].
    rewrite (H Sample.work _ [] eq_refl eq_refl). reflexivity.
  - destruct (unique_violation_is_recovered Script.handle "WORK " (Some "t1")
                0.25%float Sample.raceLostNoRow Hn eq_refl eq_refl eq_refl)
      as [_ [_ [H _]]].
    rewrite (H _ [] eq_refl eq_refl). reflexivity.
Defined.

Lemma other_insert_failures_propagate_witness :
  run Script.handle
    (findOrCreateCategoryByName "WORK " (Some "t1") 0.25%float)
    Sample.storeDown =
  (inl Sample.unreachable,
   [Script.ARow (inr (Some Sample.work))],
   [Ev (FindFirst (lookupWhere "WORK" (Some "t1")));
    Ev (Create (newCategoryData "WORK" (Some "t1") 0.25%float))]).
Proof.
  assert (Hn : trim "WORK " <> "") by (vm_compute; discriminate).
  assert (Hc : err_code Sample.unreachable <> Some "P2002")
    by (vm_compute; discriminate).
  exact (other_insert_failures_propagate Script.handle "WORK " (Some "t1")
           0.25%float Sample.storeDown Hn eq_refl eq_refl Hc).
Defined.

Lemma find_or_create_twice_same_id_witness :
  let first :=
    exec (findOrCreateCategoryByName "Work" (Some "t1") 0.25%float)
      Sample.oneTenant in
  let second :=
    exec (findOrCreateCategoryByName (jsapp " WORK" Sample.nbsp) (Some "t1")
            0.75%float)
      (finalState first) in
  outcome first = inr "c1" /\
  outcome second = inr "c1" /\
  exists r : Category,
    rowsNamed (Some "t1") "Work" (finalState first) = [r] /\ cat_id r = "c1".
Proof.
  assert (Hn : trim "Work" <> "") by (vm_compute; discriminate).
  assert (Hn' : trim (jsapp " WORK" Sample.nbsp) <> "")
    by (vm_compute; discriminate).
  assert (Hf : fold (trim (jsapp " WORK" Sample.nbsp)) = fold (trim "Work"))
    by (vm_compute; reflexivity).
  destruct (find_or_create_twice_same_id Sample.oneTenant "Work"
              (jsapp " WORK" Sample.nbsp)
              (Some "t1") 0.25%float 0.75%float Hn Hn' Hf)
    as [i [H1 [H2 [_ H4]]]].
  destruct (H4 "t1" eq_refl eq_refl) as [r [Hr Hi]].
  assert (E : i = "c1").
  { vm_compute in H1. injection H1 as H1. symmetry. exact H1. }
  rewrite E in H1, H2, Hi.
  split; [exact H1 | split; [exact H2 | ]].
  exists r. split; [exact Hr | exact Hi].
Defined.

Lemma tenant_isolation_witness :
  outcome (exec (getCategoryById "c0" (Some "B")) Sample.twoTenants)
    <> inr Sample.workA /\
  match outcome (exec (getCategories (Some "WORK") None None (Some "B")
                         false)
                   Sample.twoTenants) with
  | inr resp => ~ In Sample.workA (categories resp)
  | inl _ => False
  end /\
  fst (handle (FindFirst (lookupWhere "Work" (Some "B"))) Sample.twoTenants)
    <> inr (Some Sample.workA) /\
  outcome (exec (findOrCreateCategoryByName "Work" (Some "B") 0.25%float)
             Sample.twoTenants) <> inr "c0".
Proof.
  assert (Hab : "A" <> "B") by discriminate.
  assert (Hw : wellFormed Sample.twoTenants).
  { unfold Sample.twoTenants.
    apply wellFormed_exec, wellFormed_exec, wellFormed_empty. }
  assert (Hin : In Sample.workA (rows Sample.twoTenants))
    by (vm_compute; left; reflexivity).
  destruct (tenant_isolation Sample.twoTenants Sample.workA Hab eq_refl)
    as [H1 [H2 [H3 H4]]].
  split; [apply H1 | split; [ | split; [apply H3 | ]]].
  - destruct (outcome (exec (getCategories (Some "WORK") None None (Some "B")
                         false)
                         Sample.twoTenants)) as [e | resp] eqn:E.
    + vm_compute in E. discriminate E.
    + apply (H2 _ _ _ _ _ E).
  - apply (H4 Hw Hin "Work" 0.25%float).
Defined.

Lemma update_delete_not_found_witness :
  (exec (updateCategory "c9" Sample.bills (Some "A")) Sample.twoTenants =
     (inl notFound, Sample.twoTenants,
      [Ev (FindFirst (whereId "c9" (Some "A")))]) /\
   exec (deleteCategory "c9" (Some "A")) Sample.twoTenants =
     (inl notFound, Sample.twoTenants,
      [Ev (FindFirst (whereId "c9" (Some "A")))])) /\
  (exec (updateCategory "c0" Sample.bills (Some "B")) Sample.twoTenants =
     (inl notFound, Sample.twoTenants,
      [Ev (FindFirst (whereId "c0" (Some "B")))]) /\
   exec (deleteCategory "c0" (Some "B")) Sample.twoTenants =
     (inl notFound, Sample.twoTenants,
      [Ev (FindFirst (whereId "c0" (Some "B")))])).
Proof.
  split.
  - destruct (update_delete_not_found Sample.bills
                (@notVisible_check "c9" (Some "A") Sample.twoTenants eq_refl))
      as [H1 [H2 _]].
    split; [exact H1 | exact H2].
  - destruct (update_delete_not_found Sample.bills
                (@notVisible_check "c0" (Some "B") Sample.twoTenants eq_refl))
      as [H1 [H2 _]].
    split; [exact H1 | exact H2].
Defined.

Lemma update_overwrites_three_fields_witness :
  exists (old : Category) (l1 l2 : list Category),
    rows Sample.twoTenants = l1 ++ old :: l2 /\
    cat_id old = "c0" /\
    visible (Some "A") old = true /\
    {| cat_id := "c0"; cat_nome := "Bills"; cat_cor := "#FF0000";
       cat_descricao := None; cat_tenantId := Some "A";
       cat_criadoEm := 0 |}
    = {| cat_id := cat_id old;
         cat_nome := in_nome Sample.bills;
         cat_cor := in_cor Sample.bills;
         cat_descricao := orNull (in_descricao Sample.bills);
         cat_tenantId := cat_tenantId old;
         cat_criadoEm := cat_criadoEm old |} /\
    rows (finalState
            (exec (updateCategory "c0" Sample.bills (Some "A"))
               Sample.twoTenants))
    = l1 ++ {| cat_id := "c0"; cat_nome := "Bills"; cat_cor := "#FF0000";
               cat_descricao := None; cat_tenantId := Some "A";
               cat_criadoEm := 0 |} :: l2 /\
    (in_descricao Sample.bills = None ->
     cat_descricao
       {| cat_id := "c0"; cat_nome := "Bills"; cat_cor := "#FF0000";
          cat_descricao := None; cat_tenantId := Some "A";
          cat_criadoEm := 0 |} = None).
Proof.
  assert (Hw : wellFormed Sample.twoTenants).
  { unfold Sample.twoTenants.
    apply wellFormed_exec, wellFormed_exec, wellFormed_empty. }
  apply (@update_overwrites_three_fields _ Sample.twoTenants
           (finalState (exec (updateCategory "c0" Sample.bills (Some "A"))
                          Sample.twoTenants))
           "c0" Sample.bills (Some "A") _
           (trace (exec (updateCategory "c0" Sample.bills (Some "A"))
                     Sample.twoTenants))
           (proj1 Hw)).
  reflexivity.
Defined.

Lemma falsy_descricao_is_stored_as_null_witness :
  let data := {| in_nome := "Bills"; in_cor := "#FF0000";
                 in_descricao := Some "" |} in
  let created := {| cat_id := "c2"; cat_nome := "Bills"; cat_cor := "#FF0000";
                    cat_descricao := None; cat_tenantId := Some "t1";
                    cat_criadoEm := 2 |} in
  let updated := {| cat_id := "c0"; cat_nome := "Bills"; cat_cor := "#FF0000";
                    cat_descricao := None; cat_tenantId := Some "A";
                    cat_criadoEm := 0 |} in
  orNull (in_descricao data) = None /\
  (None = orNull (in_descricao data) /\ None <> Some "") /\
  (In created
      (rows (finalState (exec (createCategory data (Some "t1"))
                           Sample.twoTenants))) /\
   cat_descricao created = orNull (in_descricao data) /\
   cat_descricao created <> Some "") /\
  (In updated
      (rows (finalState (exec (updateCategory "c0" data (Some "A"))
                           Sample.twoTenants))) /\
   cat_descricao updated = orNull (in_descricao data) /\
   cat_descricao updated <> Some "").
Proof.
  intros data created updated.
  destruct (falsy_descricao_is_stored_as_null data "c0" (Some "t1"))
    as [_ [_ [H1 [H2 [H3 _]]]]].
  destruct (falsy_descricao_is_stored_as_null data "c0" (Some "A"))
    as [_ [_ [_ [_ [_ H4]]]]].
  split; [apply H1; reflexivity | split; [ | split]].
  - apply (H2 _ handle Sample.twoTenants
             (Ev (Create {| d_nome := "Bills"; d_cor := "#FF0000";
                            d_descricao := None; d_tenantId := Some "t1" |}))
             None); [left; reflexivity | reflexivity].
  - apply (H3 Sample.twoTenants _ created
             (trace (exec (createCategory data (Some "t1"))
                       Sample.twoTenants))).
    reflexivity.
  - apply (H4 Sample.twoTenants _ updated
             (trace (exec (updateCategory "c0" data (Some "A"))
                       Sample.twoTenants))).
    reflexivity.
Defined.

Lemma blank_name_rejected_else_trimmed_witness :
  let call t := findOrCreateCategoryByName " WORK " (Some t) 0.25%float in
  (run handle (findOrCreateCategoryByName "" (Some "t1") 0.25%float)
     Sample.oneTenant = (inl nameRequired, Sample.oneTenant, []) /\
   exec (findOrCreateCategoryByName (jsapp " " Sample.nbsp) (Some "t1")
           0.25%float)
     Sample.oneTenant = (inl nameRequired, Sample.oneTenant, [])) /\
  Forall (fun ev => eventNome ev = Some "WORK")
    (trace (run Script.handle (call "t1") Sample.raceLostExact)) /\
  (outcome (exec (call "A") Sample.twoTenants) = inr "c0" /\
   rows (finalState (exec (call "A") Sample.twoTenants))
     = rows Sample.twoTenants) /\
  (exists r : Category,
      outcome (exec (call "t1") Sample.oneTenant) = inr (cat_id r) /\
      rows (finalState (exec (call "t1") Sample.oneTenant))
        = rows Sample.oneTenant ++ [r] /\
      cat_nome r = "WORK").
Proof.
  intros call.
  assert (Hn : trim " WORK " <> "") by (vm_compute; discriminate).
  destruct (blank_name_rejected_else_trimmed "" (Some "t1") 0.25%float)
    as [B1 _].
  destruct (blank_name_rejected_else_trimmed (jsapp " " Sample.nbsp)
              (Some "t1") 0.25%float)
    as [B2 _].
  destruct (blank_name_rejected_else_trimmed " WORK " (Some "t1") 0.25%float)
    as [_ T].
  destruct (blank_name_rejected_else_trimmed " WORK " (Some "A") 0.25%float)
    as [_ TA].
  destruct (B1 eq_refl) as [_ [_ R1]].
  destruct (B2 eq_refl) as [_ [_ R2]].
  destruct (T Hn) as [_ [_ [T1 [_ [_ T2]]]]].
  destruct (TA Hn) as [_ [_ [_ [_ [_ T3]]]]].
  split; [split; [apply R1 | apply R2] | split; [ | split]].
  - apply (T1 _ Script.handle Sample.raceLostExact).
  - pose proof (T3 Sample.twoTenants) as M. cbv zeta in M.
    set (f := find _ _) in M. vm_compute in f. subst f.
    cbv beta iota in M. exact M.
  - pose proof (T2 Sample.oneTenant) as M. cbv zeta in M.
    set (f := find _ _) in M. vm_compute in f. subst f.
    cbv beta iota in M. exact M.
Defined.

Lemma getCategories_pagination_witness :
  let run3 :=
    exec (getCategories None (Some 3%Z) (Some 10%Z) (Some "t1") false)
      Sample.twentyFive in
  let run4 :=
    exec (getCategories None (Some 4%Z) (Some 10%Z) (Some "t1") true)
      Sample.twentyFive in
  (exists resp : CategoriesResponse,
      outcome run3 = inr resp /\
      total resp = 25%Z /\
      totalPages resp = Some 3%Z /\
      length (categories resp) = 5%nat) /\
  (exists resp : CategoriesResponse,
      outcome run4 = inr resp /\
      total resp = 25%Z /\
      categories resp = []).
Proof.
  intros run3 run4.
  assert (H1 : (1 <= 3)%Z) by lia.
  assert (H2 : (1 <= 4)%Z) by lia.
  assert (H3 : (1 <= 10)%Z) by lia.
  assert (Hn : Z.of_nat
                 (length (filter (matches (listWhere None (Some "t1")))
                            (rows Sample.twentyFive))) = 25%Z)
    by (vm_compute; reflexivity).
  split.
  - destruct (getCategories_pagination Sample.twentyFive None (Some "t1")
                false H1 H3)
      as [_ [_ [tp [Hx [_ [_ [_ H25]]]]]]].
    destruct (H25 Hn eq_refl) as [Htp Hpage].
    destruct (Hpage eq_refl) as [_ Hlen].
    eexists. unfold run3. rewrite Hx. unfold outcome. cbn [fst].
    split; [reflexivity | cbn [total totalPages categories]].
    split; [exact Hn | split; [rewrite Htp; reflexivity | exact Hlen]].
  - destruct (getCategories_pagination Sample.twentyFive None (Some "t1")
                true H2 H3)
      as [_ [_ [tp [Hx [_ [_ [Hbeyond H25]]]]]]].
    destruct (H25 Hn eq_refl) as [Htp _].
    eexists. unfold run4. rewrite Hx. unfold outcome. cbn [fst].
    split; [reflexivity | cbn [total categories]].
    split; [exact Hn | ].
    assert (Hlt : (tp < 4)%Z) by lia.
    exact (Hbeyond Hlt).
Defined.

Lemma getCategories_rejections_witness :
  outcome (run Script.handle (getCategories None None None (Some "t1")
                               false)
             Sample.pageQueryDown) = inl Sample.unreachable /\
  outcome (run Script.handle (getCategories None None None (Some "t1")
                               false)
             Sample.countDown) = inl Sample.unreachable.
Proof.
  split.
  - apply (proj1 (@getCategories_rejections _ _ Script.handle
                    Sample.pageQueryDown [Script.ACount (inr 7%Z)] []
                    None None None (Some "t1") false Sample.unreachable)
             7%Z eq_refl eq_refl).
  - apply (proj2 (@getCategories_rejections _ _ Script.handle
                    Sample.countDown
                    [Script.ACount (inl Sample.unreachable)] []
                    None None None (Some "t1") false Sample.unreachable)
             [Sample.work] eq_refl eq_refl).
Defined.

Lemma getCategories_both_rejected_witness :
  outcome (run Script.handle (getCategories None None None (Some "t1") false)
             Sample.bothDown) = inl Sample.unreachable /\
  outcome (run Script.handle (getCategories None None None (Some "t1") true)
             Sample.bothDown) = inl Sample.timedOut.
Proof.
  split.
  - rewrite (@getCategories_both_rejected _ _ Script.handle Sample.bothDown
               [Script.ACount (inl Sample.timedOut)] []
               None None None (Some "t1") false
               Sample.unreachable Sample.timedOut eq_refl eq_refl).
    reflexivity.
  - rewrite (@getCategories_both_rejected _ _ Script.handle Sample.bothDown
               [Script.ACount (inl Sample.timedOut)] []
               None None None (Some "t1") true
               Sample.unreachable Sample.timedOut eq_refl eq_refl).
    reflexivity.
Defined.

Lemma search_ignores_letter_case_witness :
  getCategories (Some "Work") (Some 2%Z) None (Some "t1") false
    = getCategories (Some "WORK") (Some 2%Z) None (Some "t1") false.
Proof.
  assert (H : toLowerCase "Work" = toLowerCase "WORK")
    by (vm_compute; reflexivity).
  assert (Ht : truthy "Work" = truthy "WORK") by reflexivity.
  apply (@search_ignores_letter_case _ "Work" "WORK" (Some 2%Z) None
           (Some "t1") false H Ht).
Defined.

Lemma search_selects_by_nome_or_descricao_witness :
  exists resp : CategoriesResponse,
    outcome (exec (getCategories (Some "OFF") None None (Some "A")
                     false)
               Sample.twoTenants) = inr resp /\
    (forall r : Category,
        In r (categories resp) ->
        In r (rows Sample.twoTenants) /\
        (visible (Some "A") r &&
         (includes (fold (toLowerCase "OFF")) (fold (cat_nome r)) ||
          match cat_descricao r with
          | Some d => includes (fold (toLowerCase "OFF")) (fold d)
          | None => false
          end))%bool = true) /\
    total resp = 1%Z.
Proof.
  destruct (outcome (exec (getCategories (Some "OFF") None None (Some "A")
                     false)
                       Sample.twoTenants)) as [e | resp] eqn:E.
  - vm_compute in E. discriminate E.
  - exists resp. split; [reflexivity | ].
    destruct (@search_selects_by_nome_or_descricao _ Sample.twoTenants
                "OFF" None None (Some "A") false resp eq_refl E) as [H1 H2].
    split; [exact H1 | rewrite H2; reflexivity].
Defined.

Lemma pages_tile_the_listing_witness :
  firstPages Sample.twentyFive None 10 (Some "t1") false 3
    = listing (listWhere None (Some "t1")) Sample.twentyFive.
Proof.
  assert (H1 : (1 <= 10)%Z) by lia.
  assert (H2 : (length (listing (listWhere None (Some "t1"))
                          Sample.twentyFive) <= 3 * Z.to_nat 10)%nat).
  { apply Nat.leb_le. vm_compute. reflexivity. }
  exact (proj2 (@pages_tile_the_listing _ Sample.twentyFive None 10
                  (Some "t1") false 3 H1) H2).
Defined.

Lemma first_page_is_everything_witness :
  exists (l : list Category) (resp : CategoriesResponse),
    outcome (exec (getAllCategories (Some "t1")) Sample.twentyFive)
      = inr l /\
    outcome (exec (getCategories None (Some 1%Z) (Some 40%Z) (Some "t1")
                     false)
               Sample.twentyFive) = inr resp /\
    categories resp = l /\
    total resp = Z.of_nat (length l).
Proof.
  assert (H1 : (1 <= 40)%Z) by lia.
  assert (H2 : (Z.of_nat (length (filter (visible (Some "t1"))
                                    (rows Sample.twentyFive))) <= 40)%Z).
  { apply Z.leb_le. vm_compute. reflexivity. }
  exact (@first_page_is_everything _ Sample.twentyFive 40 (Some "t1") false
           H1 H2).
Defined.

Lemma write_rejections_propagate_witness :
  outcome (run Script.handle (createCategory Sample.bills (Some "t1"))
             Sample.insertRejected) = inl uniqueViolation /\
  outcome (run Script.handle (updateCategory "c7" Sample.bills (Some "t1"))
             Sample.writeRejected) = inl uniqueViolation /\
  outcome (run Script.handle (deleteCategory "c7" (Some "t1"))
             Sample.deleteRejected) = inl Sample.unreachable.
Proof.
  split; [ | split].
  - rewrite (proj1 (@write_rejections_propagate _ Script.handle
                      Sample.insertRejected [] [] "c7" Sample.bills
                      (Some "t1") Sample.work uniqueViolation) eq_refl).
    reflexivity.
  - rewrite (proj1 (proj2 (@write_rejections_propagate _ Script.handle
                             Sample.writeRejected
                             [Script.ACategory (inl uniqueViolation)] []
                             "c7" Sample.bills (Some "t1") Sample.work
                             uniqueViolation)) eq_refl eq_refl).
    reflexivity.
  - rewrite (proj2 (proj2 (@write_rejections_propagate _ Script.handle
                             Sample.deleteRejected
                             [Script.AUnit (inl Sample.unreachable)] []
                             "c7" Sample.bills (Some "t1") Sample.work
                             Sample.unreachable)) eq_refl eq_refl).
    reflexivity.
Defined.

Lemma getCategoryById_finds_visible_row_witness :
  outcome (exec (getCategoryById "c0" (Some "A")) Sample.twoTenants)
    = inr Sample.workA /\
  outcome (exec (getCategoryById "c0" None) Sample.twoTenants)
    = inr Sample.workA /\
  (In Sample.workA (rows Sample.twoTenants) /\
   cat_id Sample.workA = "c0" /\ visible (Some "A") Sample.workA = true).
Proof.
  assert (Hw : wellFormed Sample.twoTenants).
  { unfold Sample.twoTenants.
    apply wellFormed_exec, wellFormed_exec, wellFormed_empty. }
  assert (Hin : In Sample.workA (rows Sample.twoTenants))
    by (vm_compute; left; reflexivity).
  pose proof (proj2 (getCategoryById_finds_visible_row Sample.twoTenants
                       "c0" (Some "A"))
                Sample.workA (proj1 Hw) Hin eq_refl eq_refl) as H1.
  pose proof (proj2 (getCategoryById_finds_visible_row Sample.twoTenants
                       "c0" None)
                Sample.workA (proj1 Hw) Hin eq_refl eq_refl) as H2.
  split; [exact H1 | split; [exact H2 | ]].
  exact (proj1 (getCategoryById_finds_visible_row Sample.twoTenants
                  "c0" (Some "A")) Sample.workA H1).
Defined.

Lemma create_then_read_witness :
  let r := {| cat_id := "c0"; cat_nome := "Bills"; cat_cor := "#FF0000";
              cat_descricao := None; cat_tenantId := Some "t1";
              cat_criadoEm := 0 |} in
  rows Sample.oneTenant = [r] /\
  outcome (exec (getCategoryById "c0" (Some "t1")) Sample.oneTenant)
    = inr r /\
  outcome (exec (getCategoryById "c0" (Some "t2")) Sample.oneTenant)
    = inl notFound.
Proof.
  intros r.
  assert (Hne : Some "t1" <> Some "t2") by discriminate.
  destruct (@create_then_read _ empty Sample.oneTenant Sample.bills
              (Some "t1") r
              (trace (exec (createCategory Sample.bills (Some "t1")) empty))
              wellFormed_empty eq_refl)
    as [_ [_ [_ [H1 [H2 [_ H3]]]]]].
  split; [exact H1 | split; [exact H2 | exact (H3 "t2" Hne)]].
Defined.

Lemma create_then_same_name_witness :
  let spaced :=
    {| in_nome := " Bills "; in_cor := "#FF0000"; in_descricao := None |} in
  let shout n :=
    {| in_nome := n; in_cor := "#000000"; in_descricao := None |} in
  outcome (exec (createCategory (shout "BILLS") (Some "t1")) Sample.oneTenant)
    = inl uniqueViolation /\
  outcome (exec (findOrCreateCategoryByName " bills " (Some "t1") 0.25%float)
             Sample.oneTenant) = inr "c0" /\
  outcome (exec (createCategory (shout " BILLS ") (Some "t1"))
             (finalState (exec (createCategory spaced (Some "t1")) empty)))
    = inl uniqueViolation.
Proof.
  intros spaced shout.
  assert (Hl : fold "BILLS" = fold (in_nome Sample.bills))
    by (vm_compute; reflexivity).
  assert (Hn : trim " bills " <> "") by (vm_compute; discriminate).
  assert (Hl' : fold (trim " bills ") = fold (in_nome Sample.bills))
    by (vm_compute; reflexivity).
  assert (Hs : fold " BILLS " = fold (in_nome spaced))
    by (vm_compute; reflexivity).
  destruct (@create_then_same_name _ empty Sample.oneTenant Sample.bills
              (shout "BILLS") "t1" " bills " 0.25%float
              {| cat_id := "c0"; cat_nome := "Bills"; cat_cor := "#FF0000";
                 cat_descricao := None; cat_tenantId := Some "t1";
                 cat_criadoEm := 0 |}
              (trace (exec (createCategory Sample.bills (Some "t1")) empty))
              eq_refl)
    as [_ [P1 P2]].
  destruct (@create_then_same_name _ empty
              (finalState (exec (createCategory spaced (Some "t1")) empty))
              spaced (shout " BILLS ") "t1" "" 0.25%float
              {| cat_id := "c0"; cat_nome := " Bills "; cat_cor := "#FF0000";
                 cat_descricao := None; cat_tenantId := Some "t1";
                 cat_criadoEm := 0 |}
              (trace (exec (createCategory spaced (Some "t1")) empty))
              eq_refl)
    as [_ [Q1 _]].
  split; [exact (proj1 (P1 Hl)) | split].
  - exact (proj1 (P2 Hn Hl')).
  - exact (proj1 (Q1 Hs)).
Defined.

Lemma delete_then_gone_witness :
  let db' := finalState (exec (deleteCategory "c0" (Some "A"))
                           Sample.twoTenants) in
  (forall r : Category,
      In r (rows db') <-> In r (rows Sample.twoTenants) /\ cat_id r <> "c0") /\
  outcome (exec (getCategoryById "c0" None) db') = inl notFound /\
  outcome (exec (deleteCategory "c0" (Some "A")) db') = inl notFound.
Proof.
  intros db'.
  destruct (@delete_then_gone _ Sample.twoTenants db' "c0" (Some "A")
              (trace (exec (deleteCategory "c0" (Some "A"))
                        Sample.twoTenants)) eq_refl)
    as [_ [H1 H2]].
  split; [exact H1 | ].
  split; [exact (proj1 (H2 None)) | exact (proj1 (proj2 (H2 (Some "A"))))].
Defined.

Lemma update_then_read_witness :
  let db' := finalState (exec (updateCategory "c0" Sample.bills (Some "A"))
                           Sample.twoTenants) in
  let r' := {| cat_id := "c0"; cat_nome := "Bills"; cat_cor := "#FF0000";
               cat_descricao := None; cat_tenantId := Some "A";
               cat_criadoEm := 0 |} in
  outcome (exec (getCategoryById "c0" (Some "A")) db') = inr r'.
Proof.
  intros db' r'.
  assert (Hw : wellFormed Sample.twoTenants).
  { unfold Sample.twoTenants.
    apply wellFormed_exec, wellFormed_exec, wellFormed_empty. }
  exact (proj1 (@update_then_read _ Sample.twoTenants db' "c0" Sample.bills
                  (Some "A") r'
                  (trace (exec (updateCategory "c0" Sample.bills (Some "A"))
                            Sample.twoTenants))
                  (proj1 Hw) eq_refl)).
Defined.

Lemma writes_stay_in_tenant_witness :
  let owned (d : DB) := filter (visible (Some "A")) (rows d) in
  owned (finalState (exec (createCategory Sample.bills (Some "B"))
                       Sample.twoTenants)) = [Sample.workA] /\
  owned (finalState (exec (updateCategory "c1" Sample.bills (Some "B"))
                       Sample.twoTenants)) = [Sample.workA] /\
  owned (finalState (exec (deleteCategory "c0" (Some "B"))
                       Sample.twoTenants)) = [Sample.workA] /\
  owned (finalState (exec (findOrCreateCategoryByName "Work" (Some "B")
                             0.25%float) Sample.twoTenants)) = [Sample.workA].
Proof.
  intros owned.
  assert (Hab : "A" <> "B") by discriminate.
  assert (Hw : wellFormed Sample.twoTenants).
  { unfold Sample.twoTenants.
    apply wellFormed_exec, wellFormed_exec, wellFormed_empty. }
  assert (H0 : owned Sample.twoTenants = [Sample.workA]) by reflexivity.
  destruct (@writes_stay_in_tenant _ Sample.twoTenants "A" "B" "c1" "Work"
              Sample.bills 0.25%float Hab (proj1 Hw)) as [H1 [H2 [_ H4]]].
  destruct (@writes_stay_in_tenant _ Sample.twoTenants "A" "B" "c0" "Work"
              Sample.bills 0.25%float Hab (proj1 Hw)) as [_ [_ [H3 _]]].
  fold owned in H1, H2, H3, H4.
  rewrite <- H0.
  split; [exact H1 | split; [exact H2 | split; [exact H3 | exact H4]]].
Defined.

Lemma new_category_colour_from_palette_witness :
  let d random := newCategoryData (trim " Work ") (Some "t1") random in
  In (d_cor (d 0x1.6666666666666p-1%float)) defaultColors /\
  d_cor (d 0x1.6666666666666p-1%float) = "#06B6D4" /\
  In (d_cor (d 0x1.fffffffffffffp-1%float)) defaultColors /\
  d_cor (d 0x1.fffffffffffffp-1%float) = "#EC4899".
Proof.
  intros d.
  split; [ | split; [reflexivity | split; [ | reflexivity]]].
  - exact (proj1 (@new_category_colour_from_palette _ empty " Work "
                    (Some "t1") 0x1.6666666666666p-1%float
                    eq_refl eq_refl)).
  - exact (proj1 (@new_category_colour_from_palette _ empty " Work "
                    (Some "t1") 0x1.fffffffffffffp-1%float
                    eq_refl eq_refl)).
Defined.

Lemma rejected_recovery_lookup_is_thrown_witness :
  outcome (run Script.handle
             (findOrCreateCategoryByName "Work" (Some "t1") 0.25%float)
             Sample.raceLostThenDown) = inl Sample.unreachable /\
  outcome (run Script.handle
             (findOrCreateCategoryByName "Work" (Some "t1") 0.25%float)
             Sample.raceLostExactDown) = inl Sample.unreachable.
Proof.
  assert (Hn : trim "Work" <> "") by (vm_compute; discriminate).
  split.
  - destruct (@rejected_recovery_lookup_is_thrown _ Script.handle "Work"
                (Some "t1") 0.25%float Sample.raceLostThenDown _ _
                uniqueViolation Sample.unreachable
                Hn eq_refl eq_refl eq_refl) as [H _].
    rewrite (H [] eq_refl). reflexivity.
  - destruct (@rejected_recovery_lookup_is_thrown _ Script.handle "Work"
                (Some "t1") 0.25%float Sample.raceLostExactDown _ _
                uniqueViolation Sample.unreachable
                Hn eq_refl eq_refl eq_refl) as [_ H].
    rewrite (H _ [] eq_refl eq_refl). reflexivity.
Defined.

Lemma find_or_create_resolves_witness :
  let nome := jsapp " Work" Sample.nbsp in
  let db' :=
    finalState (exec (findOrCreateCategoryByName nome (Some "t1") 0.25%float)
                  Sample.oneTenant) in
  exists r : Category,
    outcome (exec (findOrCreateCategoryByName nome (Some "t1") 0.25%float)
               Sample.oneTenant) = inr (cat_id r) /\
    cat_id r = "c1" /\
    In r (rows db') /\
    fold (cat_nome r) = fold "Work" /\
    outcome (exec (getCategoryById (cat_id r) (Some "t1")) db') = inr r.
Proof.
  intros nome db'.
  assert (Hn : trim nome <> "") by (vm_compute; discriminate).
  assert (Hw : wellFormed Sample.oneTenant).
  { unfold Sample.oneTenant. apply wellFormed_exec, wellFormed_empty. }
  destruct (@find_or_create_resolves _ Sample.oneTenant nome (Some "t1")
              0.25%float Hn) as [r [H1 [H2 [_ [H4 [_ H6]]]]]].
  exists r. split; [exact H1 | ].
  split.
  - vm_compute in H1. injection H1 as H1. symmetry. exact H1.
  - split; [exact H2 | split; [exact H4 | exact (H6 Hw)]].
Defined.

Lemma lost_race_resolves_to_winner_witness :
  let rival := jsapp "WORK" Sample.nbsp in
  let res :=
    run (Race.handle (findOrCreateCategoryByName rival (Some "t1") 0.75%float)
           1)
        (findOrCreateCategoryByName "Work" (Some "t1") 0.25%float)
        (Race.start Sample.oneTenant) in
  outcome res = inr "c1" /\
  Race.rival (finalState res) = Some (inr "c1") /\
  length (rows (Race.store (finalState res))) = 2%nat.
Proof.
  intros rival res.
  assert (Hn : trim "Work" <> "") by (vm_compute; discriminate).
  assert (Hn' : trim rival <> "") by (vm_compute; discriminate).
  assert (Hl : fold (trim rival) = fold (trim "Work"))
    by (vm_compute; reflexivity).
  assert (H1 : (1 <= 1)%nat) by lia.
  destruct (@lost_race_resolves_to_winner _ Sample.oneTenant "Work" rival
              (Some "t1") 0.25%float 0.75%float 1 Hn Hn' Hl eq_refl H1)
    as [R1 [R2 R3]].
  fold res in R1, R2, R3.
  split; [exact R1 | split; [exact R2 | rewrite R3; reflexivity]].
Defined.
